(** * SmartClass: content cache, fallback orchestrator and lesson sequencer

  A shallow embedding of the TypeScript sources

  - [lib/content-cache.ts]   (class [ContentCache]),
  - [lib/api-client.ts]      (generation gateway helpers),
  - [lib/chromadb-client.ts] (retrieval gateway, [validateContent]),
  - [data/ai-content.ts]     (the tiered orchestrator),
  - the content page         ([handleNextCard], [evaluateQuiz], scoring),

  together with the properties the specification states about them.

  Conventions of the embedding.
  - JavaScript numbers that hold counts and millisecond timestamps are
    integers of [Z].  The hit rate of the cache and the score and
    experience value of a quiz are computed in IEEE 754 double precision,
    as the code does: they are primitive floats.  Retrieval distances and
    alignment scores are rationals of [Q]; what is stated about them is
    stated so that it holds of the double arithmetic as well.
  - [Date.now()] is read once per public operation: every operation takes
    the current time [now] as an argument.
  - A JavaScript [Map] is an insertion-ordered association list, because
    the eviction loop depends on iteration order.
  - An [await]ed call to an external service is resolved by an explicit
    outcome supplied by the environment; a thrown exception is a value of
    the error type. *)

From Stdlib Require Import ZArith QArith Qround Qabs Qminmax Qfield Lqa.
From Stdlib Require Import Floats.
From Stdlib Require Import String Ascii List Lia.
From stdpp Require Import gmap strings list fin_maps pretty sorting.

Local Open Scope string_scope.
Local Open Scope Z_scope.

(** ** JavaScript primitives *)

Module Js.

(** [Math.round] of an exactly known value: nearest integer, ties towards
    +infinity. *)
Definition round (x : Q) : Z := Qfloor (x + (1 # 2))%Q.

(** The double that holds the integer [z]: [z] itself when [|z| <= 2^53],
    the nearest double otherwise. *)
Definition of_Z (z : Z) : float :=
  SF2Prim (binary_normalize prec emax z 0 false).

(** The integer nearest to a finite double, ties towards +infinity:
    a finite double is [v * 2^e] for integers [v] and [e], and for [e < 0]
    the result is [floor ((2 * v + 2^(-e)) / 2^(1 - e))].  [None] for NaN
    and the infinities. *)
Definition nearest (x : float) : option Z :=
  match Prim2SF x with
  | S754_zero _ => Some 0
  | S754_finite s m e =>
      let v := if s then Z.neg m else Z.pos m in
      if 0 <=? e then Some (Z.shiftl v e)
      else Some (Z.shiftr (2 * v + Z.shiftl 1 (- e)) (1 - e))
  | S754_infinity _ | S754_nan => None
  end.

(** [Math.round(x)] on doubles: NaN and the infinities are returned as
    they are, and an [x] with the sign bit set that rounds to zero gives
    [-0]. *)
Definition Math_round (x : float) : float :=
  match nearest x with
  | Some n => if (n =? 0) && get_sign x then (- 0)%float else of_Z n
  | None => x
  end.

(** *** Vocabulary of the statements about doubles *)



(** [s.startsWith(p)] *)
Definition startsWith (s p : string) : bool := String.prefix p s.

(** [s.includes(sub)]: [sub] occurs in [s] as a contiguous substring. *)
Fixpoint includes (s sub : string) : bool :=
  if String.prefix sub s then true
  else match s with
       | EmptyString => false
       | String _ s' => includes s' sub
       end.

(** [parts.join(sep)] *)
Definition join (sep : string) (parts : list string) : string :=
  String.concat sep parts.

(** Truthiness of a string and of a number. *)
Definition truthy_string (s : string) : bool :=
  match s with EmptyString => false | _ => true end.

Definition truthy_number (n : Z) : bool := negb (n =? 0).

(** [n.toString()] for an integral number. *)
Definition toString (n : Z) : string := pretty n.

(** ASCII case mapping, as [toUpperCase]/[toLowerCase] act on the ASCII
    letters; other characters are left unchanged. *)
Definition upper_ascii (c : ascii) : ascii :=
  let n := nat_of_ascii c in
  if ((97 <=? n) && (n <=? 122))%nat then ascii_of_nat (n - 32) else c.

Definition lower_ascii (c : ascii) : ascii :=
  let n := nat_of_ascii c in
  if ((65 <=? n) && (n <=? 90))%nat then ascii_of_nat (n + 32) else c.

Fixpoint toLowerCase (s : string) : string :=
  match s with
  | EmptyString => EmptyString
  | String c s' => String (lower_ascii c) (toLowerCase s')
  end.

(** [s.split(sep)] for a one-character separator. *)
Fixpoint split (sep : ascii) (s : string) : list string :=
  match s with
  | EmptyString => [EmptyString]
  | String c s' =>
      if Ascii.eqb c sep then EmptyString :: split sep s'
      else match split sep s' with
           | [] => [String c EmptyString]
           | w :: ws => String c w :: ws
           end
  end.

End Js.

(** ** Insertion-ordered [Map<string, V>] *)

Module JsMap.
Section Ops.
Context {V : Type}.

Fixpoint get (k : string) (m : list (string * V)) : option V :=
  match m with
  | [] => None
  | (k', v) :: m' => if decide (k' = k) then Some v else get k m'
  end.

(** [m.set(k, v)]: an existing key keeps its position, a new key is
    appended. *)
Fixpoint set (k : string) (v : V) (m : list (string * V)) : list (string * V) :=
  match m with
  | [] => [(k, v)]
  | (k', v') :: m' =>
      if decide (k' = k) then (k, v) :: m' else (k', v') :: set k v m'
  end.

Definition delete (k : string) (m : list (string * V)) : list (string * V) :=
  List.filter (fun kv => negb (bool_decide (fst kv = k))) m.

Definition size (m : list (string * V)) : Z := Z.of_nat (length m).

Definition keys (m : list (string * V)) : list string := List.map fst m.

(** Keys are unique: the representation invariant of a [Map]. *)
Definition wf (m : list (string * V)) : Prop := NoDup (keys m).
End Ops.
End JsMap.

(** ** [lib/content-cache.ts] *)

Module ContentCache.

Inductive EntryType := content | quiz.
Inductive QuizType := mid | final.

Record CacheKey := {
  type : EntryType;
  topicId : string;
  subtopicId : string;
  subjectId : string;
  gradeId : string;
  quizType : option QuizType;
  numCards : option Z
}.

Definition EntryType_str (t : EntryType) : string :=
  match t with content => "content" | quiz => "quiz" end.

Definition QuizType_str (q : QuizType) : string :=
  match q with mid => "mid" | final => "final" end.

Definition DEFAULT_TTL : Z := 30 * 60 * 1000.
Definition MAX_ENTRIES : Z := 100.
Definition CLEANUP_INTERVAL : Z := 5 * 60 * 1000.

Definition generateKey (params : CacheKey) : string :=
  let keyParts :=
    [EntryType_str (type params); subjectId params; gradeId params;
     topicId params; subtopicId params] in
  let keyParts :=
    match quizType params with
    | Some q => (keyParts ++ [QuizType_str q])%list
    | None => keyParts
    end in
  let keyParts :=
    match numCards params with
    | Some n => if Js.truthy_number n then (keyParts ++ [Js.toString n])%list else keyParts
    | None => keyParts
    end in
  Js.join ":" keyParts.

Record CacheEntry (T : Type) := {
  data : T;
  timestamp : Z;
  expiresAt : Z;
  accessCount : Z;
  lastAccessed : Z
}.
Arguments data {T} _.
Arguments timestamp {T} _.
Arguments expiresAt {T} _.
Arguments accessCount {T} _.
Arguments lastAccessed {T} _.

Record CacheStats := {
  totalEntries : Z;
  memoryUsage : Z;
  hitRate : float;
  hits : Z;
  misses : Z
}.

(** The object state: the in-memory [Map], the two counters of
    [this.stats], and the browser's [localStorage] restricted to values
    written by this class.  [localStorage = None] stands for an
    environment where every access to it throws (and is caught). *)
Record Cache (T : Type) := {
  cache : list (string * CacheEntry T);
  stats_hits : Z;
  stats_misses : Z;
  localStorage : option (gmap string (CacheEntry T))
}.
Arguments cache {T} _.
Arguments stats_hits {T} _.
Arguments stats_misses {T} _.
Arguments localStorage {T} _.

Definition storageKey (key : string) : string := "smartclass_cache_" +:+ key.

Section Ops.
Context {T : Type}.
(** [JSON.stringify(d).length], used only for the memory estimate. *)
Context (jsonLength : T -> Z).

Definition empty : Cache T :=
  {| cache := []; stats_hits := 0; stats_misses := 0; localStorage := Some ∅ |}.

Definition with_cache (c : Cache T) (m : list (string * CacheEntry T)) : Cache T :=
  {| cache := m; stats_hits := stats_hits c; stats_misses := stats_misses c;
     localStorage := localStorage c |}.

Definition with_storage (c : Cache T) (s : option (gmap string (CacheEntry T))) : Cache T :=
  {| cache := cache c; stats_hits := stats_hits c; stats_misses := stats_misses c;
     localStorage := s |}.

Definition persistToStorage (key : string) (entry : CacheEntry T) (c : Cache T) : Cache T :=
  with_storage c (insert (storageKey key) entry <$> localStorage c).

Definition removeFromStorage (key : string) (c : Cache T) : Cache T :=
  with_storage c (base.delete (storageKey key) <$> localStorage c).

Definition loadFromStorage (key : string) (now : Z) (c : Cache T)
  : option (CacheEntry T) * Cache T :=
  match localStorage c with
  | None => (None, c)
  | Some st =>
      match st !! storageKey key with
      | None => (None, c)
      | Some entry =>
          if now >? expiresAt entry
          then (None, with_storage c (Some (base.delete (storageKey key) st)))
          else (Some entry, c)
      end
  end.

Definition clearStorage (c : Cache T) : Cache T :=
  with_storage c
    (filter (fun kv => Js.startsWith (fst kv) "smartclass_cache_" = false)
       <$> localStorage c).

(** The loop of [evictLeastRecentlyUsed]: [oldestTime = None] is
    [Infinity]. *)
Definition lru_step (acc : option string * option Z) (kv : string * CacheEntry T)
  : option string * option Z :=
  let older :=
    match snd acc with
    | None => true
    | Some oldestTime => lastAccessed (snd kv) <? oldestTime
    end in
  if older then (Some (fst kv), Some (lastAccessed (snd kv))) else acc.

Definition oldestKey (m : list (string * CacheEntry T)) : option string :=
  fst (fold_left lru_step m (None, None)).

Definition evictLeastRecentlyUsed (c : Cache T) : Cache T :=
  match oldestKey (cache c) with
  | Some k =>
      if Js.truthy_string k
      then removeFromStorage k (with_cache c (JsMap.delete k (cache c)))
      else c
  | None => c
  end.

Definition set (params : CacheKey) (d : T) (ttl : Z) (now : Z) (c : Cache T) : Cache T :=
  let key := generateKey params in
  let c := if JsMap.size (cache c) >=? MAX_ENTRIES
           then evictLeastRecentlyUsed c else c in
  let entry := {| data := d; timestamp := now; expiresAt := now + ttl;
                  accessCount := 0; lastAccessed := now |} in
  let c := with_cache c (JsMap.set key entry (cache c)) in
  persistToStorage key entry c.

Definition processHit (key : string) (entry : CacheEntry T) (now : Z) (c : Cache T)
  : T * Cache T :=
  let entry := {| data := data entry; timestamp := timestamp entry;
                  expiresAt := expiresAt entry;
                  accessCount := accessCount entry + 1;
                  lastAccessed := now |} in
  (data entry,
   {| cache := JsMap.set key entry (cache c);
      stats_hits := stats_hits c + 1;
      stats_misses := stats_misses c;
      localStorage := localStorage c |}).

Definition count_miss (c : Cache T) : Cache T :=
  {| cache := cache c; stats_hits := stats_hits c;
     stats_misses := stats_misses c + 1; localStorage := localStorage c |}.

Definition get (params : CacheKey) (now : Z) (c : Cache T) : option T * Cache T :=
  let key := generateKey params in
  match JsMap.get key (cache c) with
  | None =>
      match loadFromStorage key now c with
      | (Some storedEntry, c) =>
          let c := with_cache c (JsMap.set key storedEntry (cache c)) in
          let (d, c) := processHit key storedEntry now c in
          (Some d, c)
      | (None, c) => (None, count_miss c)
      end
  | Some entry =>
      if now >? expiresAt entry
      then
        let c := with_cache c (JsMap.delete key (cache c)) in
        let c := removeFromStorage key c in
        (None, count_miss c)
      else
        let (d, c) := processHit key entry now c in
        (Some d, c)
  end.

Definition remove_keys (ks : list string) (c : Cache T) : Cache T :=
  fold_left
    (fun c key => removeFromStorage key (with_cache c (JsMap.delete key (cache c))))
    ks c.

Definition invalidateTopic (topic : string) (subtopic : option string) (c : Cache T)
  : Cache T :=
  let keysToDelete :=
    List.filter
      (fun key =>
         Js.includes key topic &&
         match subtopic with
         | None => true
         | Some st => negb (Js.truthy_string st) || Js.includes key st
         end)
      (JsMap.keys (cache c)) in
  remove_keys keysToDelete c.

Definition clear (c : Cache T) : Cache T :=
  let c := clearStorage (with_cache c []) in
  {| cache := cache c; stats_hits := 0; stats_misses := 0;
     localStorage := localStorage c |}.

(** [memoryUsage / 1024] is exact in doubles (a division by a power of
    two), so its [Math.round] is the rounding of the exact quotient. *)
Definition getStats (c : Cache T) : CacheStats :=
  let totalRequests := stats_hits c + stats_misses c in
  let rate : float :=
    if totalRequests >? 0
    then ((Js.of_Z (stats_hits c) / Js.of_Z totalRequests) * 100)%float
    else 0%float in
  let usage := fold_left (fun acc kv => acc + jsonLength (data (snd kv))) (cache c) 0 in
  {| totalEntries := JsMap.size (cache c);
     memoryUsage := Js.round (inject_Z usage / 1024)%Q;
     hitRate := (Js.Math_round (rate * 100) / 100)%float;
     hits := stats_hits c;
     misses := stats_misses c |}.

Definition cleanup (now : Z) (c : Cache T) : Cache T :=
  let expiredKeys :=
    List.map fst (List.filter (fun kv => now >? expiresAt (snd kv)) (cache c)) in
  remove_keys expiredKeys c.

Definition cacheContent (topic subtopic subject grade : string) (d : T)
    (n : Z) (now : Z) (c : Cache T) : Cache T :=
  set {| type := content; topicId := topic; subtopicId := subtopic;
         subjectId := subject; gradeId := grade;
         quizType := None; numCards := Some n |} d DEFAULT_TTL now c.

Definition getCachedContent (topic subtopic subject grade : string)
    (n : Z) (now : Z) (c : Cache T) : option T * Cache T :=
  get {| type := content; topicId := topic; subtopicId := subtopic;
         subjectId := subject; gradeId := grade;
         quizType := None; numCards := Some n |} now c.

Definition cacheQuiz (topic subtopic subject grade : string) (q : QuizType)
    (d : T) (now : Z) (c : Cache T) : Cache T :=
  set {| type := quiz; topicId := topic; subtopicId := subtopic;
         subjectId := subject; gradeId := grade;
         quizType := Some q; numCards := None |} d DEFAULT_TTL now c.

Definition getCachedQuiz (topic subtopic subject grade : string) (q : QuizType)
    (now : Z) (c : Cache T) : option T * Cache T :=
  get {| type := quiz; topicId := topic; subtopicId := subtopic;
         subjectId := subject; gradeId := grade;
         quizType := Some q; numCards := None |} now c.

(** Representation invariant of a cache object: unique keys, none of them
    the empty string (no key made by [generateKey] is). *)
Definition wf (c : Cache T) : Prop :=
  JsMap.wf (cache c) /\
  Forall (fun k => Js.truthy_string k = true) (JsMap.keys (cache c)).

(** *** Vocabulary of the statements about the cache *)

(** The entry that [processHit] leaves in the store. *)
Definition touched (e : CacheEntry T) (now : Z) : CacheEntry T :=
  {| data := data e; timestamp := timestamp e; expiresAt := expiresAt e;
     accessCount := accessCount e + 1; lastAccessed := now |}.

(** The entry that [set] creates. *)
Definition fresh (d : T) (ttl now : Z) : CacheEntry T :=
  {| data := d; timestamp := now; expiresAt := now + ttl;
     accessCount := 0; lastAccessed := now |}.

(** A call on the cache object, and a history of timed calls.  [clear()]
    is left out on purpose: it resets the counters. *)
Inductive Op :=
| OpGet (params : CacheKey)
| OpSet (params : CacheKey) (d : T) (ttl : Z)
| OpInvalidate (topic : string) (subtopic : option string)
| OpCleanup.

Definition apply_op (now : Z) (o : Op) (c : Cache T) : list (option T) * Cache T :=
  match o with
  | OpGet params => ([fst (get params now c)], snd (get params now c))
  | OpSet params d ttl => ([], set params d ttl now c)
  | OpInvalidate topic subtopic => ([], invalidateTopic topic subtopic c)
  | OpCleanup => ([], cleanup now c)
  end.

(** Runs a history; returns the results of its [get] calls, in order. *)
Fixpoint run (ops : list (Z * Op)) (c : Cache T) : list (option T) * Cache T :=
  match ops with
  | [] => ([], c)
  | (now, o) :: ops' =>
      let r1 := apply_op now o c in
      let r2 := run ops' (snd r1) in
      ((fst r1 ++ fst r2)%list, snd r2)
  end.




End Ops.

(** The decision behind the statement about the hit rate: with [h] hits of
    [t] requests, the doubles of [getStats] make [hitRate * 100] a
    double without sign bit whose [Math.round] is an integer of 0..10000
    nearest to [10000 * h / t]. *)
Definition hitRate_ok (h t : Z) : bool :=
  let x := (((Js.of_Z h / Js.of_Z t) * 100) * 100)%float in
  match Js.nearest x with
  | Some k =>
      negb (get_sign x) && (0 <=? k) && (k <=? 10000)
      && (2 * Z.abs (k * t - 10000 * h) <=? t)
  | None => false
  end.


End ContentCache.

(** ** Awaited calls and exceptions *)

Module Async.

(** What awaiting a call yields: a value, or a thrown error. *)
Inductive Outcome (A : Type) : Type :=
| Returns (a : A)
| Throws (error : string).
Arguments Returns {A} _.
Arguments Throws {A} _.

Definition bind {A B : Type} (m : Outcome A) (k : A -> Outcome B) : Outcome B :=
  match m with
  | Returns a => k a
  | Throws e => Throws e
  end.

(** [try { body } catch (error) { handler }] *)
Definition try_catch {A : Type} (body : Outcome A) (handler : string -> Outcome A)
  : Outcome A :=
  match body with
  | Returns a => Returns a
  | Throws e => handler e
  end.

Definition returns {A : Type} (m : Outcome A) : Prop := exists a, m = Returns a.

End Async.

Notation "'await' x <- m ;; k" := (Async.bind m (fun x => k))
(at level 10, x name, m at level 99, k at level 200).

(** ** [lib/api-client.ts]: the generation gateway *)

Module ApiClient.
Import Async.

Record ContentCard := {
  title : string;
  body : string;
  card_type : string
}.

Inductive QuestionType := multiple_choice | fill_blank | true_false.

Record QuizQuestion := {
  question : string;
  question_type : QuestionType;
  options : option (list string);
  correct_answer : string;
  explanation : string
}.

Record ContentResponse := {
  success : bool;
  content : list ContentCard
}.

Record HealthResponse := {
  status : string;
  model_loaded : bool;
  tokenizer_loaded : bool;
  cuda_available : bool;
  device : string
}.

Record ServiceStatus := {
  available : bool;
  modelLoaded : bool;
  message : string
}.

(** [s.replace('-', ' ')]: only the first occurrence is replaced. *)
Fixpoint replace_first_dash (s : string) : string :=
  match s with
  | EmptyString => EmptyString
  | String c s' =>
      if Ascii.eqb c "-" then String " " s' else String c (replace_first_dash s')
  end.

(** The class [\w] on ASCII. *)
Definition is_word_char (c : ascii) : bool :=
  let n := nat_of_ascii c in
  ((48 <=? n) && (n <=? 57) || (65 <=? n) && (n <=? 90)
   || (97 <=? n) && (n <=? 122) || (n =? 95))%nat.

(** [s.replace(/\b\w/g, l => l.toUpperCase())], [prev] telling whether the
    preceding character is a word character. *)
Fixpoint capitalize_words (prev : bool) (s : string) : string :=
  match s with
  | EmptyString => EmptyString
  | String c s' =>
      let w := is_word_char c in
      String (if w && negb prev then Js.upper_ascii c else c)
             (capitalize_words w s')
  end.

(** [generateContentForSubtopic]; [response] is what awaiting
    [apiClient.generateContent(...)] yields. *)
Definition generateContentForSubtopic (response : Outcome ContentResponse)
    (topicId subtopicId subjectId gradeId : string) (numCards : Z)
  : Outcome (list ContentCard) :=
  try_catch
    (await response <- response ;;
     Returns (content response))
    (fun error =>
       Returns
         [ {| title := capitalize_words false (replace_first_dash subtopicId)
                         +:+ " Overview";
              body := "<p>Welcome to this lesson on "
                        +:+ replace_first_dash subtopicId
                        +:+ ".</p><p>This content will be available when the AI service is running.</p>";
              card_type := "content" |} ]).

(** [checkAiServiceStatus]; [health] is what awaiting
    [apiClient.checkHealth()] yields. *)
Definition checkAiServiceStatus (health : Outcome HealthResponse)
  : Outcome ServiceStatus :=
  try_catch
    (await health <- health ;;
     if negb (model_loaded health)
     then Returns {| available := true; modelLoaded := false;
                     message := "AI service is starting up. Model is loading..." |}
     else Returns {| available := true; modelLoaded := true;
                     message := "AI service is ready!" |})
    (fun error =>
       Returns {| available := false; modelLoaded := false;
                  message := "AI service is not available. Using fallback content." |}).

End ApiClient.

(** ** [lib/chromadb-client.ts]: the retrieval gateway *)

Module ChromaDB.
Import Async.

Record Metadata := {
  subject : option string;
  grade : option string;
  topic : option string;
  subtopic : option string;
  document_type : option string;
  page_number : option Z
}.

Record ChromaDocument := {
  id : string;
  text : string;
  metadata : Metadata;
  distance : option Q
}.

Record RetrievalContext := {
  documents : list ChromaDocument;
  relevantContent : string;
  sources : list string
}.

Record Validation := {
  isValid : bool;
  confidence : Q;
  suggestions : list string;
  curriculumAlignment : Q
}.

(** Body of the [/chromadb-status] reply. *)
Record StatusData := {
  available : bool;
  document_count : Z
}.

(** Body of the [/search-curriculum] reply. *)
Record SearchData := {
  success : bool;
  search_documents : option (list ChromaDocument)
}.

Record SearchResponse := {
  ok : bool;
  http_status : Z;
  json : Outcome SearchData
}.

(** What one call of [retrieveContext] meets: the value of the shared
    [isConnected] flag when it starts (other requests may have changed
    it), the reply to the status probe it issues when the flag is off, and
    what awaiting the search [fetch] yields. *)
Record SearchEnv := {
  isConnected : bool;
  reconnect : Outcome StatusData;
  search : Outcome SearchResponse
}.

Record CollectionStats := {
  totalDocuments : Z;
  stats_subjects : list string;
  stats_grades : list string;
  isAvailable : bool
}.

Record ChromaStatus := {
  status_available : bool;
  collectionExists : bool;
  documentCount : Z;
  status_message : string
}.

Definition newline : string := String (ascii_of_nat 10) EmptyString.

(** [doc.distance || 1.0]: a missing or zero distance counts as 1. *)
Definition distance_or_1 (doc : ChromaDocument) : Q :=
  match distance doc with
  | Some d => if Qeq_bool d 0 then 1%Q else d
  | None => 1%Q
  end.

Definition Qlt_bool (x y : Q) : bool := negb (Qle_bool y x).

(** [arr.filter((x, index, arr) => arr.indexOf(x) === index)] *)
Fixpoint unique (seen : list string) (l : list string) : list string :=
  match l with
  | [] => []
  | x :: l' =>
      if bool_decide (x ∈ seen) then unique seen l'
      else x :: unique (x :: seen) l'
  end.

Definition getEmptyContext : RetrievalContext :=
  {| documents := []; relevantContent := EmptyString; sources := [] |}.

(** [testConnection]; returns the new value of [isConnected]. *)
Definition testConnection (reply : Outcome StatusData) : Outcome bool :=
  try_catch
    (await data <- reply ;;
     Returns (available data || false))
    (fun error => Returns false).

Definition retrieveContext (env : SearchEnv)
    (query subjectId gradeId : string) (topicId : option string) (nResults : Z)
  : Outcome RetrievalContext :=
  try_catch
    (await connected <-
       (if negb (isConnected env) then testConnection (reconnect env)
        else Returns (isConnected env)) ;;
     if negb connected then Returns getEmptyContext
     else
       await response <- search env ;;
       if negb (ok response)
       then Throws ("Search failed: " +:+ Js.toString (http_status response))
       else
         await data <- json response ;;
         match search_documents data with
         | Some documents =>
             if negb (success data) then Returns getEmptyContext
             else
               let relevantDocs :=
                 List.filter (fun doc => Qlt_bool (distance_or_1 doc) (8 # 10))
                   documents in
               let relevantContent :=
                 String.substring 0 2000
                   (Js.join (newline +:+ newline) (List.map text relevantDocs)) in
               let sources :=
                 unique []
                   (List.map
                      (fun doc =>
                         match document_type (metadata doc) with
                         | Some t => if Js.truthy_string t then t
                                     else "syllabus_document"
                         | None => "syllabus_document"
                         end)
                      relevantDocs) in
               Returns {| documents := relevantDocs;
                          relevantContent := relevantContent;
                          sources := sources |}
         | None => Returns getEmptyContext
         end)
    (fun error => Returns getEmptyContext).

Definition sum_distances (docs : list ChromaDocument) : Q :=
  fold_left (fun sum doc => (sum + distance_or_1 doc)%Q) docs 0%Q.

Definition validateContent (env : SearchEnv)
    (aiContent subjectId gradeId topicId : string) : Outcome Validation :=
  try_catch
    (await context <-
       retrieveContext env (String.substring 0 200 aiContent)
         subjectId gradeId (Some topicId) 3 ;;
     if (length (documents context) =? 0)%nat
     then Returns {| isValid := true; confidence := 5 # 10;
                     suggestions :=
                       ["No specific curriculum content found for validation"];
                     curriculumAlignment := 5 # 10 |}
     else
       let avgDistance :=
         (sum_distances (documents context)
            / inject_Z (Z.of_nat (length (documents context))))%Q in
       let curriculumAlignment := Qmax 0 (1 - avgDistance) in
       let isValid := Qlt_bool (3 # 10) curriculumAlignment in
       let confidence := Qmin (95 # 100) (curriculumAlignment * (12 # 10)) in
       let suggestions := [] in
       let suggestions :=
         if Qlt_bool curriculumAlignment (5 # 10)
         then (suggestions ++
               ["Consider aligning content more closely with curriculum standards"])%list
         else suggestions in
       let suggestions :=
         if (0 <? length (documents context))%nat
         then
           let topics :=
             firstn 3
               (unique []
                  (List.filter Js.truthy_string
                     (omap (fun doc => topic (metadata doc)) (documents context)))) in
           if (0 <? length topics)%nat
           then (suggestions ++
                 ["Consider incorporating concepts from: " +:+ Js.join ", " topics])%list
           else suggestions
         else suggestions in
       Returns {| isValid := isValid; confidence := confidence;
                  suggestions := suggestions;
                  curriculumAlignment := curriculumAlignment |})
    (fun error =>
       Returns {| isValid := true; confidence := 5 # 10;
                  suggestions := ["Content validation unavailable"];
                  curriculumAlignment := 5 # 10 |}).

Definition getCollectionStats (reply : Outcome StatusData) : Outcome CollectionStats :=
  try_catch
    (await data <- reply ;;
     if negb (available data)
     then Returns {| totalDocuments := 0; stats_subjects := []; stats_grades := [];
                     isAvailable := false |}
     else Returns {| totalDocuments := document_count data;
                     stats_subjects := []; stats_grades := [];
                     isAvailable := true |})
    (fun error =>
       Returns {| totalDocuments := 0; stats_subjects := []; stats_grades := [];
                  isAvailable := false |}).

Record RagResult := {
  enhancedPrompt : string;
  context : RetrievalContext;
  rag_validation : option Validation
}.

(** [generateRAGEnhancedContent]; [ctxEnv] serves its own retrieval,
    [valEnv] the retrieval made by its call of [validateContent]. *)
Definition generateRAGEnhancedContent (ctxEnv valEnv : SearchEnv)
    (prompt subjectId gradeId topicId subtopicId : string) : Outcome RagResult :=
  try_catch
    (await context <-
       retrieveContext ctxEnv (topicId +:+ " " +:+ subtopicId +:+ " " +:+ prompt)
         subjectId gradeId (Some topicId) 5 ;;
     let enhancedPrompt :=
       if Js.truthy_string (relevantContent context)
       then prompt +:+ newline +:+ newline +:+ "Relevant curriculum context:"
              +:+ newline +:+ relevantContent context +:+ newline +:+ newline
              +:+ "Please ensure content aligns with the curriculum standards above."
       else prompt in
     await validation <-
       (if (0 <? length (documents context))%nat
        then await v <- validateContent valEnv prompt subjectId gradeId topicId ;;
             Returns (Some v)
        else Returns None) ;;
     Returns {| enhancedPrompt := enhancedPrompt; context := context;
                rag_validation := validation |})
    (fun error =>
       Returns {| enhancedPrompt := prompt; context := getEmptyContext;
                  rag_validation := None |}).

(** [checkChromaDBStatus]; the two replies are those of the probe made by
    [testConnection] and of the one made by [getCollectionStats]. *)
Definition checkChromaDBStatus (probe statsReply : Outcome StatusData)
  : Outcome ChromaStatus :=
  try_catch
    (await isConnected <- testConnection probe ;;
     if negb isConnected
     then Returns {| status_available := false; collectionExists := false;
                     documentCount := 0;
                     status_message := "ChromaDB service is not available" |}
     else
       await stats <- getCollectionStats statsReply ;;
       Returns {| status_available := true;
                  collectionExists := isAvailable stats;
                  documentCount := totalDocuments stats;
                  status_message :=
                    if isAvailable stats
                    then "ChromaDB ready with " +:+ Js.toString (totalDocuments stats)
                           +:+ " curriculum documents"
                    else "ChromaDB collection not found" |})
    (fun error =>
       Returns {| status_available := false; collectionExists := false;
                  documentCount := 0;
                  status_message := "Error checking ChromaDB status" |}).

End ChromaDB.

(** ** [data/ai-content.ts]: the content orchestrator *)

Module AIContent.
Import Async.

Record AIContentCard := {
  title : string;
  body : string;
  card_type : string;
  image : option string;
  validation : option ChromaDB.Validation;
  ragContext : option ChromaDB.RetrievalContext
}.

(** The cache singleton holds card lists here. *)
Abbreviation Store := (ContentCache.Cache (list AIContentCard)).

(** Everything outside the process that one request meets: the clock at
    the cache lookup and at the cache write, and what awaiting each remote
    call yields. *)
Record Env := {
  now_read : Z;
  now_write : Z;
  health : Outcome ApiClient.HealthResponse;
  chroma_probe : Outcome ChromaDB.StatusData;
  chroma_stats : Outcome ChromaDB.StatusData;
  rag_context : ChromaDB.SearchEnv;
  rag_validation : ChromaDB.SearchEnv;
  card_validation : nat -> ChromaDB.SearchEnv;
  generate : Outcome ApiClient.ContentResponse;
  generate_retry : Outcome ApiClient.ContentResponse
}.

(** *** Stateful computations that may throw *)

Definition M (A : Type) : Type := Store -> Outcome A * Store.

Definition ret {A : Type} (a : A) : M A := fun c => (Returns a, c).

Definition bindM {A B : Type} (m : M A) (k : A -> M B) : M B :=
  fun c =>
    match m c with
    | (Returns a, c') => k a c'
    | (Throws e, c') => (Throws e, c')
    end.

Definition lift {A : Type} (o : Outcome A) : M A := fun c => (o, c).

Definition try_catchM {A : Type} (body : M A) (handler : string -> M A) : M A :=
  fun c =>
    match body c with
    | (Returns a, c') => (Returns a, c')
    | (Throws e, c') => handler e c'
    end.

(** [Promise.all]: rejects as soon as one member rejects. *)
Fixpoint all {A : Type} (ps : list (Outcome A)) : Outcome (list A) :=
  match ps with
  | [] => Returns []
  | p :: ps' =>
      await a <- p ;;
      await rest <- all ps' ;;
      Returns (a :: rest)
  end.

Definition dq : string := String (ascii_of_nat 34) EmptyString.

Definition capitalize (word : string) : string :=
  match word with
  | EmptyString => EmptyString
  | String c rest => String (Js.upper_ascii c) rest
  end.

Definition formatTitle (id : string) : string :=
  Js.join " " (List.map capitalize (Js.split "-" id)).

Definition imageKeywords : list string :=
  ["diagram"; "picture"; "image"; "chart"; "graph"; "illustration";
   "visual"; "map"; "timeline"; "shape"; "geometry"; "animal"; "plant"].

Definition shouldHaveImage (title body : string) : bool :=
  let text := Js.toLowerCase (title +:+ " " +:+ body) in
  existsb (fun keyword => Js.includes text keyword) imageKeywords.

Definition placeholder : string := "/placeholder.svg?height=200&width=400".

Definition getFallbackContent (subtopicId topicId subjectId : string)
  : list AIContentCard :=
  let baseContent := [
    {| title := "Introduction to "
      +:+ formatTitle subtopicId;
       body :=
      "<p>Welcome to this lesson on "
      +:+ formatTitle subtopicId
      +:+ "!</p>
             <p>This topic is an important part of "
      +:+ formatTitle subjectId
      +:+ " education.</p>
             <p>Key learning objectives for this lesson:</p>
             <ul class="
      +:+ dq
      +:+ "list-disc pl-6 my-4 space-y-2"
      +:+ dq
      +:+ ">
               <li>Understand the basic concepts</li>
               <li>Learn practical applications</li>
               <li>Practice with examples</li>
               <li>Apply knowledge to solve problems</li>
             </ul>
             <div class="
      +:+ dq
      +:+ "bg-blue-50 p-4 rounded-md my-4 border-l-4 border-blue-400"
      +:+ dq
      +:+ ">
               <p class="
      +:+ dq
      +:+ "font-semibold"
      +:+ dq
      +:+ ">Note: Enhanced AI content will be available when the AI service is running.</p>
             </div>";
       card_type := "introduction";
       image := None; validation := None; ragContext := None |};
    {| title := "Key Concepts in "
      +:+ formatTitle subtopicId;
       body :=
      "<p>Let's explore the fundamental concepts you'll learn in this lesson:</p>
             <div class="
      +:+ dq
      +:+ "space-y-4 my-4"
      +:+ dq
      +:+ ">
               <div class="
      +:+ dq
      +:+ "bg-gray-50 p-3 rounded-md"
      +:+ dq
      +:+ ">
                 <h4 class="
      +:+ dq
      +:+ "font-semibold mb-2"
      +:+ dq
      +:+ ">Core Principles</h4>
                 <p>Understanding the underlying principles helps build a solid foundation.</p>
               </div>
               <div class="
      +:+ dq
      +:+ "bg-gray-50 p-3 rounded-md"
      +:+ dq
      +:+ ">
                 <h4 class="
      +:+ dq
      +:+ "font-semibold mb-2"
      +:+ dq
      +:+ ">Real-World Applications</h4>
                 <p>See how these concepts apply to everyday situations and future learning.</p>
               </div>
               <div class="
      +:+ dq
      +:+ "bg-gray-50 p-3 rounded-md"
      +:+ dq
      +:+ ">
                 <h4 class="
      +:+ dq
      +:+ "font-semibold mb-2"
      +:+ dq
      +:+ ">Practice Opportunities</h4>
                 <p>Apply what you learn through guided exercises and examples.</p>
               </div>
             </div>";
       card_type := "concepts";
       image := None; validation := None; ragContext := None |};
    {| title := "Summary and Next Steps";
       body :=
      "<p>Great job working through this lesson on "
      +:+ formatTitle subtopicId
      +:+ "!</p>
             <p>Remember these key points:</p>
             <ul class="
      +:+ dq
      +:+ "list-disc pl-6 my-4 space-y-2"
      +:+ dq
      +:+ ">
               <li>Practice regularly to reinforce your learning</li>
               <li>Ask questions when you need clarification</li>
               <li>Connect new concepts to what you already know</li>
               <li>Look for patterns and relationships</li>
             </ul>
             <div class="
      +:+ dq
      +:+ "bg-green-50 p-4 rounded-md my-4 border-l-4 border-green-400"
      +:+ dq
      +:+ ">
               <p class="
      +:+ dq
      +:+ "font-semibold"
      +:+ dq
      +:+ ">Ready for the quiz? Test your understanding of "
      +:+ formatTitle subtopicId
      +:+ "!</p>
             </div>";
       card_type := "summary";
       image := None; validation := None; ragContext := None |} ] in
  baseContent.

Definition plain_card (card : ApiClient.ContentCard) : AIContentCard :=
  {| title := ApiClient.title card;
     body := ApiClient.body card;
     card_type := ApiClient.card_type card;
     image := if shouldHaveImage (ApiClient.title card) (ApiClient.body card)
              then Some placeholder else None;
     validation := None;
     ragContext := None |}.

Definition generateRAGEnhancedContentCards (env : Env)
    (subtopicId topicId subjectId gradeId : string) (numCards : Z)
  : Outcome (list AIContentCard) :=
  try_catch
    (let contentPrompt :=
       "Generate " +:+ Js.toString numCards +:+ " educational content cards for "
         +:+ formatTitle subtopicId +:+ " in " +:+ formatTitle subjectId
         +:+ " for " +:+ gradeId in
     await ragResult <-
       ChromaDB.generateRAGEnhancedContent (rag_context env) (rag_validation env)
         contentPrompt subjectId gradeId topicId subtopicId ;;
     await aiContent <-
       ApiClient.generateContentForSubtopic (generate env)
         topicId subtopicId subjectId gradeId numCards ;;
     await validatedContent <-
       all (imap
              (fun index card =>
                 await validation <-
                   ChromaDB.validateContent (card_validation env index)
                     (ApiClient.body card) subjectId gradeId topicId ;;
                 Returns
                   {| title := ApiClient.title card;
                      body := ApiClient.body card;
                      card_type := ApiClient.card_type card;
                      image := if shouldHaveImage (ApiClient.title card)
                                    (ApiClient.body card)
                               then Some placeholder else None;
                      validation := Some validation;
                      ragContext := Some (ChromaDB.context ragResult) |})
              aiContent) ;;
     Returns validatedContent)
    (fun error =>
       await aiContent <-
         ApiClient.generateContentForSubtopic (generate_retry env)
           topicId subtopicId subjectId gradeId numCards ;;
       Returns (List.map plain_card aiContent)).

Definition getCachedContent (topicId subtopicId subjectId gradeId : string)
    (numCards : Z) (now : Z) : M (option (list AIContentCard)) :=
  fun c =>
    let r := ContentCache.getCachedContent topicId subtopicId subjectId gradeId
               numCards now c in
    (Returns (fst r), snd r).

Definition cacheContent (topicId subtopicId subjectId gradeId : string)
    (cards : list AIContentCard) (numCards : Z) (now : Z) : M unit :=
  fun c =>
    (Returns tt,
     ContentCache.cacheContent topicId subtopicId subjectId gradeId cards
       numCards now c).

Definition getAIContentForSubtopic (env : Env)
    (subtopicId topicId subjectId gradeId : string) (numCards : Z)
  : M (list AIContentCard) :=
  try_catchM
    (bindM (getCachedContent topicId subtopicId subjectId gradeId numCards
              (now_read env))
       (fun cachedContent =>
          match cachedContent with
          | Some cachedContent => ret cachedContent
          | None =>
              bindM (lift (ApiClient.checkAiServiceStatus (health env)))
                (fun serviceStatus =>
                   if negb (ApiClient.available serviceStatus)
                      || negb (ApiClient.modelLoaded serviceStatus)
                   then
                     let fallbackContent :=
                       getFallbackContent subtopicId topicId subjectId in
                     bindM (cacheContent topicId subtopicId subjectId gradeId
                              fallbackContent numCards (now_write env))
                       (fun _ => ret fallbackContent)
                   else
                     bindM (lift (ChromaDB.checkChromaDBStatus (chroma_probe env)
                                    (chroma_stats env)))
                       (fun chromaStatus =>
                          bindM
                            (if ChromaDB.status_available chromaStatus
                                && ChromaDB.collectionExists chromaStatus
                             then
                               lift (generateRAGEnhancedContentCards env
                                       subtopicId topicId subjectId gradeId numCards)
                             else
                               lift (await aiContent <-
                                       ApiClient.generateContentForSubtopic
                                         (generate env)
                                         topicId subtopicId subjectId gradeId
                                         numCards ;;
                                     Returns (List.map plain_card aiContent)))
                            (fun enhancedContent =>
                               bindM (cacheContent topicId subtopicId subjectId
                                        gradeId enhancedContent numCards
                                        (now_write env))
                                 (fun _ => ret enhancedContent))))
          end))
    (fun error =>
       let fallbackContent := getFallbackContent subtopicId topicId subjectId in
       bindM (cacheContent topicId subtopicId subjectId gradeId fallbackContent
                numCards (now_write env))
         (fun _ => ret fallbackContent)).

(** *** Vocabulary of the statements about the orchestrator *)

(** The lookup made at the head of [getAIContentForSubtopic] finds
    nothing, neither in memory nor in the mirror. *)
Definition cache_miss (env : Env) (subtopicId topicId subjectId gradeId : string)
    (numCards : Z) (c : Store) : Prop :=
  fst (ContentCache.getCachedContent topicId subtopicId subjectId gradeId
         numCards (now_read env) c) = None.

(** The cache key of a content request, as [getCachedContent] and
    [cacheContent] build it. *)
Definition request_key (topicId subtopicId subjectId gradeId : string)
    (numCards : Z) : ContentCache.CacheKey :=
  {| ContentCache.type := ContentCache.content;
     ContentCache.topicId := topicId; ContentCache.subtopicId := subtopicId;
     ContentCache.subjectId := subjectId; ContentCache.gradeId := gradeId;
     ContentCache.quizType := None; ContentCache.numCards := Some numCards |}.

(** The generation gateway reports unavailable or not ready. *)
Definition generation_unavailable (env : Env) : Prop :=
  exists st, ApiClient.checkAiServiceStatus (health env) = Returns st /\
             (ApiClient.available st = false \/ ApiClient.modelLoaded st = false).

Definition generation_healthy (env : Env) : Prop :=
  exists st, ApiClient.checkAiServiceStatus (health env) = Returns st /\
             ApiClient.available st = true /\ ApiClient.modelLoaded st = true.

(** The retrieval gateway reports itself available with its collection
    present. *)
Definition retrieval_ready (env : Env) : Prop :=
  exists st,
    ChromaDB.checkChromaDBStatus (chroma_probe env) (chroma_stats env) = Returns st /\
    ChromaDB.status_available st = true /\ ChromaDB.collectionExists st = true.

(** No document of a search reply has a negative distance. *)
Definition nonneg_distances (senv : ChromaDB.SearchEnv) : Prop :=
  forall response data docs doc d,
    ChromaDB.search senv = Returns response ->
    ChromaDB.json response = Returns data ->
    ChromaDB.search_documents data = Some docs ->
    In doc docs -> ChromaDB.distance doc = Some d -> (0 <= d)%Q.

(** A card carries a validation whose alignment score is at least 0, and
    at most 1 when no document retrieved for a card has a negative
    distance. *)
Definition validated (env : Env) (card : AIContentCard) : Prop :=
  exists v, validation card = Some v /\
    (0 <= ChromaDB.curriculumAlignment v)%Q /\
    ((forall index, nonneg_distances (card_validation env index)) ->
     (ChromaDB.curriculumAlignment v <= 1)%Q).

End AIContent.

(** ** The content page: lesson progression and quiz scoring *)

Module Lesson.

Inductive ContentState :=
| Intro            (* "intro" *)
| Content          (* "content" *)
| ThankYou         (* "thank-you" *)
| MainQuiz         (* "main-quiz" *)
| MainQuizReview   (* "main-quiz-review" *)
| ExamPractice     (* "exam-practice" *)
| ExamReview       (* "exam-review" *)
| Completion.      (* "completion" *)

Record AIQuizQuestion := {
  question : string;
  question_type : ApiClient.QuestionType;
  options : option (list string);
  correct_answer : string;
  explanation : string;
  validation : option ChromaDB.Validation
}.

(** What a card component is handed. *)
Inductive Item :=
| CardItem (title body : string) (image : option string)
| QuestionItem (question : string) (options : list string)
               (correctAnswer explanation : string).

(** The data the page has loaded; the single intro and thank-you cards
    are built from static topic data. *)
Record Loaded := {
  introCard : Item;
  thankYouCard : Item;
  content : list AIContent.AIContentCard;
  mainQuiz : list AIQuizQuestion;
  examQuiz : list AIQuizQuestion
}.

(** The React state of the page. *)
Record Page := {
  contentState : ContentState;
  currentCardIndex : nat;
  quizAnswers : gmap nat string;
  quizResults : gmap nat bool
}.

Definition initial : Page :=
  {| contentState := Intro; currentCardIndex := 0%nat;
     quizAnswers := ∅; quizResults := ∅ |}.

Definition convertQuizForComponent (quiz : list AIQuizQuestion) : list Item :=
  List.map
    (fun q => QuestionItem (question q)
                (match options q with Some o => o | None => [] end)
                (correct_answer q) (explanation q))
    quiz.

Definition convertContentForComponent (content : list AIContent.AIContentCard)
  : list Item :=
  List.map
    (fun c => CardItem (AIContent.title c) (AIContent.body c) (AIContent.image c))
    content.

Definition currentContent (d : Loaded) (s : ContentState) : list Item :=
  match s with
  | Intro => [introCard d]
  | Content => convertContentForComponent (content d)
  | ThankYou => [thankYouCard d]
  | MainQuiz | MainQuizReview => convertQuizForComponent (mainQuiz d)
  | ExamPractice | ExamReview => convertQuizForComponent (examQuiz d)
  | Completion => []
  end.

(** The [forEach] loop of [evaluateQuiz], [index] being the loop index. *)
Fixpoint evaluate_loop (quiz : list AIQuizQuestion) (index : nat)
    (quizAnswers : gmap nat string) (results : gmap nat bool) : gmap nat bool :=
  match quiz with
  | [] => results
  | question :: rest =>
      evaluate_loop rest (index + 1)%nat quizAnswers
        (<[index := bool_decide (quizAnswers !! index = Some (correct_answer question))]>
           results)
  end.

Definition evaluateQuiz (quiz : list AIQuizQuestion) (quizAnswers : gmap nat string)
  : gmap nat bool :=
  evaluate_loop quiz 0%nat quizAnswers ∅.

Definition handleNextCard (d : Loaded) (p : Page) : Page :=
  if Z.of_nat (currentCardIndex p)
       <? Z.of_nat (length (currentContent d (contentState p))) - 1
  then {| contentState := contentState p;
          currentCardIndex := (currentCardIndex p + 1)%nat;
          quizAnswers := quizAnswers p; quizResults := quizResults p |}
  else
    match contentState p with
    | Intro =>
        {| contentState := Content; currentCardIndex := 0%nat;
           quizAnswers := quizAnswers p; quizResults := quizResults p |}
    | Content =>
        {| contentState := ThankYou; currentCardIndex := 0%nat;
           quizAnswers := quizAnswers p; quizResults := quizResults p |}
    | ThankYou =>
        {| contentState := MainQuiz; currentCardIndex := 0%nat;
           quizAnswers := ∅; quizResults := quizResults p |}
    | MainQuiz =>
        {| contentState := MainQuizReview; currentCardIndex := 0%nat;
           quizAnswers := quizAnswers p;
           quizResults := evaluateQuiz (mainQuiz d) (quizAnswers p) |}
    | MainQuizReview =>
        {| contentState := ExamPractice; currentCardIndex := 0%nat;
           quizAnswers := ∅; quizResults := quizResults p |}
    | ExamPractice =>
        {| contentState := ExamReview; currentCardIndex := 0%nat;
           quizAnswers := quizAnswers p;
           quizResults := evaluateQuiz (examQuiz d) (quizAnswers p) |}
    | ExamReview =>
        {| contentState := Completion; currentCardIndex := currentCardIndex p;
           quizAnswers := quizAnswers p; quizResults := quizResults p |}
    | Completion => p
    end.

Definition handleAnswerSelect (questionIndex : nat) (answer : string) (p : Page) : Page :=
  {| contentState := contentState p; currentCardIndex := currentCardIndex p;
     quizAnswers := <[questionIndex := answer]> (quizAnswers p);
     quizResults := quizResults p |}.

(** The effect that runs in "main-quiz-review".
    [Object.values(quizResults).filter((result) => result).length] *)
Definition correctAnswers (quizResults : gmap nat bool) : Z :=
  Z.of_nat (size (filter (fun kv => snd kv = true) quizResults)).

(** [Math.round((correctAnswers / totalQuestions) * 100)], in doubles; it
    is NaN for a zero [totalQuestions]. *)
Definition score (quizResults : gmap nat bool) (mainQuiz : list AIQuizQuestion)
  : float :=
  let correctAnswers := correctAnswers quizResults in
  let totalQuestions := Z.of_nat (length mainQuiz) in
  Js.Math_round ((Js.of_Z correctAnswers / Js.of_Z totalQuestions) * 100)%float.


(** *** Vocabulary of the statements about the page *)

(** Position of a state in the fixed order. *)
Definition rank (s : ContentState) : Z :=
  match s with
  | Intro => 0 | Content => 1 | ThankYou => 2 | MainQuiz => 3
  | MainQuizReview => 4 | ExamPractice => 5 | ExamReview => 6 | Completion => 7
  end.

Definition next (s : ContentState) : ContentState :=
  match s with
  | Intro => Content | Content => ThankYou | ThankYou => MainQuiz
  | MainQuiz => MainQuizReview | MainQuizReview => ExamPractice
  | ExamPractice => ExamReview | ExamReview => Completion
  | Completion => Completion
  end.





End Lesson.

(** ** Concrete inputs used by the examples below *)

Module Samples.
Import ContentCache.

Definition jsonLength (s : string) : Z := Z.of_nat (String.length s) + 2.

Definition key (topic subtopic : string) : CacheKey :=
  {| type := content; topicId := topic; subtopicId := subtopic;
     subjectId := "science"; gradeId := "grade-4";
     quizType := None; numCards := Some 5 |}.

Definition energy_key : CacheKey := key "energy" "introduction".
Definition forces_key : CacheKey := key "forces" "energy-transfer".
Definition earth_key : CacheKey := key "earth" "introduction".

Definition empty_cache : Cache string := empty.

(** One entry, written at time 0 with a ttl of 1000 ms. *)
Definition one_entry : Cache string := set energy_key "cards" 1000 0 empty_cache.

(** Nothing in memory, one unexpired entry in the mirror (as after a page
    reload). *)
Definition mirrored_entry : CacheEntry string :=
  {| data := "cards"; timestamp := 0; expiresAt := 9000;
     accessCount := 2; lastAccessed := 40 |}.

Definition reloaded : Cache string :=
  {| cache := []; stats_hits := 0; stats_misses := 0;
     localStorage := Some {[ storageKey (generateKey energy_key) := mirrored_entry ]} |}.

(** Entries of two different topics. *)
Definition two_topics : Cache string :=
  set forces_key "forces cards" 1000 1 (set energy_key "energy cards" 1000 0 empty_cache).

(** A store filled to capacity: entry [i] is written at time [i]. *)
Definition numbered_key (i : nat) : CacheKey := key (pretty i) "introduction".

Fixpoint fill (n : nat) : Cache string :=
  match n with
  | O => empty_cache
  | S i => set (numbered_key i) "cards" 1000000 (Z.of_nat i) (fill i)
  end.

Definition full : Cache string := fill 100.



(** *** The lesson page *)

Definition q (text answer : string) : Lesson.AIQuizQuestion :=
  {| Lesson.question := text;
     Lesson.question_type := ApiClient.true_false;
     Lesson.options := None;
     Lesson.correct_answer := answer;
     Lesson.explanation := EmptyString;
     Lesson.validation := None |}.

Definition quiz4 : list Lesson.AIQuizQuestion :=
  [q "Plants need light." "True"; q "Ice is a gas." "False";
   q "The sun is a star." "True"; q "Fish can fly." "False"].

(** Questions 0, 1 and 2 answered correctly, question 3 wrongly. *)
Definition answers4 : gmap nat string :=
  <[3%nat := "True"]> (<[2%nat := "True"]> (<[1%nat := "False"]> (<[0%nat := "True"]> ∅))).

Definition loaded : Lesson.Loaded :=
  {| Lesson.introCard := Lesson.CardItem "Introduction to Energy" "<p>Welcome</p>" None;
     Lesson.thankYouCard := Lesson.CardItem "Thank You" "<p>Well done</p>" None;
     Lesson.content := [];
     Lesson.mainQuiz := quiz4;
     Lesson.examQuiz := [q "Plants need light." "True"; q "Ice is a gas." "False"] |}.

(** On the last of the two exam-review cards. *)
Definition reviewing_last : Lesson.Page :=
  {| Lesson.contentState := Lesson.ExamReview; Lesson.currentCardIndex := 1%nat;
     Lesson.quizAnswers := answers4; Lesson.quizResults := ∅ |}.

(** On the last of the four main-quiz questions, all four answered. *)
Definition main_quiz_last : Lesson.Page :=
  {| Lesson.contentState := Lesson.MainQuiz; Lesson.currentCardIndex := 3%nat;
     Lesson.quizAnswers := answers4; Lesson.quizResults := ∅ |}.

(** On the last of the four main-quiz-review cards. *)
Definition main_review_last : Lesson.Page :=
  {| Lesson.contentState := Lesson.MainQuizReview; Lesson.currentCardIndex := 3%nat;
     Lesson.quizAnswers := answers4;
     Lesson.quizResults := Lesson.evaluateQuiz quiz4 answers4 |}.





(** *** The orchestrator *)

Import Async.

Definition doc (name : string) (d : Q) : ChromaDB.ChromaDocument :=
  {| ChromaDB.id := name; ChromaDB.text := "Energy can change form.";
     ChromaDB.metadata :=
       {| ChromaDB.subject := Some "science"; ChromaDB.grade := Some "grade-4";
          ChromaDB.topic := Some "energy"; ChromaDB.subtopic := None;
          ChromaDB.document_type := None; ChromaDB.page_number := None |};
     ChromaDB.distance := Some d |}.

Definition search_ok : ChromaDB.SearchEnv :=
  {| ChromaDB.isConnected := true;
     ChromaDB.reconnect := Throws "unused";
     ChromaDB.search :=
       Returns {| ChromaDB.ok := true; ChromaDB.http_status := 200;
                  ChromaDB.json :=
                    Returns {| ChromaDB.success := true;
                               ChromaDB.search_documents :=
                                 Some [doc "d1" (2 # 10); doc "d2" (4 # 10)] |} |} |}.

Definition generated : ApiClient.ContentResponse :=
  {| ApiClient.success := true;
     ApiClient.content :=
       [ {| ApiClient.title := "What is energy?";
            ApiClient.body := "<p>Energy makes things happen.</p>";
            ApiClient.card_type := "introduction" |};
         {| ApiClient.title := "Forms of energy";
            ApiClient.body := "<p>Light, heat and sound.</p>";
            ApiClient.card_type := "concepts" |} ] |}.

(** Both gateways up. *)
Definition env_up (t : Z) : AIContent.Env :=
  {| AIContent.now_read := t; AIContent.now_write := t + 1;
     AIContent.health :=
       Returns {| ApiClient.status := "healthy"; ApiClient.model_loaded := true;
                  ApiClient.tokenizer_loaded := true;
                  ApiClient.cuda_available := false; ApiClient.device := "cpu" |};
     AIContent.chroma_probe :=
       Returns {| ChromaDB.available := true; ChromaDB.document_count := 12 |};
     AIContent.chroma_stats :=
       Returns {| ChromaDB.available := true; ChromaDB.document_count := 12 |};
     AIContent.rag_context := search_ok;
     AIContent.rag_validation := search_ok;
     AIContent.card_validation := fun _ => search_ok;
     AIContent.generate := Returns generated;
     AIContent.generate_retry := Returns generated |}.

(** The generation gateway unreachable, the retrieval gateway up. *)
Definition env_down (t : Z) : AIContent.Env :=
  {| AIContent.now_read := t; AIContent.now_write := t + 1;
     AIContent.health := Throws "TypeError: fetch failed";
     AIContent.chroma_probe := AIContent.chroma_probe (env_up t);
     AIContent.chroma_stats := AIContent.chroma_stats (env_up t);
     AIContent.rag_context := search_ok;
     AIContent.rag_validation := search_ok;
     AIContent.card_validation := fun _ => search_ok;
     AIContent.generate := Throws "TypeError: fetch failed";
     AIContent.generate_retry := Throws "TypeError: fetch failed" |}.

Definition no_cards : ContentCache.Cache (list AIContent.AIContentCard) :=
  ContentCache.empty.

Definition request (env : AIContent.Env)
    (c : ContentCache.Cache (list AIContent.AIContentCard)) :=
  AIContent.getAIContentForSubtopic env "introduction" "energy" "science"
    "grade-4" 5 c.

(** The store after a request served while both gateways were up, and
    after one served during an outage. *)
Definition warm_generated := snd (request (env_up 0) no_cards).
Definition warm_fallback := snd (request (env_down 0) no_cards).

End Samples.

(** ** [lib/content-cache.ts], continued: a fresh page load and the
    fetch-through helpers *)

Module CacheMore.
Import Async ContentCache.

Section Ops.
Context {T : Type}.

(** The singleton of a later page load, [new ContentCache()]: an empty
    [Map] and zeroed counters over the [localStorage] the browser kept. *)
Definition reload (c : Cache T) : Cache T :=
  {| cache := []; stats_hits := 0; stats_misses := 0;
     localStorage := localStorage c |}.

(** [getCachedContentOrFetch]; [truthy] is the truthiness of a payload,
    [fetchFn] what awaiting [fetchFn()] yields, [ttl = None] an omitted
    argument, [now_read] and [now_write] the clock at the lookup and at the
    write. *)
Definition getCachedContentOrFetch (truthy : T -> bool)
    (cacheKey : CacheKey) (fetchFn : Outcome T) (ttl : option Z)
    (now_read now_write : Z) (c : Cache T) : Outcome T * Cache T :=
  let r := get cacheKey now_read c in
  let fetch (c : Cache T) : Outcome T * Cache T :=
    match fetchFn with
    | Returns d =>
        (Returns d,
         set cacheKey d (match ttl with Some t => t | None => DEFAULT_TTL end)
           now_write c)
    | Throws error => (Throws error, c)
    end in
  match fst r with
  | Some cached => if truthy cached then (Returns cached, snd r) else fetch (snd r)
  | None => fetch (snd r)
  end.

Definition withCache (truthy : T -> bool) (params : CacheKey)
    (fetchFn : Outcome T) (now_read now_write : Z) (c : Cache T)
  : Outcome T * Cache T :=
  getCachedContentOrFetch truthy params fetchFn None now_read now_write c.

End Ops.
End CacheMore.

(** ** The content page, continued *)

Module LessonMore.
Import Lesson.

(** Advances spent in a state that shows [n] cards: one per card, and one
    even when there is none. *)
Definition advances_in (n : nat) : nat := Nat.max 1 n.

(** Advances that take the page from the first intro card to completion. *)
Definition advances_to_completion (d : Loaded) : nat :=
  (2 + advances_in (length (content d))
     + 2 * advances_in (length (mainQuiz d))
     + 2 * advances_in (length (examQuiz d)))%nat.

(** The page after [n] advances. *)
Definition advance (d : Loaded) (n : nat) (p : Page) : Page :=
  Nat.iter n (handleNextCard d) p.

(** The page in state [s] at card [i]. *)
Definition at_card (s : ContentState) (i : nat)
    (a : gmap nat string) (r : gmap nat bool) : Page :=
  {| contentState := s; currentCardIndex := i; quizAnswers := a; quizResults := r |}.

End LessonMore.

(** ** [data/ai-content.ts], continued *)

Module OrchestratorMore.

(** Characters of a joined word list: those of the words plus one per
    one-character separator. *)
Fixpoint joined_length (words : list string) : nat :=
  match words with
  | [] => 0
  | [w] => String.length w
  | w :: rest => String.length w + 1 + joined_length rest
  end.

(** Every character of [s] is an ASCII character (code below 128); on
    such strings [toUpperCase] changes the letters a-z and nothing else. *)
Definition ascii_only (s : string) : bool :=
  forallb (fun c => (nat_of_ascii c <? 128)%nat) (list_ascii_of_string s).

End OrchestratorMore.

(** ** Stateful computations over any store *)

Module Stateful.
Import Async.
Section Ops.
Context {S : Type}.

Definition M (A : Type) : Type := S -> Outcome A * S.

Definition ret {A : Type} (a : A) : M A := fun s => (Returns a, s).

Definition bindM {A B : Type} (m : M A) (k : A -> M B) : M B :=
  fun s =>
    match m s with
    | (Returns a, s') => k a s'
    | (Throws e, s') => (Throws e, s')
    end.

Definition lift {A : Type} (o : Outcome A) : M A := fun s => (o, s).

Definition try_catchM {A : Type} (body : M A) (handler : string -> M A) : M A :=
  fun s =>
    match body s with
    | (Returns a, s') => (Returns a, s')
    | (Throws e, s') => handler e s'
    end.

End Ops.
End Stateful.

(** ** Quizzes: [generateQuizForTopic], [getFallbackQuiz], [getAIQuizForTopic] *)

Module AIQuiz.
Import Async Stateful.

Record QuizResponse := {
  success : bool;
  questions : list ApiClient.QuizQuestion;
  quiz_type : string
}.

(** [generateQuizForTopic] of [lib/api-client.ts]; [response] is what
    awaiting [apiClient.generateQuiz(...)] yields. *)
Definition generateQuizForTopic (response : Outcome QuizResponse)
    (topicId subtopicId subjectId gradeId : string) (quizType : ContentCache.QuizType)
  : Outcome (list ApiClient.QuizQuestion) :=
  try_catch
    (await response <- response ;;
     Returns (questions response))
    (fun error =>
       Returns
         [ {| ApiClient.question :=
                "What did you learn about "
                  +:+ ApiClient.replace_first_dash subtopicId +:+ "?";
              ApiClient.question_type := ApiClient.multiple_choice;
              ApiClient.options :=
                Some ["Very helpful concepts"; "Some new ideas";
                      "Basic information"; "Advanced topics"];
              ApiClient.correct_answer := "Very helpful concepts";
              ApiClient.explanation :=
                "This is a fallback question. The AI-generated quiz will be available when the service is running." |} ]).

(** A [QuizQuestion] seen as an [AIQuizQuestion]: the same fields, no
    validation. *)
Definition as_ai (q : ApiClient.QuizQuestion) : Lesson.AIQuizQuestion :=
  {| Lesson.question := ApiClient.question q;
     Lesson.question_type := ApiClient.question_type q;
     Lesson.options := ApiClient.options q;
     Lesson.correct_answer := ApiClient.correct_answer q;
     Lesson.explanation := ApiClient.explanation q;
     Lesson.validation := None |}.

Definition getFallbackQuiz (topicId subtopicId subjectId quizType : string)
  : list Lesson.AIQuizQuestion :=
  let baseQuestions := [
    {| Lesson.question :=
         "What is the main focus of this lesson on "
           +:+ AIContent.formatTitle subtopicId +:+ "?";
       Lesson.question_type := ApiClient.multiple_choice;
       Lesson.options :=
         Some ["Understanding basic concepts"; "Memorizing facts only";
               "Skipping practice exercises"; "Avoiding difficult topics"];
       Lesson.correct_answer := "Understanding basic concepts";
       Lesson.explanation :=
         "This lesson focuses on helping you understand the core concepts of "
           +:+ AIContent.formatTitle subtopicId
           +:+ " through clear explanations and practice.";
       Lesson.validation := None |};
    {| Lesson.question :=
         "Why is it important to learn about "
           +:+ AIContent.formatTitle subtopicId +:+ "?";
       Lesson.question_type := ApiClient.multiple_choice;
       Lesson.options :=
         Some ["It connects to other subjects and real life";
               "It's only useful for tests";
               "It has no practical applications";
               "It's required but not important"];
       Lesson.correct_answer := "It connects to other subjects and real life";
       Lesson.explanation :=
         "Learning " +:+ AIContent.formatTitle subtopicId
           +:+ " helps you understand the world around you and connects to many other areas of knowledge.";
       Lesson.validation := None |} ] in
  if String.eqb quizType "main" || String.eqb quizType "mid"
  then firstn 2 baseQuestions
  else if String.eqb quizType "exam"
  then
    let examQuestions := [
      {| Lesson.question :=
           "Complete this statement: " +:+ AIContent.dq
             +:+ AIContent.formatTitle subtopicId
             +:+ " is important because it ____" +:+ AIContent.dq;
         Lesson.question_type := ApiClient.fill_blank;
         Lesson.options := None;
         Lesson.correct_answer := "helps us understand key concepts and apply them";
         Lesson.explanation :=
           "This topic provides foundational knowledge that can be applied in various contexts.";
         Lesson.validation := None |};
      {| Lesson.question :=
           "True or False: Regular practice is essential for mastering "
             +:+ AIContent.formatTitle subtopicId +:+ ".";
         Lesson.question_type := ApiClient.true_false;
         Lesson.options := None;
         Lesson.correct_answer := "True";
         Lesson.explanation :=
           "Regular practice helps reinforce learning and build long-term understanding.";
         Lesson.validation := None |} ] in
    (baseQuestions ++ examQuestions)%list
  else baseQuestions.

(** The quiz types a page asks for. *)
Inductive QuizKind := kind_mid | kind_main | kind_exam.

Definition QuizKind_str (k : QuizKind) : string :=
  match k with kind_mid => "mid" | kind_main => "main" | kind_exam => "exam" end.

(** [quizType === "main" ? "mid" : (quizType === "exam" ? "final" : quizType)] *)
Definition apiQuizType (quizType : QuizKind) : ContentCache.QuizType :=
  match quizType with
  | kind_main => ContentCache.mid
  | kind_exam => ContentCache.final
  | kind_mid => ContentCache.mid
  end.

Abbreviation QuizStore := (ContentCache.Cache (list Lesson.AIQuizQuestion)).

Record Env := {
  now_read : Z;
  now_write : Z;
  health : Outcome ApiClient.HealthResponse;
  generate : Outcome QuizResponse
}.

Definition getCachedQuiz (topicId subtopicId subjectId gradeId : string)
    (quizType : ContentCache.QuizType) (now : Z)
  : M (S := QuizStore) (option (list Lesson.AIQuizQuestion)) :=
  fun c =>
    let r := ContentCache.getCachedQuiz topicId subtopicId subjectId gradeId
               quizType now c in
    (Returns (fst r), snd r).

Definition cacheQuiz (topicId subtopicId subjectId gradeId : string)
    (quizType : ContentCache.QuizType) (quiz : list Lesson.AIQuizQuestion) (now : Z)
  : M (S := QuizStore) unit :=
  fun c =>
    (Returns tt,
     ContentCache.cacheQuiz topicId subtopicId subjectId gradeId quizType quiz now c).

Definition getAIQuizForTopic (env : Env)
    (topicId subtopicId subjectId gradeId : string) (quizType : QuizKind)
  : M (S := QuizStore) (list Lesson.AIQuizQuestion) :=
  try_catchM
    (let apiQuizType := apiQuizType quizType in
     bindM (getCachedQuiz topicId subtopicId subjectId gradeId apiQuizType
              (now_read env))
       (fun cachedQuiz =>
          match cachedQuiz with
          | Some cachedQuiz => ret cachedQuiz
          | None =>
              bindM (lift (ApiClient.checkAiServiceStatus (health env)))
                (fun serviceStatus =>
                   if negb (ApiClient.available serviceStatus)
                      || negb (ApiClient.modelLoaded serviceStatus)
                   then
                     let fallbackQuiz :=
                       getFallbackQuiz topicId subtopicId subjectId
                         (QuizKind_str quizType) in
                     bindM (cacheQuiz topicId subtopicId subjectId gradeId
                              apiQuizType fallbackQuiz (now_write env))
                       (fun _ => ret fallbackQuiz)
                   else
                     bindM (lift (generateQuizForTopic (generate env)
                                    topicId subtopicId subjectId gradeId apiQuizType))
                       (fun aiQuiz =>
                          let aiQuiz := List.map as_ai aiQuiz in
                          bindM (cacheQuiz topicId subtopicId subjectId gradeId
                                   apiQuizType aiQuiz (now_write env))
                            (fun _ => ret aiQuiz)))
          end))
    (fun error =>
       let fallbackQuiz :=
         getFallbackQuiz topicId subtopicId subjectId (QuizKind_str quizType) in
       let apiQuizType := apiQuizType quizType in
       bindM (cacheQuiz topicId subtopicId subjectId gradeId apiQuizType
                fallbackQuiz (now_write env))
         (fun _ => ret fallbackQuiz)).

(** *** Vocabulary of the statements about quizzes *)

Definition quiz_cache_miss (env : Env) (topicId subtopicId subjectId gradeId : string)
    (quizType : QuizKind) (c : QuizStore) : Prop :=
  fst (ContentCache.getCachedQuiz topicId subtopicId subjectId gradeId
         (apiQuizType quizType) (now_read env) c) = None.

(** The generation gateway reports unavailable or not ready. *)
Definition quiz_generation_unavailable (env : Env) : Prop :=
  exists st, ApiClient.checkAiServiceStatus (health env) = Returns st /\
             (ApiClient.available st = false \/ ApiClient.modelLoaded st = false).

Definition quiz_generation_healthy (env : Env) : Prop :=
  exists st, ApiClient.checkAiServiceStatus (health env) = Returns st /\
             ApiClient.available st = true /\ ApiClient.modelLoaded st = true.

(** A multiple-choice question offers at least two options, the correct
    answer among them; other kinds of question offer none. *)
Definition well_formed (q : Lesson.AIQuizQuestion) : Prop :=
  match Lesson.question_type q with
  | ApiClient.multiple_choice =>
      exists os, Lesson.options q = Some os /\ (2 <= length os)%nat /\
                 In (Lesson.correct_answer q) os
  | _ => Lesson.options q = None
  end.

End AIQuiz.

(** ** The topics page: grouping by level *)

Module TopicsPage.
Section Grouping.
(** A topic of either catalogue (generated or static); only its [level],
    which may be absent, matters here. *)
Context {A : Type} (level : A -> option Z).

(** [topic.level || index + 1] *)
Definition level_of (topic : A) (index : nat) : Z :=
  match level topic with
  | Some l => if Js.truthy_number l then l else Z.of_nat index + 1
  | None => Z.of_nat index + 1
  end.

(** The [reduce] that builds [topicsByLevel], [index] being the position of
    the head of [topics] in the whole list. *)
Fixpoint group_loop (topics : list A) (index : nat) (acc : gmap Z (list A))
  : gmap Z (list A) :=
  match topics with
  | [] => acc
  | topic :: rest =>
      let level := level_of topic index in
      let acc := match acc !! level with
                 | Some _ => acc
                 | None => <[level := []]> acc
                 end in
      let acc := alter (fun group => (group ++ [topic])%list) level acc in
      group_loop rest (S index) acc
  end.

Definition topicsByLevel (displayTopics : list A) : gmap Z (list A) :=
  group_loop displayTopics 0 ∅.

(** [Object.keys(topicsByLevel).map(Number).sort((a, b) => a - b)] *)
Definition levels (displayTopics : list A) : list Z :=
  merge_sort Z.le (List.map fst (map_to_list (topicsByLevel displayTopics))).

(** The guard [levels.length > 0 && topicsByLevel[levels[0]].length > 0] of
    [handleGetStarted] and, where it holds, the constant
    [firstTopic = topicsByLevel[levels[0]][0]].  [levels[0]] is a key of
    [topicsByLevel], so the lookup is never [undefined]. *)
Definition firstTopic (displayTopics : list A) : option A :=
  match levels displayTopics with
  | [] => None
  | level0 :: _ =>
      match topicsByLevel displayTopics !! level0 with
      | Some (topic :: _) => Some topic
      | _ => None
      end
  end.

(** *** Vocabulary of the statements about the grouping *)

(** The topics of a list whose level is [l], in the order of the list;
    [index] is the position of the head of the list. *)
Fixpoint members (topics : list A) (index : nat) (l : Z) : list A :=
  match topics with
  | [] => []
  | topic :: rest =>
      if decide (level_of topic index = l)
      then topic :: members rest (S index) l
      else members rest (S index) l
  end.

(** [topics !! i = Some t] is the earliest topic of the list with the
    lowest level. *)
Definition lowest_first (topics : list A) (i : nat) (t : A) : Prop :=
  topics !! i = Some t /\
  (forall j t', topics !! j = Some t' -> level_of t i <= level_of t' j) /\
  (forall j t', (j < i)%nat -> topics !! j = Some t' ->
                level_of t' j <> level_of t i).

End Grouping.

(** *** The two catalogues and [handleGetStarted] *)

(** A generated topic ([TopicDescription] of [lib/api-client.ts]). *)
Module AI.
Record TopicDescription := {
  topic_id : string;
  title : string;
  description : string;
  level : option Z
}.
End AI.

(** A topic of the static catalogue [@/data/topics], with the fields the
    page reads. *)
Module Static.
Record Subtopic := { subtopic_id : string }.
Record Topic := {
  id : string;
  subjectId : string;
  level : option Z;
  subtopics : option (list Subtopic)
}.
End Static.

Inductive DisplayTopic :=
| Generated (topic : AI.TopicDescription)
| Listed (topic : Static.Topic).

Definition displayed_level (topic : DisplayTopic) : option Z :=
  match topic with
  | Generated topic => AI.level topic
  | Listed topic => Static.level topic
  end.

(** The route parameters, the two pieces of state and the static
    catalogue. *)
Record State := {
  gradeId : string;
  subjectId : string;
  useAI : bool;
  aiTopics : list AI.TopicDescription;
  topics : list Static.Topic
}.

(** [useAI && aiTopics.length > 0 ? aiTopics
      : topics.filter((topic) => topic.subjectId === subjectId)] *)
Definition displayTopics (st : State) : list DisplayTopic :=
  if useAI st && (0 <? Z.of_nat (length (aiTopics st)))
  then List.map Generated (aiTopics st)
  else List.map Listed
         (List.filter (fun topic => String.eqb (Static.subjectId topic) (subjectId st))
            (topics st)).

(** [handleGetStarted]: the route given to [router.push], [None] when the
    handler does not navigate.  A property that a topic does not have
    reads as [undefined]. *)
Definition handleGetStarted (st : State) : option string :=
  match firstTopic displayed_level (displayTopics st) with
  | Some firstTopic =>
      if useAI st && (0 <? Z.of_nat (length (aiTopics st)))
      then Some ("/content/" +:+ gradeId st +:+ "/" +:+ subjectId st +:+ "/"
                 +:+ match firstTopic with
                     | Generated topic => AI.topic_id topic
                     | Listed _ => "undefined"
                     end
                 +:+ "/introduction")
      else
        match firstTopic with
        | Listed topic =>
            match Static.subtopics topic with
            | Some (subtopic :: _) =>
                Some ("/content/" +:+ gradeId st +:+ "/" +:+ subjectId st +:+ "/"
                      +:+ Static.id topic +:+ "/" +:+ Static.subtopic_id subtopic)
            | _ => None
            end
        | Generated _ => None
        end
  | None => None
  end.

(** [/content/gradeId/subjectId/topicId/subtopicId] *)
Definition content_route (st : State) (topicId subtopicId : string) : string :=
  "/content/" +:+ gradeId st +:+ "/" +:+ subjectId st +:+ "/" +:+ topicId
  +:+ "/" +:+ subtopicId.

End TopicsPage.

(** ** [preloadNextTopics]: the choice of what to preload *)

Module Preload.
Import Async.

(** An element of [allTopics] and of its [subtopics]. *)
Record SubtopicRef := { st_id : string }.
Record TopicRef := { id : string; subtopics : list SubtopicRef }.

Record Target := {
  topicId : string;
  subtopicId : string;
  subjectId : string;
  gradeId : string
}.

(** [arr.findIndex(p)]; [index] is the position of the head of [arr]. *)
Fixpoint findIndex {A : Type} (p : A -> bool) (arr : list A) (index : Z) : Z :=
  match arr with
  | [] => -1
  | x :: rest => if p x then index else findIndex p rest (index + 1)
  end.

(** [arr[i]]: [undefined] out of range. *)
Definition at_index {A : Type} (arr : list A) (i : Z) : option A :=
  if i <? 0 then None else arr !! Z.to_nat i.

(** Reading a property of [arr[i]] throws when [arr[i]] is [undefined]. *)
Definition read {A : Type} (v : option A) : Outcome A :=
  match v with
  | Some a => Returns a
  | None => Throws "TypeError: Cannot read properties of undefined"
  end.

(** The body of [preloadNextTopics] up to the call of [preloadContent].
    [Returns None]: the function returns without preloading;
    [Returns (Some ts)]: [preloadContent] is called with [ts];
    [Throws]: the function's [catch] is entered. *)
Definition topicsToPreload
    (currentTopicId currentSubtopicId subjectId gradeId : string)
    (allTopics : list TopicRef) : Outcome (option (list Target)) :=
  let currentTopicIndex :=
    findIndex (fun topic => String.eqb (id topic) currentTopicId) allTopics 0 in
  if currentTopicIndex =? -1 then Returns None
  else
    await currentTopic <- read (at_index allTopics currentTopicIndex) ;;
    let currentSubtopicIndex :=
      findIndex (fun st => String.eqb (st_id st) currentSubtopicId)
        (subtopics currentTopic) 0 in
    let topicsToPreload := [] in
    await topicsToPreload <-
      (if currentSubtopicIndex <? Z.of_nat (length (subtopics currentTopic)) - 1
       then
         await st <- read (at_index (subtopics currentTopic)
                             (currentSubtopicIndex + 1)) ;;
         Returns (topicsToPreload ++
                  [ {| topicId := currentTopicId; subtopicId := st_id st;
                       subjectId := subjectId; gradeId := gradeId |} ])%list
       else Returns topicsToPreload) ;;
    await topicsToPreload <-
      (if currentTopicIndex <? Z.of_nat (length allTopics) - 1
       then
         await nextTopic <- read (at_index allTopics (currentTopicIndex + 1)) ;;
         if 0 <? Z.of_nat (length (subtopics nextTopic))
         then
           await st <- read (at_index (subtopics nextTopic) 0) ;;
           Returns (topicsToPreload ++
                    [ {| topicId := id nextTopic; subtopicId := st_id st;
                         subjectId := subjectId; gradeId := gradeId |} ])%list
         else Returns topicsToPreload
       else Returns topicsToPreload) ;;
    Returns (Some topicsToPreload).

(** *** Vocabulary of the statements about preloading *)

(** [t] names a subtopic of a topic of [allTopics]. *)
Definition listed (allTopics : list TopicRef) (t : Target) : Prop :=
  exists topic st,
    In topic allTopics /\ In st (subtopics topic) /\
    id topic = topicId t /\ st_id st = subtopicId t.

End Preload.

(** ** Further concrete inputs *)

Module MoreSamples.
Import ContentCache Async Samples.

(** A store at capacity in a browser without [localStorage]. *)
Definition unmirrored (c : Cache string) : Cache string :=
  {| cache := cache c; stats_hits := stats_hits c; stats_misses := stats_misses c;
     localStorage := None |}.

(** A store at capacity with a record for one more key in the mirror. *)
Definition full_with_mirror : Cache string :=
  {| cache := cache full; stats_hits := 0; stats_misses := 0;
     localStorage :=
       Some {[ storageKey (generateKey energy_key) := mirrored_entry ]} |}.

(** Three writes and a read on top of a full store. *)
Definition history_over_capacity : list (Z * Op) :=
  [(200, OpSet energy_key "cards" 1000); (201, OpSet forces_key "cards" 1000);
   (202, OpGet energy_key); (203, OpSet earth_key "cards" 1000)].

Definition quiz_key : CacheKey :=
  {| type := quiz; topicId := "energy"; subtopicId := "introduction";
     subjectId := "science"; gradeId := "grade-4";
     quizType := Some mid; numCards := None |}.

(** The retrieval gateway unreachable. *)
Definition search_down : ChromaDB.SearchEnv :=
  {| ChromaDB.isConnected := false;
     ChromaDB.reconnect := Throws "TypeError: fetch failed";
     ChromaDB.search := Throws "TypeError: fetch failed" |}.

Definition status_ready : Outcome ChromaDB.StatusData :=
  Returns {| ChromaDB.available := true; ChromaDB.document_count := 12 |}.

(** *** Quizzes *)

Definition generated_quiz : AIQuiz.QuizResponse :=
  {| AIQuiz.success := true;
     AIQuiz.questions :=
       [ {| ApiClient.question := "Energy can change form.";
            ApiClient.question_type := ApiClient.true_false;
            ApiClient.options := None;
            ApiClient.correct_answer := "True";
            ApiClient.explanation := "Light can become heat." |} ];
     AIQuiz.quiz_type := "mid" |}.

Definition quiz_env_up (t : Z) : AIQuiz.Env :=
  {| AIQuiz.now_read := t; AIQuiz.now_write := t + 1;
     AIQuiz.health :=
       Returns {| ApiClient.status := "healthy"; ApiClient.model_loaded := true;
                  ApiClient.tokenizer_loaded := true;
                  ApiClient.cuda_available := false; ApiClient.device := "cpu" |};
     AIQuiz.generate := Returns generated_quiz |}.

Definition quiz_env_down (t : Z) : AIQuiz.Env :=
  {| AIQuiz.now_read := t; AIQuiz.now_write := t + 1;
     AIQuiz.health := Throws "TypeError: fetch failed";
     AIQuiz.generate := Throws "TypeError: fetch failed" |}.

Definition no_quizzes : AIQuiz.QuizStore := ContentCache.empty.

Definition quiz_request (env : AIQuiz.Env) (kind : AIQuiz.QuizKind)
    (c : AIQuiz.QuizStore) :=
  AIQuiz.getAIQuizForTopic env "energy" "introduction" "science" "grade-4" kind c.

(** *** The topics page *)

Record Topic := { topic_id : string; level : option Z }.

(** Levels 3, none (position 2), 0 (position 3) and 1. *)
Definition four_topics : list Topic :=
  [ {| topic_id := "materials"; level := Some 3 |};
    {| topic_id := "human-body"; level := None |};
    {| topic_id := "forces"; level := Some 0 |};
    {| topic_id := "living-things"; level := Some 1 |} ].

(** The static catalogue shown for science: the topic of the lowest level
    has no subtopic. *)
Definition page_static : TopicsPage.State :=
  {| TopicsPage.gradeId := "grade-4"; TopicsPage.subjectId := "science";
     TopicsPage.useAI := false; TopicsPage.aiTopics := [];
     TopicsPage.topics :=
       [ {| TopicsPage.Static.id := "living-things";
            TopicsPage.Static.subjectId := "science";
            TopicsPage.Static.level := Some 1;
            TopicsPage.Static.subtopics := Some [] |};
         {| TopicsPage.Static.id := "numbers";
            TopicsPage.Static.subjectId := "mathematics";
            TopicsPage.Static.level := Some 1;
            TopicsPage.Static.subtopics :=
              Some [ {| TopicsPage.Static.subtopic_id := "counting" |} ] |};
         {| TopicsPage.Static.id := "materials";
            TopicsPage.Static.subjectId := "science";
            TopicsPage.Static.level := Some 2;
            TopicsPage.Static.subtopics :=
              Some [ {| TopicsPage.Static.subtopic_id := "solids" |} ] |} ] |}.

(** Generated topics shown: the second has the lowest level. *)
Definition page_generated : TopicsPage.State :=
  {| TopicsPage.gradeId := "grade-4"; TopicsPage.subjectId := "science";
     TopicsPage.useAI := true;
     TopicsPage.aiTopics :=
       [ {| TopicsPage.AI.topic_id := "forces"; TopicsPage.AI.title := "Forces";
            TopicsPage.AI.description := "Forces and motion";
            TopicsPage.AI.level := Some 3 |};
         {| TopicsPage.AI.topic_id := "energy"; TopicsPage.AI.title := "Energy";
            TopicsPage.AI.description := "Energy and light";
            TopicsPage.AI.level := Some 1 |} ];
     TopicsPage.topics := [] |}.

(** *** Preloading *)

Definition living_things : Preload.TopicRef :=
  {| Preload.id := "living-things";
     Preload.subtopics :=
       [ {| Preload.st_id := "plants" |}; {| Preload.st_id := "animals" |} ] |}.

Definition forces : Preload.TopicRef :=
  {| Preload.id := "forces";
     Preload.subtopics := [ {| Preload.st_id := "push-and-pull" |} ] |}.

Definition science_topics : list Preload.TopicRef := [living_things; forces].

End MoreSamples.

(** * Properties *)

(** ** Rounding *)

Section RoundFacts.







End RoundFacts.

(** ** Strings *)

Section StringFacts.

Lemma prefix_app (t y : string) : String.prefix t (t +:+ y) = true.
Proof.
  induction t as [|a t IH]; simpl; [destruct y; reflexivity|].
  destruct (Ascii.ascii_dec a a); [exact IH | congruence].
Qed.

Lemma includes_unfold (s t : string) :
  Js.includes s t =
  if String.prefix t s then true
  else match s with
       | EmptyString => false
       | String _ s' => Js.includes s' t
       end.
Proof. destruct s; reflexivity. Qed.

Lemma includes_here (t y : string) : Js.includes (t +:+ y) t = true.
Proof. rewrite includes_unfold, prefix_app. reflexivity. Qed.

Lemma includes_app_l (x s t : string) :
  Js.includes s t = true -> Js.includes (x +:+ s) t = true.
Proof.
  intros H. induction x as [|a x IH]; [exact H|].
  change (Js.includes (String a x +:+ s) t)
    with (if String.prefix t (String a (x +:+ s)) then true
          else Js.includes (x +:+ s) t).
  rewrite IH.
  destruct (String.prefix t (String a (x +:+ s))); reflexivity.
Qed.

Lemma generateKey_includes_topicId (params : ContentCache.CacheKey) :
  Js.includes (ContentCache.generateKey params) (ContentCache.topicId params) = true.
Proof.
  unfold ContentCache.generateKey, Js.join.
  destruct (ContentCache.quizType params), (ContentCache.numCards params) as [n|];
    try destruct (Js.truthy_number n); cbn [app String.concat];
    do 3 (apply includes_app_l; apply (includes_app_l ":"));
  apply includes_here.
Qed.

Lemma generateKey_truthy (params : ContentCache.CacheKey) :
  Js.truthy_string (ContentCache.generateKey params) = true.
Proof.
  unfold ContentCache.generateKey, Js.join.
  destruct (ContentCache.type params), (ContentCache.quizType params),
    (ContentCache.numCards params) as [n|];
    try destruct (Js.truthy_number n); reflexivity.
Qed.

End StringFacts.

(** ** The insertion-ordered map *)

Section JsMapFacts.
Context {V : Type}.
Implicit Types (m : list (string * V)) (k : string) (v : V).

Lemma get_set_eq k v m : JsMap.get k (JsMap.set k v m) = Some v.
Proof.
  induction m as [|[k' v'] m IH]; simpl.
  - rewrite decide_True; [reflexivity|done].
  - destruct (decide (k' = k)) as [->|Hne]; simpl.
    + rewrite decide_True; [reflexivity|done].
    + rewrite decide_False; [exact IH|done].
Qed.

Lemma get_set_ne k k' v m : k <> k' -> JsMap.get k' (JsMap.set k v m) = JsMap.get k' m.
Proof.
  intros Hne. induction m as [|[k1 v1] m IH]; simpl.
  - rewrite decide_False; [reflexivity|done].
  - destruct (decide (k1 = k)) as [->|Hne1]; simpl.
    + rewrite !decide_False; [reflexivity|done|done].
    + destruct (decide (k1 = k')); [reflexivity|exact IH].
Qed.

Lemma get_delete_eq k m : JsMap.get k (JsMap.delete k m) = None.
Proof.
  induction m as [|[k1 v1] m IH]; simpl; [reflexivity|].
  destruct (bool_decide_reflect (k1 = k)) as [->|Hne]; simpl; [exact IH|].
  rewrite decide_False; [exact IH|done].
Qed.

Lemma get_delete_ne k k' m : k <> k' -> JsMap.get k' (JsMap.delete k m) = JsMap.get k' m.
Proof.
  intros Hne. induction m as [|[k1 v1] m IH]; simpl; [reflexivity|].
  destruct (bool_decide_reflect (k1 = k)) as [->|Hne1]; simpl.
  - rewrite decide_False; [exact IH|done].
  - destruct (decide (k1 = k')); [reflexivity|exact IH].
Qed.

Lemma get_None_notin k m : JsMap.get k m = None <-> ~ In k (JsMap.keys m).
Proof.
  induction m as [|[k1 v1] m IH]; simpl; [tauto|].
  destruct (decide (k1 = k)) as [->|Hne]; [split; [discriminate|tauto]|].
  rewrite IH. tauto.
Qed.

Lemma get_Some_In k v m : JsMap.get k m = Some v -> In (k, v) m.
Proof.
  induction m as [|[k1 v1] m IH]; simpl; [discriminate|].
  destruct (decide (k1 = k)) as [->|Hne]; [intros [= ->]; auto | auto].
Qed.

Lemma In_get k v m : JsMap.wf m -> In (k, v) m -> JsMap.get k m = Some v.
Proof.
  unfold JsMap.wf, JsMap.keys.
  induction m as [|[k1 v1] m IH]; simpl; [tauto|].
  intros Hnd [Heq|Hin]; inversion Hnd as [|? ? Hnotin Hnd']; subst.
  - inversion Heq; subst. rewrite decide_True; [reflexivity|done].
  - destruct (decide (k1 = k)) as [->|Hne]; [|auto].
    exfalso. apply Hnotin. apply list_elem_of_In.
    change k with (fst (k, v)). apply in_map. exact Hin.
Qed.

Lemma delete_notin k m : ~ In k (JsMap.keys m) -> JsMap.delete k m = m.
Proof.
  induction m as [|[k1 v1] m IH]; simpl; [reflexivity|].
  intros Hnotin.
  destruct (bool_decide_reflect (k1 = k)) as [->|Hne]; simpl; [tauto|].
  f_equal. apply IH. tauto.
Qed.

Lemma length_delete k v m :
  JsMap.wf m -> JsMap.get k m = Some v ->
  JsMap.size (JsMap.delete k m) = JsMap.size m - 1.
Proof.
  unfold JsMap.wf, JsMap.keys, JsMap.size.
  induction m as [|[k1 v1] m IH]; simpl; [discriminate|].
  intros Hnd Hget. inversion Hnd as [|? ? Hnotin Hnd']; subst.
  destruct (decide (k1 = k)) as [->|Hne].
  - rewrite bool_decide_eq_true_2 by done. simpl.
    rewrite delete_notin; [lia|].
    intros Hin. apply Hnotin. apply list_elem_of_In. exact Hin.
  - rewrite bool_decide_eq_false_2 by done. simpl length.
    specialize (IH Hnd' Hget). lia.
Qed.

Lemma size_set_fresh k v m :
  JsMap.get k m = None -> JsMap.size (JsMap.set k v m) = JsMap.size m + 1.
Proof.
  unfold JsMap.size. induction m as [|[k1 v1] m IH]; simpl; [lia|].
  destruct (decide (k1 = k)); [discriminate|]. intros H. simpl length.
  specialize (IH H). lia.
Qed.

Lemma keys_delete_subset k k' m :
  In k' (JsMap.keys (JsMap.delete k m)) -> In k' (JsMap.keys m).
Proof.
  unfold JsMap.keys, JsMap.delete. rewrite !in_map_iff.
  intros [x [Hx Hin]]. apply filter_In in Hin. exists x. tauto.
Qed.

Lemma wf_delete k m : JsMap.wf m -> JsMap.wf (JsMap.delete k m).
Proof.
  unfold JsMap.wf. induction m as [|[k1 v1] m IH]; simpl; [auto|].
  intros Hnd. inversion Hnd as [|? ? Hnotin Hnd']; subst.
  destruct (bool_decide (k1 = k)); simpl; [auto|].
  constructor; [|auto].
  intros Hin. apply Hnotin. apply list_elem_of_In.
  apply list_elem_of_In in Hin. eapply keys_delete_subset. exact Hin.
Qed.

Lemma keys_set_In k k' v m :
  In k' (JsMap.keys (JsMap.set k v m)) -> k' = k \/ In k' (JsMap.keys m).
Proof.
  induction m as [|[k1 v1] m IH]; simpl; [intuition congruence|].
  destruct (decide (k1 = k)) as [->|Hne]; simpl; intuition congruence.
Qed.

Lemma wf_set k v m : JsMap.wf m -> JsMap.wf (JsMap.set k v m).
Proof.
  unfold JsMap.wf. induction m as [|[k1 v1] m IH]; simpl.
  - intros _. apply NoDup_singleton.
  - intros Hnd. inversion Hnd as [|? ? Hnotin Hnd']; subst.
    destruct (decide (k1 = k)) as [->|Hne]; simpl; [exact Hnd|].
    constructor; [|auto].
    intros Hin. apply Hnotin. apply list_elem_of_In.
    apply list_elem_of_In, keys_set_In in Hin. tauto.
Qed.

Lemma Forall_keys_set (P : string -> Prop) k v m :
  P k -> Forall P (JsMap.keys m) -> Forall P (JsMap.keys (JsMap.set k v m)).
Proof.
  intros Hk. induction m as [|[k1 v1] m IH]; simpl; intros Hall.
  - constructor; [exact Hk|constructor].
  - inversion Hall as [|? ? H1 Hrest]; subst.
    destruct (decide (k1 = k)); simpl; constructor; auto.
Qed.

Lemma Forall_keys_delete (P : string -> Prop) k m :
  Forall P (JsMap.keys m) -> Forall P (JsMap.keys (JsMap.delete k m)).
Proof.
  induction m as [|[k1 v1] m IH]; simpl; intros Hall; [constructor|].
  inversion Hall as [|? ? H1 Hrest]; subst.
  destruct (bool_decide (k1 = k)); simpl; [auto|constructor; auto].
Qed.

End JsMapFacts.

(** ** The cache store *)

Module CacheFacts.
Import ContentCache.

Section Facts.
Context {T : Type} (jsonLength : T -> Z).
Implicit Types (c : Cache T) (params : CacheKey) (e : CacheEntry T).

Lemma cache_set params d ttl now c :
  cache (set params d ttl now c) =
  JsMap.set (generateKey params) (fresh d ttl now)
    (cache (if JsMap.size (cache c) >=? MAX_ENTRIES
            then evictLeastRecentlyUsed c else c)).
Proof. reflexivity. Qed.

Lemma get_hit_memory params now c e :
  JsMap.get (generateKey params) (cache c) = Some e ->
  now <= expiresAt e ->
  get params now c =
  (Some (data e),
   {| cache := JsMap.set (generateKey params) (touched e now) (cache c);
      stats_hits := stats_hits c + 1; stats_misses := stats_misses c;
      localStorage := localStorage c |}).
Proof.
  intros Hget Hlive. unfold get. rewrite Hget.
  replace (now >? expiresAt e) with false by lia. reflexivity.
Qed.

Lemma get_expired params now c e :
  JsMap.get (generateKey params) (cache c) = Some e ->
  expiresAt e < now ->
  get params now c =
  (None,
   count_miss (removeFromStorage (generateKey params)
     (with_cache c (JsMap.delete (generateKey params) (cache c))))).
Proof.
  intros Hget Hdead. unfold get. rewrite Hget.
  replace (now >? expiresAt e) with true by lia. reflexivity.
Qed.

Lemma get_hit_storage params now c st e :
  JsMap.get (generateKey params) (cache c) = None ->
  localStorage c = Some st ->
  st !! storageKey (generateKey params) = Some e ->
  now <= expiresAt e ->
  get params now c =
  (Some (data e),
   {| cache := JsMap.set (generateKey params) (touched e now)
                 (JsMap.set (generateKey params) e (cache c));
      stats_hits := stats_hits c + 1; stats_misses := stats_misses c;
      localStorage := localStorage c |}).
Proof.
  intros Hmem Hst Hlook Hlive. unfold get, loadFromStorage.
  rewrite Hmem, Hst, Hlook.
  replace (now >? expiresAt e) with false by lia. simpl. rewrite Hst.
  reflexivity.
Qed.


(** A payload is only ever served from an entry that has not expired. *)
Lemma get_Some_live params now c d :
  fst (get params now c) = Some d ->
  exists e, data e = d /\ now <= expiresAt e /\
    (JsMap.get (generateKey params) (cache c) = Some e \/
     exists st, localStorage c = Some st /\
                st !! storageKey (generateKey params) = Some e).
Proof.
  unfold get, loadFromStorage.
  destruct (JsMap.get _ (cache c)) as [e|] eqn:Hmem.
  - destruct (now >? expiresAt e) eqn:Hx; simpl; [discriminate|].
    intros [= <-]. exists e. split; [reflexivity|]. split; [lia|auto].
  - destruct (localStorage c) as [st|] eqn:Hst; simpl; [|discriminate].
    destruct (st !! _) as [e|] eqn:Hlook; simpl; [|discriminate].
    destruct (now >? expiresAt e) eqn:Hx; simpl; [discriminate|].
    intros [= <-]. exists e. split; [reflexivity|]. split; [lia|].
    right. exists st. auto.
Qed.

Lemma remove_keys_cache (ks : list string) c k :
  JsMap.get k (cache (remove_keys ks c)) =
  if decide (k ∈ ks) then None else JsMap.get k (cache c).
Proof.
  revert c. induction ks as [|k1 ks IH]; intros c.
  - rewrite decide_False by apply not_elem_of_nil. reflexivity.
  - unfold remove_keys in *. simpl. rewrite IH. simpl.
    destruct (decide (k ∈ ks)) as [Hin|Hnin].
    + rewrite decide_True by (apply elem_of_cons; auto). reflexivity.
    + destruct (decide (k1 = k)) as [->|Hne].
      * rewrite decide_True by (apply elem_of_cons; auto). apply get_delete_eq.
      * rewrite decide_False by (rewrite elem_of_cons; intuition congruence).
        apply get_delete_ne. exact Hne.
Qed.

Lemma remove_keys_stats (ks : list string) c :
  stats_hits (remove_keys ks c) = stats_hits c /\
  stats_misses (remove_keys ks c) = stats_misses c.
Proof.
  revert c. induction ks as [|k1 ks IH]; intros c; [split; reflexivity|].
  unfold remove_keys in *. simpl. destruct (IH
    (removeFromStorage k1 (with_cache c (JsMap.delete k1 (cache c))))) as [-> ->].
  split; reflexivity.
Qed.


(** A [get] issued at any time up to the expiry instant of the entry that
    [set] has just written returns the payload. *)
Lemma get_after_set params (p : T) t now now' c :
  now' <= now + t ->
  fst (get params now' (set params p t now c)) = Some p.
Proof.
  intros Hlive.
  rewrite (get_hit_memory params now' _ (fresh p t now)); [reflexivity| |simpl; lia].
  rewrite cache_set. apply get_set_eq.
Qed.

(** C9: for every store, key [k], payload [p] and ttl [t > 0], [set(k, p, t)]
    followed immediately (at the same clock reading) by [get(k)] returns
    [p]. *)
Theorem set_then_get params (p : T) t now c :
  0 < t ->
  fst (get params now (set params p t now c)) = Some p.
Proof. intros Ht. apply get_after_set. lia. Qed.

(** C10: when the in-memory store has no entry for [k] but the durable
    mirror holds an unexpired one, [get] returns its payload, reinserts
    the entry (access count incremented, last access set to now) into the
    in-memory store, and counts a hit, not a miss. *)
Theorem get_reads_mirror params now c st e :
  JsMap.get (generateKey params) (cache c) = None ->
  localStorage c = Some st ->
  st !! storageKey (generateKey params) = Some e ->
  now <= expiresAt e ->
  fst (get params now c) = Some (data e) /\
  JsMap.get (generateKey params) (cache (snd (get params now c)))
    = Some (touched e now) /\
  stats_hits (snd (get params now c)) = stats_hits c + 1 /\
  stats_misses (snd (get params now c)) = stats_misses c.
Proof.
  intros Hmem Hst Hlook Hlive.
  rewrite (get_hit_storage params now c st e Hmem Hst Hlook Hlive). simpl.
  repeat split. apply get_set_eq.
Qed.

(** C5 (amended): once [now > expiresAt], the next [get] for the key
    returns absent, removes the entry from the in-memory store and from
    the mirror, lowers [getStats().totalEntries] by one and counts a miss
    (and an expired entry that lives in the mirror alone is removed from
    the mirror in the same way); every payload that [get] serves comes from
    the entry stored under the key, in memory or else in the mirror, and
    that entry has [now <= expiresAt]; and an entry with
    [now <= expiresAt], in particular at [now = expiresAt], is still
    served as a hit and kept. *)
Theorem expired_entry_removed params now c :
  (forall e,
     JsMap.wf (cache c) ->
     JsMap.get (generateKey params) (cache c) = Some e ->
     expiresAt e < now ->
     fst (get params now c) = None /\
     JsMap.get (generateKey params) (cache (snd (get params now c))) = None /\
     totalEntries (getStats jsonLength (snd (get params now c)))
       = totalEntries (getStats jsonLength c) - 1 /\
     (forall st', localStorage (snd (get params now c)) = Some st' ->
                  st' !! storageKey (generateKey params) = None) /\
     stats_hits (snd (get params now c)) = stats_hits c /\
     stats_misses (snd (get params now c)) = stats_misses c + 1) /\
  (forall st e,
     JsMap.get (generateKey params) (cache c) = None ->
     localStorage c = Some st ->
     st !! storageKey (generateKey params) = Some e ->
     expiresAt e < now ->
     fst (get params now c) = None /\
     cache (snd (get params now c)) = cache c /\
     (forall st', localStorage (snd (get params now c)) = Some st' ->
                  st' !! storageKey (generateKey params) = None) /\
     stats_hits (snd (get params now c)) = stats_hits c /\
     stats_misses (snd (get params now c)) = stats_misses c + 1) /\
  (forall d,
     fst (get params now c) = Some d ->
     exists e, data e = d /\ now <= expiresAt e /\
       (JsMap.get (generateKey params) (cache c) = Some e \/
        (JsMap.get (generateKey params) (cache c) = None /\
         exists st, localStorage c = Some st /\
                    st !! storageKey (generateKey params) = Some e))) /\
  (forall e,
     JsMap.get (generateKey params) (cache c) = Some e ->
     now <= expiresAt e ->
     fst (get params now c) = Some (data e) /\
     JsMap.get (generateKey params) (cache (snd (get params now c)))
       = Some (touched e now) /\
     stats_hits (snd (get params now c)) = stats_hits c + 1 /\
     stats_misses (snd (get params now c)) = stats_misses c).
Proof.
  split; [|split; [|split]].
  - intros e Hwf Hget Hdead. rewrite (get_expired params now c e Hget Hdead). simpl.
    split; [reflexivity|]. split; [apply get_delete_eq|].
    split; [eapply length_delete; eauto|].
    split; [|split; reflexivity].
    destruct (localStorage c) as [st|]; simpl; [|discriminate].
    intros st' [= <-]. apply lookup_delete_eq.
  - intros st e Hmem Hst Hlook Hdead. unfold get, loadFromStorage.
    rewrite Hmem, Hst, Hlook.
    replace (now >? expiresAt e) with true by lia. simpl.
    split; [reflexivity|]. split; [reflexivity|].
    split; [|split; reflexivity].
    intros st' [= <-]. apply lookup_delete_eq.
  - intros d Hd. unfold get, loadFromStorage in Hd.
    destruct (JsMap.get (generateKey params) (cache c)) as [e|] eqn:Hmem.
    + destruct (now >? expiresAt e) eqn:Hx; simpl in Hd; [discriminate|].
      injection Hd as <-. exists e. split; [reflexivity|]. split; [lia|auto].
    + destruct (localStorage c) as [st|] eqn:Hst; simpl in Hd; [|discriminate].
      destruct (st !! storageKey (generateKey params)) as [e|] eqn:Hlook;
        simpl in Hd; [|discriminate].
      destruct (now >? expiresAt e) eqn:Hx; simpl in Hd; [discriminate|].
      injection Hd as <-. exists e. split; [reflexivity|]. split; [lia|].
      right. split; [reflexivity|]. exists st. auto.
  - intros e Hget Hlive. rewrite (get_hit_memory params now c e Hget Hlive). simpl.
    split; [reflexivity|]. split; [apply get_set_eq|]. split; reflexivity.
Qed.

(** C3 (amended): [invalidateTopic(topicId)] removes exactly the entries
    whose key string contains [topicId] as a substring; in particular
    every entry stored under a key whose topicId component is [topicId]
    is removed. *)
Theorem invalidateTopic_substring topic c :
  let c' := invalidateTopic topic None c in
  (forall key, JsMap.get key (cache c') =
               if Js.includes key topic then None else JsMap.get key (cache c)) /\
  (forall params, topicId params = topic ->
                  JsMap.get (generateKey params) (cache c') = None).
Proof.
  assert (Hmain : forall key,
    JsMap.get key (cache (invalidateTopic topic None c)) =
    if Js.includes key topic then None else JsMap.get key (cache c)).
  { intros key. unfold invalidateTopic. rewrite remove_keys_cache.
    destruct (decide _) as [Hin|Hnin].
    - apply list_elem_of_In, filter_In in Hin. destruct Hin as [_ Hinc].
      rewrite andb_true_r in Hinc. rewrite Hinc. reflexivity.
    - destruct (Js.includes key topic) eqn:Hinc; [|reflexivity].
      apply get_None_notin. intros Hk. apply Hnin.
      apply list_elem_of_In, filter_In. rewrite Hinc. auto. }
  split; [exact Hmain|].
  intros params <-. rewrite Hmain, generateKey_includes_topicId. reflexivity.
Qed.

(** The eviction loop returns the first entry, in iteration order, whose
    [lastAccessed] is minimal. *)
Lemma lru_fold_spec (m : list (string * CacheEntry T)) :
  m <> [] ->
  exists k0 e0,
    fold_left lru_step m (None, None) = (Some k0, Some (lastAccessed e0)) /\
    In (k0, e0) m /\
    forall k e, In (k, e) m -> lastAccessed e0 <= lastAccessed e.
Proof.
  induction m as [|[k1 e1] m IH] using rev_ind; [congruence|]. intros _.
  rewrite fold_left_app. simpl.
  destruct (decide (m = [])) as [->|Hne].
  - exists k1, e1. split; [reflexivity|]. split; [simpl; auto|].
    intros k e [[= <- <-]|[]]. lia.
  - destruct (IH Hne) as (k0 & e0 & Hf & Hin & Hmin).
    rewrite Hf. unfold lru_step; simpl.
    destruct (lastAccessed e1 <? lastAccessed e0) eqn:Hlt.
    + exists k1, e1. split; [reflexivity|]. split; [apply in_or_app; simpl; auto|].
      intros k e Hke. apply in_app_or in Hke. destruct Hke as [Hke|[[= <- <-]|[]]].
      * specialize (Hmin k e Hke). lia.
      * lia.
    + exists k0, e0. split; [reflexivity|]. split; [apply in_or_app; auto|].
      intros k e Hke. apply in_app_or in Hke. destruct Hke as [Hke|[[= <- <-]|[]]].
      * exact (Hmin k e Hke).
      * lia.
Qed.

Lemma evict_spec c :
  wf c -> cache c <> [] ->
  exists k0 e0,
    JsMap.get k0 (cache c) = Some e0 /\
    (forall k e, JsMap.get k (cache c) = Some e -> lastAccessed e0 <= lastAccessed e) /\
    cache (evictLeastRecentlyUsed c) = JsMap.delete k0 (cache c).
Proof.
  intros [Hnd Hkeys] Hne.
  destruct (lru_fold_spec (cache c) Hne) as (k0 & e0 & Hf & Hin & Hmin).
  exists k0, e0. split; [apply In_get; assumption|].
  split; [intros k e Hke; apply (Hmin k e), get_Some_In, Hke|].
  unfold evictLeastRecentlyUsed, oldestKey. rewrite Hf. simpl.
  rewrite Forall_forall in Hkeys. rewrite (Hkeys k0); [reflexivity|].
  apply list_elem_of_In. change k0 with (fst (k0, e0)). apply in_map. exact Hin.
Qed.

(** C4: a [set] below capacity evicts nothing (every other entry stays,
    a new key grows the store by one); a [set] at or above capacity evicts
    exactly one entry, one whose [lastAccessed] is the oldest in the store,
    so that no remaining entry was accessed earlier than the evicted one;
    inserting a new key at capacity leaves the entry count unchanged. *)
Theorem set_evicts_lru params d ttl now c :
  wf c ->
  let key := generateKey params in
  let c' := set params d ttl now c in
  JsMap.get key (cache c') = Some (fresh d ttl now) /\
  (JsMap.size (cache c) < MAX_ENTRIES ->
     (forall k, k <> key -> JsMap.get k (cache c') = JsMap.get k (cache c)) /\
     (JsMap.get key (cache c) = None ->
      JsMap.size (cache c') = JsMap.size (cache c) + 1)) /\
  (MAX_ENTRIES <= JsMap.size (cache c) ->
     exists k0 e0,
       JsMap.get k0 (cache c) = Some e0 /\
       (forall k e, JsMap.get k (cache c) = Some e ->
                    lastAccessed e0 <= lastAccessed e) /\
       (k0 <> key -> JsMap.get k0 (cache c') = None) /\
       (forall k, k <> k0 -> k <> key ->
                  JsMap.get k (cache c') = JsMap.get k (cache c)) /\
       (JsMap.get key (cache c) = None ->
        JsMap.size (cache c') = JsMap.size (cache c))).
Proof.
  intros Hwf key c'. subst c'. rewrite cache_set. fold key.
  split; [apply get_set_eq|]. split.
  - intros Hlt. replace (_ >=? _) with false by lia. split.
    + intros k Hk. apply get_set_ne. congruence.
    + intros Hfresh. apply size_set_fresh, Hfresh.
  - intros Hge. replace (_ >=? _) with true by lia.
    assert (Hne : cache c <> []).
    { intros Hnil. rewrite Hnil in Hge. unfold JsMap.size, MAX_ENTRIES in Hge.
      simpl in Hge. lia. }
    destruct (evict_spec c Hwf Hne) as (k0 & e0 & Hk0 & Hmin & Hev).
    exists k0, e0. rewrite Hev. split; [exact Hk0|]. split; [exact Hmin|].
    split; [|split].
    + intros Hk. rewrite get_set_ne by congruence. apply get_delete_eq.
    + intros k Hk1 Hk2. rewrite get_set_ne by congruence.
      apply get_delete_ne. congruence.
    + intros Hfresh. rewrite size_set_fresh.
      * rewrite (length_delete k0 e0); [lia|apply Hwf|exact Hk0].
      * destruct (decide (k0 = key)) as [->|Hk]; [apply get_delete_eq|].
        rewrite get_delete_ne by exact Hk. exact Hfresh.
Qed.










(** *** The representation invariant is kept by every operation *)

Lemma wf_empty : wf (@empty T).
Proof. split; constructor. Qed.

Lemma wf_delete_key k c : wf c -> wf (with_cache c (JsMap.delete k (cache c))).
Proof.
  intros [Hnd Hkeys]. split; simpl;
    [apply wf_delete, Hnd | apply Forall_keys_delete, Hkeys].
Qed.

Lemma wf_set_key params e c :
  wf c -> wf (with_cache c (JsMap.set (generateKey params) e (cache c))).
Proof.
  intros [Hnd Hkeys]. split; simpl.
  - apply wf_set, Hnd.
  - apply Forall_keys_set; [apply generateKey_truthy|exact Hkeys].
Qed.

Lemma wf_evict c : wf c -> wf (evictLeastRecentlyUsed c).
Proof.
  intros Hwf. unfold evictLeastRecentlyUsed.
  destruct (oldestKey (cache c)) as [k|]; [|exact Hwf].
  destruct (Js.truthy_string k); [|exact Hwf].
  exact (wf_delete_key k c Hwf).
Qed.

Lemma wf_set_op params d ttl now c : wf c -> wf (set params d ttl now c).
Proof.
  intros Hwf. unfold set.
  set (c1 := if _ >=? _ then _ else _).
  assert (Hwf1 : wf c1) by (subst c1; destruct (_ >=? _); [apply wf_evict|]; exact Hwf).
  exact (wf_set_key params _ c1 Hwf1).
Qed.

Lemma wf_get_op params now c : wf c -> wf (snd (get params now c)).
Proof.
  intros Hwf. unfold get, loadFromStorage.
  destruct (JsMap.get _ (cache c)) as [e|].
  - destruct (now >? expiresAt e); simpl.
    + exact (wf_delete_key _ c Hwf).
    + exact (wf_set_key params _ c Hwf).
  - destruct (localStorage c) as [st|]; simpl; [|exact Hwf].
    destruct (st !! _) as [e|]; simpl; [|exact Hwf].
    destruct (now >? expiresAt e); simpl; [exact Hwf|].
    exact (wf_set_key params _ _ (wf_set_key params e c Hwf)).
Qed.

Lemma wf_remove_keys (ks : list string) c : wf c -> wf (remove_keys ks c).
Proof.
  revert c. induction ks as [|k ks IH]; intros c Hwf; [exact Hwf|].
  unfold remove_keys in *. simpl. apply IH. exact (wf_delete_key k c Hwf).
Qed.

Lemma wf_run ops c : wf c -> wf (snd (run ops c)).
Proof.
  revert c. induction ops as [|[now o] ops IH]; intros c Hwf; [exact Hwf|].
  simpl. apply IH. destruct o; cbn [apply_op snd].
  - apply wf_get_op, Hwf.
  - apply wf_set_op, Hwf.
  - apply wf_remove_keys, Hwf.
  - apply wf_remove_keys, Hwf.
Qed.

End Facts.
End CacheFacts.

(** ** The lesson page *)

Module LessonFacts.
Import Lesson.

Section Scoring.
Implicit Types (quiz : list AIQuizQuestion) (answers : gmap nat string)
  (results : gmap nat bool).










(** With no question at all the division is 0 by 0 and the score is NaN. *)
Lemma score_empty_quiz answers : score (evaluateQuiz [] answers) [] = nan.
Proof. vm_compute. reflexivity. Qed.


End Scoring.

Section Progression.

(** C2 (amended): one advance either increments the cursor and changes
    nothing else (cursor before the last card), or moves to the
    immediately next state of the fixed order; the cursor is 0 after every
    transition into a state other than completion; entering main-quiz or
    exam-practice clears the recorded answers; in completion an advance is
    a no-op; the state never moves backwards and never skips. *)
Theorem handleNextCard_forward (d : Loaded) (p : Page) :
  let p' := handleNextCard d p in
  let last := Z.of_nat (length (currentContent d (contentState p))) - 1 in
  (Z.of_nat (currentCardIndex p) < last ->
     contentState p' = contentState p /\
     currentCardIndex p' = (currentCardIndex p + 1)%nat /\
     quizAnswers p' = quizAnswers p /\ quizResults p' = quizResults p) /\
  (last <= Z.of_nat (currentCardIndex p) ->
     contentState p' = next (contentState p) /\
     (contentState p' <> Completion -> currentCardIndex p' = 0%nat) /\
     (contentState p' = MainQuiz \/ contentState p' = ExamPractice ->
      quizAnswers p' = ∅)) /\
  (contentState p = Completion -> p' = p) /\
  rank (contentState p) <= rank (contentState p') <= rank (contentState p) + 1 /\
  handleNextCard d initial =
    {| contentState := Content; currentCardIndex := 0%nat;
       quizAnswers := ∅; quizResults := ∅ |}.
Proof.
  intros p' last. subst p'. unfold handleNextCard. fold last.
  split; [|split; [|split; [|split]]].
  - intros Hlt. replace (_ <? last) with true by lia. simpl. auto.
  - intros Hge. replace (_ <? last) with false by lia.
    destruct (contentState p) eqn:Hs; simpl; rewrite ?Hs;
      (split; [reflexivity|]); (split; [intros; try reflexivity; congruence|]);
      intros [H|H]; try discriminate H; reflexivity.
  - intros Hc.
    assert (Hl : last = -1) by (subst last; rewrite Hc; reflexivity).
    pose proof (Nat2Z.is_nonneg (currentCardIndex p)) as Hpos.
    replace (_ <? last) with false by lia. rewrite Hc. reflexivity.
  - destruct (_ <? last); [simpl; lia|].
    destruct (contentState p) eqn:Hs; simpl; rewrite ?Hs; simpl; lia.
  - reflexivity.
Qed.

End Progression.
End LessonFacts.

(** ** The gateways and the orchestrator *)

Module OrchestratorFacts.
Import Async.

Section Gateways.
Import ChromaDB.

Lemma checkAiServiceStatus_returns (h : Outcome ApiClient.HealthResponse) :
  returns (ApiClient.checkAiServiceStatus h).
Proof.
  unfold returns, ApiClient.checkAiServiceStatus.
  destruct h as [h|e]; simpl; [destruct (ApiClient.model_loaded h)|]; simpl; eauto.
Qed.

Lemma generateContentForSubtopic_returns r topicId subtopicId subjectId gradeId n :
  returns (ApiClient.generateContentForSubtopic r topicId subtopicId subjectId gradeId n).
Proof.
  unfold returns, ApiClient.generateContentForSubtopic.
  destruct r as [r|e]; simpl; eauto.
Qed.

Lemma testConnection_returns r : returns (testConnection r).
Proof. unfold returns, testConnection. destruct r; simpl; eauto. Qed.

Lemma checkChromaDBStatus_returns r1 r2 : returns (checkChromaDBStatus r1 r2).
Proof.
  unfold returns, checkChromaDBStatus, testConnection, getCollectionStats.
  destruct r1 as [d1|e1]; simpl; [|eauto].
  destruct (available d1); simpl; [|eauto].
  destruct r2 as [d2|e2]; simpl; [|eauto].
  destruct (available d2); simpl; eauto.
Qed.

(** [retrieveContext] never throws, and only hands out documents of the
    search reply that pass the relevance filter. *)
Lemma retrieveContext_spec senv query subjectId gradeId topicId n :
  exists ctx,
    retrieveContext senv query subjectId gradeId topicId n = Returns ctx /\
    forall doc, In doc (documents ctx) ->
      Qlt_bool (distance_or_1 doc) (8 # 10) = true /\
      exists response data docs,
        search senv = Returns response /\ json response = Returns data /\
        search_documents data = Some docs /\ In doc docs.
Proof.
  unfold retrieveContext.
  assert (Hempty : exists ctx, Returns getEmptyContext = Returns ctx /\
    forall doc, In doc (documents ctx) ->
      Qlt_bool (distance_or_1 doc) (8 # 10) = true /\
      exists response data docs,
        search senv = Returns response /\ json response = Returns data /\
        search_documents data = Some docs /\ In doc docs).
  { exists getEmptyContext. split; [reflexivity|]. intros doc []. }
  destruct (testConnection_returns (reconnect senv)) as [b Hb].
  destruct (isConnected senv); simpl.
  - destruct (search senv) as [response|e] eqn:Hs; simpl; [|exact Hempty].
    destruct (ok response); simpl; [|exact Hempty].
    destruct (json response) as [data|e] eqn:Hj; simpl; [|exact Hempty].
    destruct (search_documents data) as [docs|] eqn:Hd; simpl; [|exact Hempty].
    destruct (success data); simpl; [|exact Hempty].
    eexists. split; [reflexivity|]. simpl. intros doc Hin.
    apply filter_In in Hin. destruct Hin as [Hin Hrel].
    split; [exact Hrel|]. exists response, data, docs. auto.
  - rewrite Hb. simpl. destruct b; simpl; [|exact Hempty].
    destruct (search senv) as [response|e] eqn:Hs; simpl; [|exact Hempty].
    destruct (ok response); simpl; [|exact Hempty].
    destruct (json response) as [data|e] eqn:Hj; simpl; [|exact Hempty].
    destruct (search_documents data) as [docs|] eqn:Hd; simpl; [|exact Hempty].
    destruct (success data); simpl; [|exact Hempty].
    eexists. split; [reflexivity|]. simpl. intros doc Hin.
    apply filter_In in Hin. destruct Hin as [Hin Hrel].
    split; [exact Hrel|]. exists response, data, docs. auto.
Qed.

Lemma distance_or_1_nonneg doc :
  (forall d, distance doc = Some d -> (0 <= d)%Q) -> (0 <= distance_or_1 doc)%Q.
Proof.
  intros H. unfold distance_or_1. destruct (distance doc) as [d|]; [|lra].
  destruct (Qeq_bool d 0); [lra|]. apply H. reflexivity.
Qed.

Lemma sum_distances_nonneg (docs : list ChromaDocument) :
  (forall doc, In doc docs -> (0 <= distance_or_1 doc)%Q) ->
  (0 <= sum_distances docs)%Q.
Proof.
  unfold sum_distances. intros H.
  assert (Hgen : forall acc, (0 <= acc)%Q ->
    (0 <= fold_left (fun sum doc => (sum + distance_or_1 doc)%Q) docs acc)%Q).
  { induction docs as [|doc docs IH]; intros acc Hacc; simpl; [exact Hacc|].
    apply IH.
    - intros d Hd. apply H. simpl. auto.
    - assert (Hdoc : (0 <= distance_or_1 doc)%Q) by (apply H; simpl; auto). lra. }
  apply Hgen. lra.
Qed.

(** [validateContent] never throws; its alignment score is never
    negative, and at most 1 when no retrieved distance is negative. *)
Lemma validateContent_spec senv aiContent subjectId gradeId topicId :
  exists v,
    validateContent senv aiContent subjectId gradeId topicId = Returns v /\
    (0 <= curriculumAlignment v)%Q /\
    (AIContent.nonneg_distances senv -> (curriculumAlignment v <= 1)%Q).
Proof.
  unfold validateContent.
  destruct (retrieveContext_spec senv (String.substring 0 200 aiContent)
              subjectId gradeId (Some topicId) 3) as (ctx & -> & Hdocs).
  simpl. destruct (length (documents ctx) =? 0)%nat eqn:Hlen.
  - eexists. split; [reflexivity|]. simpl. split; [lra|intros _; lra].
  - eexists. split; [reflexivity|]. simpl. split; [apply Q.le_max_l|].
    intros Hnn. apply Q.max_lub; [lra|].
    assert (Hsum : (0 <= sum_distances (documents ctx))%Q).
    { apply sum_distances_nonneg. intros doc Hin. apply distance_or_1_nonneg.
      intros d Hd. destruct (Hdocs doc Hin) as (_ & r & dt & ds & Hs & Hj & Hsd & Hin').
      exact (Hnn r dt ds doc d Hs Hj Hsd Hin' Hd). }
    assert (Hn : (0 < inject_Z (Z.of_nat (length (documents ctx))))%Q).
    { change 0%Q with (inject_Z 0). rewrite <- Zlt_Qlt.
      apply Nat.eqb_neq in Hlen. lia. }
    assert (Havg : (0 <= sum_distances (documents ctx)
                         / inject_Z (Z.of_nat (length (documents ctx))))%Q).
    { apply Qle_shift_div_l; [exact Hn|]. rewrite Qmult_0_l. exact Hsum. }
    lra.
Qed.

Lemma generateRAGEnhancedContent_returns e1 e2 prompt subjectId gradeId topicId subtopicId :
  returns (generateRAGEnhancedContent e1 e2 prompt subjectId gradeId topicId subtopicId).
Proof.
  unfold returns, generateRAGEnhancedContent.
  destruct (retrieveContext_spec e1 (topicId +:+ " " +:+ subtopicId +:+ " " +:+ prompt)
              subjectId gradeId (Some topicId) 5) as (ctx & -> & _).
  simpl. destruct (0 <? length (documents ctx))%nat; simpl; [|eauto].
  destruct (validateContent_spec e2 prompt subjectId gradeId topicId) as (v & -> & _).
  simpl. eauto.
Qed.

End Gateways.
Section Orchestrator.
Import AIContent.

Lemma all_imap {A B : Type} (P : B -> Prop) (l : list A) :
  forall f : nat -> A -> Outcome B,
  (forall i x, exists y, f i x = Returns y /\ P y) ->
  exists ys, all (imap f l) = Returns ys /\ Forall P ys.
Proof.
  induction l as [|x l IH]; intros f Hf; simpl.
  - exists []. split; [reflexivity|constructor].
  - destruct (Hf 0%nat x) as (y & -> & Hy).
    destruct (IH (f ∘ S)) as (ys & -> & Hys).
    { intros i x'. apply Hf. }
    simpl. exists (y :: ys). split; [reflexivity|]. constructor; assumption.
Qed.

Lemma generateRAGEnhancedContentCards_spec env subtopicId topicId subjectId gradeId n :
  exists cards,
    generateRAGEnhancedContentCards env subtopicId topicId subjectId gradeId n
      = Returns cards /\
    Forall (validated env) cards.
Proof.
  unfold generateRAGEnhancedContentCards.
  set (prompt := _ +:+ _).
  destruct (generateRAGEnhancedContent_returns (rag_context env) (rag_validation env)
              prompt subjectId gradeId topicId subtopicId) as [rag ->].
  destruct (generateContentForSubtopic_returns (generate env)
              topicId subtopicId subjectId gradeId n) as [aiContent ->].
  cbn [bind].
  match goal with
  | |- context [all (imap ?f aiContent)] =>
      destruct (all_imap (validated env) aiContent f) as (cards & -> & Hcards)
  end.
  { intros i card.
    destruct (validateContent_spec (card_validation env i) (ApiClient.body card)
                subjectId gradeId topicId) as (v & -> & Hlo & Hhi).
    simpl. eexists. split; [reflexivity|].
    exists v. simpl. split; [reflexivity|]. split; [exact Hlo|].
    intros Hall. apply Hhi, Hall. }
  simpl. exists cards. split; [reflexivity|exact Hcards].
Qed.

Lemma fallback_nonempty subtopicId topicId subjectId :
  length (getFallbackContent subtopicId topicId subjectId) = 3%nat.
Proof. reflexivity. Qed.

(** On a cache hit the request is answered by the lookup alone. *)
Lemma request_hit env subtopicId topicId subjectId gradeId numCards (c : Store) cached :
  fst (ContentCache.getCachedContent topicId subtopicId subjectId gradeId
         numCards (now_read env) c) = Some cached ->
  getAIContentForSubtopic env subtopicId topicId subjectId gradeId numCards c
  = (Returns cached,
     snd (ContentCache.getCachedContent topicId subtopicId subjectId gradeId
            numCards (now_read env) c)).
Proof.
  intros Hhit.
  unfold getAIContentForSubtopic, try_catchM, bindM, getCachedContent, ret.
  rewrite Hhit. reflexivity.
Qed.

(** C1 (amended): [getAIContentForSubtopic] never throws; when the cache
    lookup misses and the generation gateway reports unavailable or not
    ready (which is what it reports when its health probe throws), the
    result is the static fallback bundle, which has three cards; and when
    the lookup hits, the cached bundle is returned and the store is the
    one the lookup left, whatever the gateways would have answered. *)
Theorem fallback_when_generation_unavailable
    env subtopicId topicId subjectId gradeId numCards (c : Store) :
  let run := getAIContentForSubtopic env subtopicId topicId subjectId gradeId
               numCards c in
  returns (fst run) /\
  ((exists e, health env = Throws e) -> generation_unavailable env) /\
  (cache_miss env subtopicId topicId subjectId gradeId numCards c ->
   generation_unavailable env ->
   fst run = Returns (getFallbackContent subtopicId topicId subjectId) /\
   getFallbackContent subtopicId topicId subjectId <> [] /\
   length (getFallbackContent subtopicId topicId subjectId) = 3%nat) /\
  (forall cached,
     fst (ContentCache.getCachedContent topicId subtopicId subjectId gradeId
            numCards (now_read env) c) = Some cached ->
     fst run = Returns cached /\
     snd run = snd (ContentCache.getCachedContent topicId subtopicId subjectId
                      gradeId numCards (now_read env) c) /\
     forall env', now_read env' = now_read env ->
       getAIContentForSubtopic env' subtopicId topicId subjectId gradeId numCards c
       = run).
Proof.
  intros run. subst run. split; [|split; [|split]].
  - unfold returns, getAIContentForSubtopic, try_catchM, bindM, getCachedContent,
      cacheContent, lift, ret.
    destruct (fst (ContentCache.getCachedContent _ _ _ _ _ _ _)) as [cached|];
      [simpl; eauto|].
    destruct (checkAiServiceStatus_returns (health env)) as [st ->].
    destruct (negb (ApiClient.available st) || negb (ApiClient.modelLoaded st));
      [simpl; eauto|].
    destruct (checkChromaDBStatus_returns (chroma_probe env) (chroma_stats env))
      as [cs ->].
    destruct (ChromaDB.status_available cs && ChromaDB.collectionExists cs).
    + destruct (generateRAGEnhancedContentCards_spec env subtopicId topicId
                  subjectId gradeId numCards) as (cards & -> & _).
      simpl. eauto.
    + destruct (generateContentForSubtopic_returns (generate env)
                  topicId subtopicId subjectId gradeId numCards) as [ai ->].
      simpl. eauto.
  - intros [e He]. unfold generation_unavailable. rewrite He. simpl.
    eexists. split; [reflexivity|]. simpl. auto.
  - intros Hmiss (st & Hst & Hdown).
    split; [|split; [discriminate|reflexivity]].
    unfold cache_miss in Hmiss.
    unfold getAIContentForSubtopic, try_catchM, bindM, getCachedContent,
      cacheContent, lift, ret.
    rewrite Hmiss, Hst.
    replace (negb (ApiClient.available st) || negb (ApiClient.modelLoaded st))
      with true; [reflexivity|].
    destruct Hdown as [-> | ->]; [reflexivity|].
    symmetry. apply orb_true_r.
  - intros cached Hhit. rewrite (request_hit env _ _ _ _ _ c cached Hhit).
    split; [reflexivity|]. split; [reflexivity|].
    intros env' Hnow.
    rewrite (request_hit env' _ _ _ _ _ c cached) by (rewrite Hnow; exact Hhit).
    rewrite Hnow. reflexivity.
Qed.

(** C6 (amended): when the cache lookup misses, the generation gateway is
    healthy and the retrieval gateway reports its collection present,
    [getAIContentForSubtopic] returns cards that all carry a validation
    whose [curriculumAlignment] is at least 0, and at most 1 provided no
    retrieved document has a negative distance; and when the lookup hits,
    the cached cards are returned exactly as they were stored, with or
    without a validation, whatever the gateways report. *)
Theorem rag_cards_carry_validation
    env subtopicId topicId subjectId gradeId numCards (c : Store) :
  (cache_miss env subtopicId topicId subjectId gradeId numCards c ->
   generation_healthy env ->
   retrieval_ready env ->
   exists cards,
     fst (getAIContentForSubtopic env subtopicId topicId subjectId gradeId
            numCards c) = Returns cards /\
     forall card, In card cards ->
       exists v, validation card = Some v /\
         (0 <= ChromaDB.curriculumAlignment v)%Q /\
         ((forall index, nonneg_distances (card_validation env index)) ->
          (ChromaDB.curriculumAlignment v <= 1)%Q)) /\
  (forall cached,
     fst (ContentCache.getCachedContent topicId subtopicId subjectId gradeId
            numCards (now_read env) c) = Some cached ->
     fst (getAIContentForSubtopic env subtopicId topicId subjectId gradeId
            numCards c) = Returns cached /\
     exists e,
       (JsMap.get (ContentCache.generateKey (request_key topicId subtopicId
                                               subjectId gradeId numCards))
          (ContentCache.cache c) = Some e \/
        exists st, ContentCache.localStorage c = Some st /\
          st !! ContentCache.storageKey
                  (ContentCache.generateKey (request_key topicId subtopicId
                                               subjectId gradeId numCards))
            = Some e) /\
       ContentCache.data e = cached).
Proof.
  split.
  - intros Hmiss (st & Hst & Hav & Hml) (cs & Hcs & Hca & Hce).
    unfold cache_miss in Hmiss.
    destruct (generateRAGEnhancedContentCards_spec env subtopicId topicId
                subjectId gradeId numCards) as (cards & Hcards & Hval).
    exists cards. split.
    + unfold getAIContentForSubtopic, try_catchM, bindM, getCachedContent,
        cacheContent, lift, ret.
      rewrite Hmiss, Hst, Hav, Hml. cbn [negb orb]. rewrite Hcs, Hca, Hce.
      cbn [andb]. rewrite Hcards. reflexivity.
    + intros card Hin. rewrite Forall_forall in Hval.
      apply Hval, list_elem_of_In, Hin.
  - intros cached Hhit. rewrite (request_hit env _ _ _ _ _ c cached Hhit).
    split; [reflexivity|].
    unfold ContentCache.getCachedContent in Hhit.
    destruct (CacheFacts.get_Some_live _ _ _ _ Hhit) as (e & He & _ & Hwhere).
    exists e. split; [|exact He]. exact Hwhere.
Qed.

End Orchestrator.
End OrchestratorFacts.

(** ** The statements at concrete inputs *)

Module Examples.
Import Async Samples.

Section CacheExamples.
Import ContentCache CacheFacts.

Lemma wf_fill (n : nat) : wf (fill n).
Proof. induction n as [|n IH]; [apply wf_empty|apply wf_set_op, IH]. Qed.

Lemma set_then_get_witness :
  0 < 1000 /\
  fst (get energy_key 5000 (set energy_key "cards" 1000 5000 empty_cache))
    = Some "cards".
Proof.
  split; [lia|].
  apply (set_then_get energy_key "cards" 1000 5000 empty_cache); lia.
Defined.

Lemma get_reads_mirror_witness :
  JsMap.get (generateKey energy_key) (cache reloaded) = None /\
  10 <= expiresAt mirrored_entry /\
  fst (get energy_key 10 reloaded) = Some "cards" /\
  JsMap.get (generateKey energy_key) (cache (snd (get energy_key 10 reloaded)))
    = Some (touched mirrored_entry 10) /\
  stats_hits (snd (get energy_key 10 reloaded)) = stats_hits reloaded + 1 /\
  stats_misses (snd (get energy_key 10 reloaded)) = stats_misses reloaded.
Proof.
  split; [reflexivity|]. split; [simpl; lia|].
  apply (get_reads_mirror energy_key 10 reloaded
           {[ storageKey (generateKey energy_key) := mirrored_entry ]}
           mirrored_entry).
  - reflexivity.
  - reflexivity.
  - apply lookup_singleton_eq.
  - simpl. lia.
Defined.

Lemma expired_entry_removed_witness :
  JsMap.wf (cache one_entry) /\
  expiresAt (fresh "cards" 1000 0) < 1001 /\
  fst (get energy_key 1001 one_entry) = None /\
  totalEntries (getStats jsonLength (snd (get energy_key 1001 one_entry)))
    = totalEntries (getStats jsonLength one_entry) - 1.
Proof.
  assert (Hwf : JsMap.wf (cache one_entry)).
  { apply (wf_set_op energy_key "cards" 1000 0 empty_cache), wf_empty. }
  assert (Hdead : expiresAt (fresh "cards" 1000 0) < 1001) by (simpl; lia).
  split; [exact Hwf|]. split; [exact Hdead|].
  destruct (proj1 (expired_entry_removed jsonLength energy_key 1001 one_entry)
              (fresh "cards" 1000 0) Hwf eq_refl Hdead)
    as (Hnone & _ & Hcount & _).
  split; [exact Hnone|exact Hcount].
Defined.

(** C5 as stated fails at the expiry instant itself: with
    [now = expiresAt] the entry is still served as a hit and stays in the
    store. *)
Lemma entry_served_at_expiry_instant :
  JsMap.get (generateKey energy_key) (cache one_entry)
    = Some (fresh "cards" 1000 0) /\
  expiresAt (fresh "cards" 1000 0) <= 1000 /\
  fst (get energy_key 1000 one_entry) = Some "cards" /\
  totalEntries (getStats jsonLength (snd (get energy_key 1000 one_entry)))
    = totalEntries (getStats jsonLength one_entry) /\
  stats_hits (snd (get energy_key 1000 one_entry)) = stats_hits one_entry + 1.
Proof.
  split; [reflexivity|]. split; [simpl; lia|].
  split; [reflexivity|]. split; reflexivity.
Qed.

Lemma invalidateTopic_substring_witness :
  topicId energy_key = "energy" /\
  JsMap.get (generateKey energy_key)
    (cache (invalidateTopic "energy" None two_topics)) = None.
Proof.
  split; [reflexivity|].
  apply (proj2 (invalidateTopic_substring "energy" two_topics) energy_key).
  reflexivity.
Defined.

(** C3 as stated fails: the entry of topic "forces" is removed by
    [invalidateTopic("energy")], because its key contains "energy" in
    the subtopic component. *)
Lemma invalidateTopic_removes_other_topic :
  topicId forces_key <> "energy" /\
  JsMap.get (generateKey forces_key) (cache two_topics)
    = Some (fresh "forces cards" 1000 1) /\
  JsMap.get (generateKey forces_key)
    (cache (invalidateTopic "energy" None two_topics)) = None.
Proof. split; [discriminate|]. split; reflexivity. Qed.

Lemma set_evicts_lru_witness :
  wf full /\
  MAX_ENTRIES <= JsMap.size (cache full) /\
  exists k0 e0,
    JsMap.get k0 (cache full) = Some e0 /\
    (forall k e, JsMap.get k (cache full) = Some e ->
                 lastAccessed e0 <= lastAccessed e) /\
    (k0 <> generateKey energy_key ->
     JsMap.get k0 (cache (set energy_key "cards" 1000 200 full)) = None) /\
    JsMap.size (cache (set energy_key "cards" 1000 200 full))
      = JsMap.size (cache full).
Proof.
  assert (Hge : MAX_ENTRIES <= JsMap.size (cache full)) by (vm_compute; discriminate).
  split; [apply wf_fill|]. split; [exact Hge|].
  destruct (set_evicts_lru energy_key "cards" 1000 200 full (wf_fill 100))
    as (_ & _ & Hcap).
  destruct (Hcap Hge) as (k0 & e0 & Hk0 & Hmin & Hgone & _ & Hsize).
  exists k0, e0. split; [exact Hk0|]. split; [exact Hmin|]. split; [exact Hgone|].
  apply Hsize. vm_compute. reflexivity.
Defined.

(** The full store evicts the entry written first, and only that one. *)
Lemma full_store_evicts_first_written :
  oldestKey (cache full) = Some (generateKey (numbered_key 0)) /\
  JsMap.get (generateKey (numbered_key 0))
    (cache (set energy_key "cards" 1000 200 full)) = None /\
  JsMap.keys (cache (set energy_key "cards" 1000 200 full))
    = (List.map (fun i => generateKey (numbered_key i)) (seq 1 99)
       ++ [generateKey energy_key])%list.
Proof. vm_compute. repeat split. Qed.

(** At capacity the eviction also runs when the key being set is already
    present: the oldest entry goes and the store shrinks by one. *)
Lemma overwrite_at_capacity_also_evicts :
  JsMap.get (generateKey (numbered_key 50)) (cache full)
    = Some (fresh "cards" 1000000 50) /\
  JsMap.get (generateKey (numbered_key 0))
    (cache (set (numbered_key 50) "new cards" 1000 200 full)) = None /\
  JsMap.size (cache (set (numbered_key 50) "new cards" 1000 200 full)) = 99.
Proof. vm_compute. repeat split. Qed.



(** The rate is computed in doubles: 23 hits and 137 misses make 14.375
    percent, and the report is 14.37. *)
Lemma hitRate_tie_rounds_down :
  hitRate_ok 23 160 = true /\
  Js.Math_round (((Js.of_Z 23 / Js.of_Z 160) * 100) * 100)%float = Js.of_Z 1437 /\
  2 * (10000 * 23) = (2 * 1437 + 1) * 160.
Proof. vm_compute. repeat split. Qed.

End CacheExamples.

Section LessonExamples.
Import Lesson LessonFacts.



(** At another exact tie the product is exact and the score is rounded
    up: 1 correct answer out of 8 is 12.5 percent and scores 13. *)
Lemma score_1_of_8_is_13 :
  Js.Math_round ((Js.of_Z 1 / Js.of_Z 8) * 100)%float = Js.of_Z 13.
Proof. vm_compute. reflexivity. Qed.

Lemma handleNextCard_forward_witness :
  Z.of_nat (length (currentContent loaded MainQuizReview)) - 1
    <= Z.of_nat (currentCardIndex main_review_last) /\
  contentState (handleNextCard loaded main_review_last) = ExamPractice /\
  currentCardIndex (handleNextCard loaded main_review_last) = 0%nat /\
  quizAnswers (handleNextCard loaded main_review_last) = ∅.
Proof.
  assert (Hlast : Z.of_nat (length (currentContent loaded MainQuizReview)) - 1
                  <= Z.of_nat (currentCardIndex main_review_last))
    by (vm_compute; discriminate).
  split; [exact Hlast|].
  destruct (handleNextCard_forward loaded main_review_last) as (_ & Hmove & _).
  destruct (Hmove Hlast) as (Hstate & Hcursor & Hanswers).
  split; [exact Hstate|]. split.
  - apply Hcursor. rewrite Hstate. discriminate.
  - apply Hanswers. right. exact Hstate.
Defined.

(** C2 as stated fails on the last transition: leaving exam-review from
    its last card (cursor 1 of 2 cards) reaches completion with the cursor
    still at 1. *)
Lemma completion_keeps_cursor :
  Z.of_nat (length (currentContent loaded ExamReview)) - 1
    <= Z.of_nat (currentCardIndex reviewing_last) /\
  contentState reviewing_last = ExamReview /\
  contentState (handleNextCard loaded reviewing_last) = Completion /\
  currentCardIndex (handleNextCard loaded reviewing_last) = 1%nat /\
  currentCardIndex (handleNextCard loaded reviewing_last) <> 0%nat.
Proof.
  split; [vm_compute; discriminate|]. repeat split. discriminate.
Qed.

End LessonExamples.

Section OrchestratorExamples.
Import AIContent OrchestratorFacts.

Lemma search_ok_nonneg : nonneg_distances search_ok.
Proof.
  intros response data docs doc d Hs Hj Hd Hin Hdist.
  simpl in Hs. injection Hs as <-. simpl in Hj. injection Hj as <-.
  simpl in Hd. injection Hd as <-.
  destruct Hin as [<-|[<-|[]]]; simpl in Hdist; injection Hdist as <-;
    unfold Qle; simpl; lia.
Qed.

Lemma env_up_healthy t : generation_healthy (env_up t).
Proof. eexists. split; [reflexivity|]. split; reflexivity. Qed.

Lemma env_up_ready t : retrieval_ready (env_up t).
Proof. eexists. split; [reflexivity|]. split; reflexivity. Qed.

Lemma fallback_when_generation_unavailable_witness :
  cache_miss (env_down 0) "introduction" "energy" "science" "grade-4" 5 no_cards /\
  generation_unavailable (env_down 0) /\
  fst (request (env_down 0) no_cards)
    = Returns (getFallbackContent "introduction" "energy" "science").
Proof.
  assert (Hmiss : cache_miss (env_down 0) "introduction" "energy" "science"
                    "grade-4" 5 no_cards) by reflexivity.
  destruct (fallback_when_generation_unavailable (env_down 0)
              "introduction" "energy" "science" "grade-4" 5 no_cards)
    as (_ & Hthrow & Hfallback & _).
  assert (Hdown : generation_unavailable (env_down 0)).
  { apply Hthrow. eexists. reflexivity. }
  split; [exact Hmiss|]. split; [exact Hdown|].
  exact (proj1 (Hfallback Hmiss Hdown)).
Defined.

(** C1 as stated fails on a cache hit: during an outage a request whose
    bundle was cached earlier is answered from the cache, with the
    generated cards and not with the static fallback bundle. *)
Lemma cached_bundle_served_during_outage :
  generation_unavailable (env_down 5) /\
  fst (request (env_down 5) warm_generated) = fst (request (env_up 0) no_cards) /\
  fst (request (env_down 5) warm_generated)
    <> Returns (getFallbackContent "introduction" "energy" "science").
Proof.
  split; [eexists; split; [reflexivity|left; reflexivity]|].
  split; [vm_compute; reflexivity|].
  intros H.
  apply (f_equal (fun o => match o with
                           | Returns cards => length cards
                           | Throws _ => 0%nat
                           end)) in H.
  vm_compute in H. discriminate H.
Qed.

Lemma rag_cards_carry_validation_witness :
  cache_miss (env_up 0) "introduction" "energy" "science" "grade-4" 5 no_cards /\
  generation_healthy (env_up 0) /\ retrieval_ready (env_up 0) /\
  exists cards,
    fst (request (env_up 0) no_cards) = Returns cards /\
    forall card, In card cards ->
      exists v, validation card = Some v /\
        (0 <= ChromaDB.curriculumAlignment v)%Q /\
        (ChromaDB.curriculumAlignment v <= 1)%Q.
Proof.
  assert (Hmiss : cache_miss (env_up 0) "introduction" "energy" "science"
                    "grade-4" 5 no_cards) by reflexivity.
  split; [exact Hmiss|]. split; [apply env_up_healthy|].
  split; [apply env_up_ready|].
  destruct (proj1 (rag_cards_carry_validation (env_up 0) "introduction" "energy"
                     "science" "grade-4" 5 no_cards) Hmiss (env_up_healthy 0)
              (env_up_ready 0)) as (cards & Hrun & Hcards).
  exists cards. split; [exact Hrun|].
  intros card Hin. destruct (Hcards card Hin) as (v & Hv & Hlo & Hhi).
  exists v. split; [exact Hv|]. split; [exact Hlo|].
  apply Hhi. intros index. apply search_ok_nonneg.
Defined.

(** C6 as stated fails on a cache hit: once both gateways are back, a
    request whose fallback bundle was cached during the outage is still
    answered with those cards, none of which carries a validation. *)
Lemma cached_fallback_lacks_validation :
  generation_healthy (env_up 5) /\ retrieval_ready (env_up 5) /\
  (forall index, nonneg_distances (card_validation (env_up 5) index)) /\
  fst (request (env_up 5) warm_fallback)
    = Returns (getFallbackContent "introduction" "energy" "science") /\
  Forall (fun card => validation card = None)
    (getFallbackContent "introduction" "energy" "science").
Proof.
  split; [apply env_up_healthy|]. split; [apply env_up_ready|].
  split; [intros index; apply search_ok_nonneg|].
  split; [vm_compute; reflexivity|].
  repeat constructor.
Qed.

End OrchestratorExamples.
End Examples.

(** * Further properties *)

(** ** The cache store, continued *)

Module MoreCacheFacts.
Import Async ContentCache CacheFacts CacheMore.

Section Facts.
Context {T : Type} (jsonLength : T -> Z).
Implicit Types (c : Cache T) (params : CacheKey) (e : CacheEntry T).

Lemma app_inj_l (p a b : string) : p +:+ a = p +:+ b -> a = b.
Proof.
  induction p as [|ch p IH]; [auto|].
  change (String ch p +:+ a) with (String ch (p +:+ a)).
  change (String ch p +:+ b) with (String ch (p +:+ b)).
  intros [= H]. auto.
Qed.

Lemma storageKey_inj (k1 k2 : string) : storageKey k1 = storageKey k2 -> k1 = k2.
Proof. apply app_inj_l. Qed.

Lemma storageKey_prefixed (k : string) :
  Js.startsWith (storageKey k) "smartclass_cache_" = true.
Proof. apply prefix_app. Qed.

Lemma size_delete_le (k : string) (m : list (string * CacheEntry T)) :
  JsMap.size (JsMap.delete k m) <= JsMap.size m.
Proof.
  unfold JsMap.size, JsMap.delete.
  induction m as [|x m IH]; simpl; [lia|].
  destruct (negb _); simpl length; lia.
Qed.

Lemma size_set_le (k : string) e (m : list (string * CacheEntry T)) :
  JsMap.size m <= JsMap.size (JsMap.set k e m) <= JsMap.size m + 1.
Proof.
  unfold JsMap.size. induction m as [|[k1 e1] m IH]; simpl; [lia|].
  destruct (decide (k1 = k)); simpl length; lia.
Qed.

Lemma size_set_present (k : string) e e0 (m : list (string * CacheEntry T)) :
  JsMap.get k m = Some e0 -> JsMap.size (JsMap.set k e m) = JsMap.size m.
Proof.
  unfold JsMap.size. induction m as [|[k1 e1] m IH]; simpl; [discriminate|].
  destruct (decide (k1 = k)); simpl length; [lia|]. intros H. specialize (IH H). lia.
Qed.

(** X1: [clear()] leaves an empty store with zeroed counters and a zero hit
    rate, and wipes the mirror too: the next [get], for any key, finds
    nothing and is counted as the first miss. *)
Theorem clear_then_get params now c :
  cache (clear c) = [] /\
  totalEntries (getStats jsonLength (clear c)) = 0 /\
  hits (getStats jsonLength (clear c)) = 0 /\
  misses (getStats jsonLength (clear c)) = 0 /\
  hitRate (getStats jsonLength (clear c)) = 0%float /\
  fst (get params now (clear c)) = None /\
  stats_misses (snd (get params now (clear c))) = 1 /\
  stats_hits (snd (get params now (clear c))) = 0.
Proof.
  do 4 (split; [reflexivity|]). split; [reflexivity|].
  assert (Hget : get params now (clear c) = (None, count_miss (clear c))).
  { unfold get, loadFromStorage. cbn [clear cache clearStorage with_cache
      with_storage localStorage JsMap.get].
    destruct (localStorage c) as [st|]; cbn [fmap option_fmap option_map]; [|reflexivity].
    rewrite map_lookup_filter_None_2; [reflexivity|].
    right. intros x _. cbn [fst]. rewrite storageKey_prefixed. discriminate. }
  rewrite Hget. repeat split.
Qed.

(** X2: the periodic [cleanup()] removes exactly the expired entries: an
    entry is in the store afterwards iff it was there before and
    [now <= expiresAt]; the counters are not touched. *)
Theorem cleanup_keeps_live now c :
  JsMap.wf (cache c) ->
  (forall key,
     JsMap.get key (cache (cleanup now c)) =
     match JsMap.get key (cache c) with
     | Some e => if now >? expiresAt e then None else Some e
     | None => None
     end) /\
  (forall key e, JsMap.get key (cache (cleanup now c)) = Some e -> now <= expiresAt e) /\
  stats_hits (cleanup now c) = stats_hits c /\
  stats_misses (cleanup now c) = stats_misses c.
Proof.
  intros Hwf.
  assert (Hmain : forall key,
     JsMap.get key (cache (cleanup now c)) =
     match JsMap.get key (cache c) with
     | Some e => if now >? expiresAt e then None else Some e
     | None => None
     end).
  { intros key. unfold cleanup. rewrite remove_keys_cache.
    destruct (decide _) as [Hin|Hnin].
    - apply list_elem_of_In, in_map_iff in Hin. destruct Hin as ([k e] & Hk & Hin).
      simpl in Hk. subst k. apply filter_In in Hin. destruct Hin as [Hin Hexp].
      rewrite (In_get key e (cache c) Hwf Hin). simpl in Hexp. rewrite Hexp. reflexivity.
    - destruct (JsMap.get key (cache c)) as [e|] eqn:Hget; [|reflexivity].
      destruct (now >? expiresAt e) eqn:Hexp; [|reflexivity].
      exfalso. apply Hnin. apply list_elem_of_In, in_map_iff.
      exists (key, e). split; [reflexivity|]. apply filter_In.
      split; [apply get_Some_In, Hget|exact Hexp]. }
  split; [exact Hmain|]. split.
  - intros key e. rewrite Hmain. destruct (JsMap.get key (cache c)) as [e0|]; [|discriminate].
    destruct (now >? expiresAt e0) eqn:Hexp; [discriminate|]. intros [= <-]. lia.
  - unfold cleanup. apply remove_keys_stats.
Qed.

Lemma evict_storage c st :
  localStorage c = Some st ->
  exists st', localStorage (evictLeastRecentlyUsed c) = Some st'.
Proof.
  intros Hst. unfold evictLeastRecentlyUsed.
  destruct (oldestKey (cache c)) as [k|]; [|eauto].
  destruct (Js.truthy_string k); [|eauto].
  simpl. rewrite Hst. simpl. eauto.
Qed.

Lemma set_storage params (d : T) ttl now c st :
  localStorage c = Some st ->
  exists st', localStorage (set params d ttl now c) = Some st' /\
    st' !! storageKey (generateKey params) = Some (fresh d ttl now).
Proof.
  intros Hst. unfold set, persistToStorage. cbn [with_storage with_cache localStorage].
  destruct (JsMap.size (cache c) >=? MAX_ENTRIES).
  - destruct (evict_storage c st Hst) as [st1 ->]. simpl.
    eexists. split; [reflexivity|]. apply lookup_insert_eq.
  - rewrite Hst. simpl. eexists. split; [reflexivity|]. apply lookup_insert_eq.
Qed.

(** X3: with [localStorage] available, an entry written by [set] survives
    the loss of the in-memory store: after a fresh page load, a [get] for
    the key issued no later than the expiry instant returns the payload and
    is counted as a hit. *)
Theorem set_survives_reload params (p : T) t now now' c st :
  localStorage c = Some st ->
  now' <= now + t ->
  fst (get params now' (reload (set params p t now c))) = Some p /\
  stats_hits (snd (get params now' (reload (set params p t now c)))) = 1.
Proof.
  intros Hst Hlive.
  destruct (set_storage params p t now c st Hst) as (st' & Hst' & Hlook).
  rewrite (get_hit_storage params now' (reload (set params p t now c)) st'
             (fresh p t now)); [split; reflexivity|reflexivity|exact Hst'|exact Hlook|].
  simpl. lia.
Qed.

(** X4: a [get] for a key that is not in memory and for which the mirror is
    unavailable, has no record, or has only an expired record returns
    absent, leaves the in-memory store as it is, adds one miss and no hit,
    and leaves no record for the key in the mirror. *)
Theorem get_nowhere params now c :
  JsMap.get (generateKey params) (cache c) = None ->
  (forall st e, localStorage c = Some st ->
                st !! storageKey (generateKey params) = Some e -> expiresAt e < now) ->
  fst (get params now c) = None /\
  cache (snd (get params now c)) = cache c /\
  stats_misses (snd (get params now c)) = stats_misses c + 1 /\
  stats_hits (snd (get params now c)) = stats_hits c /\
  (forall st', localStorage (snd (get params now c)) = Some st' ->
               st' !! storageKey (generateKey params) = None).
Proof.
  intros Hmem Hdead. unfold get, loadFromStorage. rewrite Hmem.
  destruct (localStorage c) as [st|] eqn:Hst; simpl.
  - destruct (st !! storageKey (generateKey params)) as [e|] eqn:Hlook; simpl.
    + replace (now >? expiresAt e) with true by (specialize (Hdead st e eq_refl Hlook); lia).
      simpl. repeat split. intros st' [= <-]. apply lookup_delete_eq.
    + rewrite Hst. repeat split. intros st' [= <-]. exact Hlook.
  - rewrite Hst. repeat split. discriminate.
Qed.

(** X5: loading an entry from the mirror grows the in-memory store by one
    whatever its size: this path makes no capacity check and evicts
    nothing. *)
Theorem mirror_load_grows_store params now c st e :
  JsMap.get (generateKey params) (cache c) = None ->
  localStorage c = Some st ->
  st !! storageKey (generateKey params) = Some e ->
  now <= expiresAt e ->
  JsMap.size (cache (snd (get params now c))) = JsMap.size (cache c) + 1 /\
  (forall k, k <> generateKey params ->
     JsMap.get k (cache (snd (get params now c))) = JsMap.get k (cache c)).
Proof.
  intros Hmem Hst Hlook Hlive.
  rewrite (get_hit_storage params now c st e Hmem Hst Hlook Hlive). simpl. split.
  - rewrite (size_set_present _ _ e) by apply get_set_eq.
    apply size_set_fresh, Hmem.
  - intros k Hk. rewrite !get_set_ne by congruence. reflexivity.
Qed.

Lemma set_size_bound params (d : T) ttl now c :
  wf c ->
  JsMap.size (cache (set params d ttl now c))
    <= Z.max (JsMap.size (cache c)) MAX_ENTRIES.
Proof.
  intros Hwf. rewrite cache_set.
  destruct (JsMap.size (cache c) >=? MAX_ENTRIES) eqn:Hcap.
  - assert (Hne : cache c <> []).
    { intros Hnil. rewrite Hnil in Hcap. discriminate Hcap. }
    destruct (evict_spec c Hwf Hne) as (k0 & e0 & Hk0 & _ & ->).
    pose proof (size_set_le (generateKey params) (fresh d ttl now)
                  (JsMap.delete k0 (cache c))) as Hs.
    rewrite (length_delete k0 e0 (cache c) (proj1 Hwf) Hk0) in Hs. lia.
  - pose proof (size_set_le (generateKey params) (fresh d ttl now) (cache c)) as Hs.
    lia.
Qed.

Lemma remove_keys_size (ks : list string) c :
  JsMap.size (cache (remove_keys ks c)) <= JsMap.size (cache c).
Proof.
  revert c. induction ks as [|k ks IH]; intros c; [simpl; lia|].
  unfold remove_keys in *. simpl.
  etransitivity; [apply IH|]. simpl. apply size_delete_le.
Qed.

Lemma remove_keys_no_storage (ks : list string) c :
  localStorage c = None -> localStorage (remove_keys ks c) = None.
Proof.
  revert c. induction ks as [|k ks IH]; intros c Hst; [exact Hst|].
  unfold remove_keys in *. simpl. apply IH. simpl. rewrite Hst. reflexivity.
Qed.

Lemma apply_op_no_storage now o c :
  localStorage c = None ->
  localStorage (snd (apply_op now o c)) = None /\
  (wf c -> JsMap.size (cache (snd (apply_op now o c)))
           <= Z.max (JsMap.size (cache c)) MAX_ENTRIES).
Proof.
  intros Hst. destruct o as [params|params d ttl|topic subtopic|]; cbn [apply_op snd].
  - unfold get, loadFromStorage. rewrite Hst.
    destruct (JsMap.get (generateKey params) (cache c)) as [e|] eqn:Hget.
    + destruct (now >? expiresAt e); simpl; rewrite ?Hst; (split; [reflexivity|]); intros _.
      * pose proof (size_delete_le (generateKey params) (cache c)). lia.
      * rewrite (size_set_present _ _ e) by exact Hget. lia.
    + simpl. rewrite Hst. split; [reflexivity|]. lia.
  - split.
    + unfold set, persistToStorage, evictLeastRecentlyUsed.
      cbn [with_storage with_cache localStorage].
      destruct (_ >=? _); [|rewrite Hst; reflexivity].
      destruct (oldestKey (cache c)) as [k|]; [|rewrite Hst; reflexivity].
      destruct (Js.truthy_string k); simpl; rewrite Hst; reflexivity.
    + apply set_size_bound.
  - split; [apply remove_keys_no_storage, Hst|]. intros _.
    unfold invalidateTopic.
    etransitivity; [apply remove_keys_size|]. lia.
  - split; [apply remove_keys_no_storage, Hst|]. intros _.
    unfold cleanup. etransitivity; [apply remove_keys_size|]. lia.
Qed.

(** X6: where [localStorage] is not available (every access throws and is
    swallowed), the capacity bound is an invariant: no history of [get],
    [set], [invalidateTopic] and [cleanup] calls takes a store that holds at
    most [MAX_ENTRIES] entries beyond [MAX_ENTRIES]. *)
Theorem capacity_bound_without_mirror ops c :
  localStorage c = None ->
  wf c ->
  JsMap.size (cache c) <= MAX_ENTRIES ->
  JsMap.size (cache (snd (run ops c))) <= MAX_ENTRIES.
Proof.
  revert c. induction ops as [|[now o] ops IH]; intros c Hst Hwf Hsize; [exact Hsize|].
  simpl. destruct (apply_op_no_storage now o c Hst) as [Hst1 Hsize1].
  apply IH; [exact Hst1| |specialize (Hsize1 Hwf); lia].
  pose proof (wf_run [(now, o)] c Hwf) as Hwf1. exact Hwf1.
Qed.

Lemma includes_refl (t : string) : Js.includes t t = true.
Proof.
  rewrite includes_unfold.
  assert (H : String.prefix t t = true).
  { induction t as [|a t IH]; simpl; [reflexivity|].
    destruct (Ascii.ascii_dec a a); [exact IH|congruence]. }
  rewrite H. reflexivity.
Qed.

Lemma generateKey_includes_subtopicId params :
  Js.includes (generateKey params) (subtopicId params) = true.
Proof.
  unfold generateKey, Js.join.
  destruct (quizType params), (numCards params) as [n|];
    try destruct (Js.truthy_number n); cbn [app String.concat];
    do 4 (apply includes_app_l; apply (includes_app_l ":"));
    first [apply includes_here | apply includes_refl].
Qed.

(** X7: [invalidateTopic(topicId, subtopicId)] removes exactly the in-memory
    entries whose key string contains both ids (an empty [subtopicId] is
    ignored); in particular every entry stored under that topic and
    subtopic goes; the hit and miss counters are not touched. *)
Theorem invalidateTopic_subtopic topic sub c :
  (forall key,
     JsMap.get key (cache (invalidateTopic topic (Some sub) c)) =
     if Js.includes key topic && (negb (Js.truthy_string sub) || Js.includes key sub)
     then None else JsMap.get key (cache c)) /\
  (forall params, topicId params = topic -> subtopicId params = sub ->
     JsMap.get (generateKey params) (cache (invalidateTopic topic (Some sub) c)) = None) /\
  stats_hits (invalidateTopic topic (Some sub) c) = stats_hits c /\
  stats_misses (invalidateTopic topic (Some sub) c) = stats_misses c.
Proof.
  assert (Hmain : forall key,
     JsMap.get key (cache (invalidateTopic topic (Some sub) c)) =
     if Js.includes key topic && (negb (Js.truthy_string sub) || Js.includes key sub)
     then None else JsMap.get key (cache c)).
  { intros key. unfold invalidateTopic. rewrite remove_keys_cache.
    destruct (decide _) as [Hin|Hnin].
    - apply list_elem_of_In, filter_In in Hin. destruct Hin as [_ ->]. reflexivity.
    - destruct (Js.includes key topic && _) eqn:Hinc; [|reflexivity].
      apply get_None_notin. intros Hk. apply Hnin.
      apply list_elem_of_In, filter_In. split; [exact Hk|exact Hinc]. }
  split; [exact Hmain|]. split.
  - intros params <- <-. rewrite Hmain, generateKey_includes_topicId,
      generateKey_includes_subtopicId, orb_true_r. reflexivity.
  - unfold invalidateTopic. apply remove_keys_stats.
Qed.

Lemma remove_keys_storage (ks : list string) c st (k : string) :
  localStorage c = Some st -> ~ In k ks ->
  exists st', localStorage (remove_keys ks c) = Some st' /\
              st' !! storageKey k = st !! storageKey k.
Proof.
  revert c st. induction ks as [|k1 ks IH]; intros c st Hst Hnin; [eauto|].
  unfold remove_keys in *. simpl.
  destruct (IH (removeFromStorage k1 (with_cache c (JsMap.delete k1 (cache c))))
              (base.delete (storageKey k1) st)) as (st' & Hst' & Hlook).
  - simpl. rewrite Hst. reflexivity.
  - simpl in Hnin. tauto.
  - exists st'. split; [exact Hst'|]. rewrite Hlook. apply lookup_delete_ne.
    intros Heq. apply storageKey_inj in Heq. simpl in Hnin. tauto.
Qed.

(** X8: [invalidateTopic] only walks the in-memory keys: an unexpired entry
    that lives in the mirror alone (as after a page load) is not
    invalidated, whatever the topic, and the next [get] serves it. *)
Theorem invalidateTopic_misses_mirror params topic sub now c st e :
  JsMap.get (generateKey params) (cache c) = None ->
  localStorage c = Some st ->
  st !! storageKey (generateKey params) = Some e ->
  now <= expiresAt e ->
  fst (get params now (invalidateTopic topic sub c)) = Some (data e).
Proof.
  intros Hmem Hst Hlook Hlive.
  assert (Hmem' : JsMap.get (generateKey params)
                    (cache (invalidateTopic topic sub c)) = None).
  { unfold invalidateTopic. rewrite remove_keys_cache.
    destruct (decide _); [reflexivity|exact Hmem]. }
  unfold invalidateTopic in *.
  set (ks := List.filter _ (JsMap.keys (cache c))) in *.
  destruct (remove_keys_storage ks c st (generateKey params) Hst) as (st' & Hst' & Hlook').
  { intros Hin. subst ks. apply filter_In in Hin. destruct Hin as [Hin _].
    apply get_None_notin in Hmem. tauto. }
  rewrite (get_hit_storage params now _ st' e Hmem' Hst'); [reflexivity| |exact Hlive].
  rewrite Hlook'. exact Hlook.
Qed.

(** X9: a content entry and a quiz entry never share a key, whatever their
    ids. *)
Theorem content_and_quiz_keys_differ params1 params2 :
  type params1 = content -> type params2 = quiz ->
  generateKey params1 <> generateKey params2.
Proof.
  intros H1 H2. unfold generateKey, Js.join. rewrite H1, H2.
  destruct (quizType params1), (numCards params1) as [n1|];
    try destruct (Js.truthy_number n1);
    destruct (quizType params2), (numCards params2) as [n2|];
    try destruct (Js.truthy_number n2);
    cbn [app String.concat EntryType_str]; discriminate.
Qed.

(** X10: whatever [getCachedContentOrFetch] resolves with is what the store
    then holds under the key; it rejects only with the error of the fetch;
    and when the lookup misses and the fetch succeeds it resolves with the
    fetched payload. *)
Theorem getCachedContentOrFetch_caches truthy cacheKey (fetchFn : Outcome T)
    ttl now_read now_write c :
  let r := getCachedContentOrFetch truthy cacheKey fetchFn ttl now_read now_write c in
  (forall v, fst r = Returns v ->
     exists e, JsMap.get (generateKey cacheKey) (cache (snd r)) = Some e /\ data e = v) /\
  (forall error, fst r = Throws error -> fetchFn = Throws error) /\
  (forall d, fst (get cacheKey now_read c) = None -> fetchFn = Returns d ->
     fst r = Returns d).
Proof.
  intros r. subst r. unfold getCachedContentOrFetch.
  assert (Hfetch : forall c1 v,
    fst (match fetchFn with
         | Returns d =>
             (Returns d,
              set cacheKey d (match ttl with Some t => t | None => DEFAULT_TTL end)
                now_write c1)
         | Throws error => (Throws error, c1)
         end) = Returns v ->
    exists e,
      JsMap.get (generateKey cacheKey)
        (cache (snd (match fetchFn with
                     | Returns d =>
                         (Returns d,
                          set cacheKey d
                            (match ttl with Some t => t | None => DEFAULT_TTL end)
                            now_write c1)
                     | Throws error => (Throws error, c1)
                     end))) = Some e /\ data e = v).
  { intros c1 v. destruct fetchFn as [d|err]; cbn [fst snd]; [|discriminate].
    intros [= <-]. eexists. split; [rewrite cache_set; apply get_set_eq|reflexivity]. }
  split; [|split].
  - intros v. destruct (fst (get cacheKey now_read c)) as [cached|] eqn:Hget;
      [|apply Hfetch].
    destruct (truthy cached); [|apply Hfetch].
    simpl. intros [= <-].
    destruct (get_Some_live cacheKey now_read c cached Hget)
      as (e & He & Hlive & [Hmem|(st & Hst & Hlook)]).
    + rewrite (get_hit_memory cacheKey now_read c e Hmem Hlive). simpl.
      eexists. split; [apply get_set_eq|exact He].
    + destruct (JsMap.get (generateKey cacheKey) (cache c)) as [e0|] eqn:Hmem.
      * unfold get in Hget |- *. rewrite Hmem in Hget |- *.
        destruct (now_read >? expiresAt e0); simpl in Hget |- *; [discriminate|].
        eexists. split; [apply get_set_eq|]. simpl. congruence.
      * rewrite (get_hit_storage cacheKey now_read c st e Hmem Hst Hlook Hlive). simpl.
        eexists. split; [apply get_set_eq|exact He].
  - intros error. destruct (fst (get cacheKey now_read c)) as [cached|];
      [destruct (truthy cached); [discriminate|]|];
      destruct fetchFn; simpl; congruence.
  - intros d Hmiss ->. rewrite Hmiss. reflexivity.
Qed.

End Facts.
End MoreCacheFacts.

(** ** The lesson page, continued *)

Module MoreLessonFacts.
Import Lesson LessonMore.

Section Evaluation.
Implicit Types (quiz : list AIQuizQuestion) (answers : gmap nat string).

Lemma evaluate_loop_lookup quiz answers : forall (k : nat) results (i : nat),
  evaluate_loop quiz k answers results !! i =
  if decide (k <= i < k + length quiz)%nat
  then (fun q => bool_decide (answers !! i = Some (correct_answer q)))
         <$> quiz !! (i - k)%nat
  else results !! i.
Proof.
  induction quiz as [|q quiz IH]; intros k results i; simpl.
  - rewrite decide_False by lia. reflexivity.
  - rewrite IH. destruct (decide (i = k)) as [->|Hne].
    + rewrite decide_False by lia. rewrite decide_True by lia.
      rewrite lookup_insert_eq, Nat.sub_diag. reflexivity.
    + rewrite lookup_insert_ne by congruence.
      destruct (decide (k + 1 <= i < k + 1 + length quiz)%nat) as [Hin|Hout].
      * rewrite decide_True by lia.
        replace (i - k)%nat with (S (i - (k + 1))) by lia. reflexivity.
      * rewrite decide_False by lia. reflexivity.
Qed.

(** X11: [evaluateQuiz] records a result for exactly the question indices
    of the quiz: the result at index [i] is true iff the answer recorded at
    [i] equals that question's correct answer (an unanswered question is
    wrong), and there is no result at an index past the last question. *)
Theorem evaluateQuiz_lookup quiz answers (i : nat) :
  evaluateQuiz quiz answers !! i =
  (fun q => bool_decide (answers !! i = Some (correct_answer q))) <$> quiz !! i.
Proof.
  unfold evaluateQuiz. rewrite evaluate_loop_lookup, Nat.sub_0_r.
  destruct (decide _) as [Hin|Hout]; [reflexivity|].
  rewrite lookup_empty. rewrite lookup_ge_None_2 by lia. reflexivity.
Qed.

(** X12: selecting an answer twice for one question overwrites the first
    selection, and the later one is what gets scored when the main quiz is
    left from its last question. *)
Theorem later_answer_is_scored (d : Loaded) (p : Page) (i : nat) (a1 a2 : string) q :
  contentState p = MainQuiz ->
  mainQuiz d !! i = Some q ->
  Z.of_nat (length (mainQuiz d)) - 1 <= Z.of_nat (currentCardIndex p) ->
  quizAnswers (handleAnswerSelect i a2 (handleAnswerSelect i a1 p)) !! i = Some a2 /\
  quizResults (handleNextCard d (handleAnswerSelect i a2 (handleAnswerSelect i a1 p))) !! i
    = Some (bool_decide (a2 = correct_answer q)).
Proof.
  intros Hstate Hq Hlast. split; [apply lookup_insert_eq|].
  unfold handleNextCard. cbn [handleAnswerSelect contentState currentCardIndex
    quizAnswers quizResults].
  rewrite Hstate. unfold currentContent, convertQuizForComponent. rewrite length_map.
  replace (_ <? _) with false by lia. cbn [quizResults].
  pose proof (lookup_lt_Some _ _ _ Hq) as Hlt.
  unfold evaluateQuiz. rewrite evaluate_loop_lookup, Nat.sub_0_r.
  rewrite decide_True by lia. rewrite Hq. simpl. rewrite lookup_insert_eq.
  f_equal. apply bool_decide_ext. split; congruence.
Qed.

End Evaluation.

Section Progression.
Variable d : Loaded.

Lemma advance_within (s : ContentState) a r (k : nat) :
  (k = 0%nat \/ Z.of_nat k <= Z.of_nat (length (currentContent d s)) - 1) ->
  advance d k (at_card s 0 a r) = at_card s k a r.
Proof.
  induction k as [|k IH]; [reflexivity|].
  intros [Hk|Hk]; [discriminate|].
  unfold advance in *. simpl. rewrite IH by lia.
  unfold handleNextCard, at_card. simpl.
  replace (_ <? _) with true by lia. f_equal. lia.
Qed.

Lemma advance_add (n m : nat) (p : Page) :
  advance d (n + m) p = advance d n (advance d m p).
Proof. unfold advance. apply Nat.iter_add. Qed.

(** Spending the advances of one state leads to the next state. *)
Lemma advance_state (s : ContentState) a r :
  s <> Completion ->
  exists i a' r',
    advance d (advances_in (length (currentContent d s))) (at_card s 0 a r)
      = at_card (next s) i a' r' /\
    (next s <> Completion -> i = 0%nat).
Proof.
  intros Hs. set (L := length (currentContent d s)).
  assert (Hn : advances_in L = S (advances_in L - 1)) by (unfold advances_in; lia).
  rewrite Hn. unfold advance. simpl. fold (advance d (advances_in L - 1) (at_card s 0 a r)).
  rewrite advance_within by (unfold advances_in; fold L; lia).
  unfold handleNextCard, at_card. cbn [contentState currentCardIndex quizAnswers quizResults].
  fold L.
  assert (Hge : Z.of_nat L - 1 <= Z.of_nat (advances_in L - 1))
    by (unfold advances_in; lia).
  rewrite (proj2 (Z.ltb_ge _ _) Hge).
  destruct s; try congruence; simpl; eauto 10.
  do 3 eexists. split; [reflexivity|]. congruence.
Qed.

Lemma completion_absorbing (p : Page) (k : nat) :
  contentState p = Completion -> advance d k p = p.
Proof.
  intros Hc. induction k as [|k IH]; [reflexivity|].
  unfold advance in *. simpl. rewrite IH.
  unfold handleNextCard. rewrite Hc.
  assert (Hge : Z.of_nat (length (currentContent d Completion)) - 1
                <= Z.of_nat (currentCardIndex p)) by (simpl; lia).
  rewrite (proj2 (Z.ltb_ge _ _) Hge). reflexivity.
Qed.

Lemma lengths_of_states :
  length (currentContent d Intro) = 1%nat /\
  length (currentContent d Content) = length (content d) /\
  length (currentContent d ThankYou) = 1%nat /\
  length (currentContent d MainQuiz) = length (mainQuiz d) /\
  length (currentContent d MainQuizReview) = length (mainQuiz d) /\
  length (currentContent d ExamPractice) = length (examQuiz d) /\
  length (currentContent d ExamReview) = length (examQuiz d).
Proof.
  unfold currentContent, convertContentForComponent, convertQuizForComponent.
  rewrite !length_map. repeat split.
Qed.

(** X13: whatever was loaded (empty bundles included), advancing from the
    first intro card reaches completion after exactly
    [2 + max(1,|content|) + 2*max(1,|mainQuiz|) + 2*max(1,|examQuiz|)]
    advances: not earlier, and the page stays in completion afterwards. *)
Theorem reaches_completion (k : nat) :
  (contentState (advance d k initial) = Completion <->
   (advances_to_completion d <= k)%nat).
Proof.
  destruct lengths_of_states as (L0 & L1 & L2 & L3 & L4 & L5 & L6).
  set (n1 := advances_in (length (content d))).
  set (n3 := advances_in (length (mainQuiz d))).
  set (n5 := advances_in (length (examQuiz d))).
  assert (H0 : advance d 1 initial = at_card Content 0 ∅ ∅) by reflexivity.
  destruct (advance_state Content ∅ ∅) as (i1 & a1 & r1 & H1 & Hi1); [discriminate|].
  rewrite L1 in H1. fold n1 in H1. rewrite (Hi1 ltac:(discriminate)) in H1. clear Hi1 i1.
  simpl next in H1.
  destruct (advance_state ThankYou a1 r1) as (i2 & a2 & r2 & H2 & Hi2); [discriminate|].
  rewrite L2 in H2. rewrite (Hi2 ltac:(discriminate)) in H2. clear Hi2 i2.
  simpl next in H2. change (advances_in 1) with 1%nat in H2.
  destruct (advance_state MainQuiz a2 r2) as (i3 & a3 & r3 & H3 & Hi3); [discriminate|].
  rewrite L3 in H3. fold n3 in H3. rewrite (Hi3 ltac:(discriminate)) in H3. clear Hi3 i3.
  simpl next in H3.
  destruct (advance_state MainQuizReview a3 r3) as (i4 & a4 & r4 & H4 & Hi4); [discriminate|].
  rewrite L4 in H4. fold n3 in H4. rewrite (Hi4 ltac:(discriminate)) in H4. clear Hi4 i4.
  simpl next in H4.
  destruct (advance_state ExamPractice a4 r4) as (i5 & a5 & r5 & H5 & Hi5); [discriminate|].
  rewrite L5 in H5. fold n5 in H5. rewrite (Hi5 ltac:(discriminate)) in H5. clear Hi5 i5.
  simpl next in H5.
  destruct (advance_state ExamReview a5 r5) as (i6 & a6 & r6 & H6 & _); [discriminate|].
  rewrite L6 in H6. fold n5 in H6. simpl next in H6.
  (* the page on entering exam-review *)
  assert (Hreview : advance d (n5 + n3 + n3 + 1 + n1 + 1) initial
                    = at_card ExamReview 0 a5 r5).
  { rewrite !advance_add. rewrite H0, H1, H2, H3, H4, H5. reflexivity. }
  assert (HN : advances_to_completion d = (n5 + (n5 + n3 + n3 + 1 + n1 + 1))%nat).
  { unfold advances_to_completion. fold n1 n3 n5. lia. }
  assert (Hdone : advance d (advances_to_completion d) initial
                  = at_card Completion i6 a6 r6).
  { rewrite HN, advance_add, Hreview. exact H6. }
  split.
  - intros Hk. destruct (le_lt_dec (advances_to_completion d) k) as [|Hlt]; [assumption|].
    exfalso.
    (* one advance before the end the page is still in exam-review *)
    assert (Hlast : advance d (advances_to_completion d - 1) initial
                    = at_card ExamReview (n5 - 1) a5 r5).
    { replace (advances_to_completion d - 1)%nat
        with ((n5 - 1) + (n5 + n3 + n3 + 1 + n1 + 1))%nat
        by (rewrite HN; unfold n5, advances_in; lia).
      rewrite advance_add, Hreview. apply advance_within.
      rewrite L6. unfold n5, advances_in. lia. }
    replace (advances_to_completion d - 1)%nat
      with ((advances_to_completion d - 1 - k) + k)%nat in Hlast by lia.
    rewrite advance_add, (completion_absorbing _ _ Hk) in Hlast.
    rewrite Hlast in Hk. discriminate Hk.
  - intros Hk.
    replace k with ((k - advances_to_completion d) + advances_to_completion d)%nat by lia.
    rewrite advance_add, Hdone. rewrite completion_absorbing; reflexivity.
Qed.

End Progression.
End MoreLessonFacts.

(** ** The retrieval gateway, continued *)

Module MoreGatewayFacts.
Import Async ChromaDB.

Section Retrieval.

Lemma substring_length_le (n : nat) (s : string) :
  (String.length (String.substring 0 n s) <= n)%nat.
Proof.
  revert s. induction n as [|n IH]; intros s; destruct s as [|c s]; simpl; try lia.
  specialize (IH s). lia.
Qed.

Lemma unique_spec (l : list string) : forall seen,
  NoDup (unique seen l) /\
  forall x, In x (unique seen l) -> In x l /\ ~ x ∈ seen.
Proof.
  induction l as [|y l IH]; intros seen; simpl.
  - split; [constructor|]. intros x [].
  - destruct (bool_decide_reflect (y ∈ seen)) as [Hy|Hy].
    + destruct (IH seen) as [Hnd Hin]. split; [exact Hnd|].
      intros x Hx. destruct (Hin x Hx). auto.
    + destruct (IH (y :: seen)) as [Hnd Hin]. split.
      * constructor; [|exact Hnd]. intros Hy'. apply list_elem_of_In in Hy'.
        destruct (Hin y Hy') as [_ Hns]. apply Hns. left.
      * intros x [<-|Hx]; [auto|]. destruct (Hin x Hx) as [Hxl Hns].
        split; [auto|]. intros Hs. apply Hns. right. exact Hs.
Qed.

Lemma Qlt_bool_iff (x y : Q) : Qlt_bool x y = true <-> (x < y)%Q.
Proof.
  unfold Qlt_bool. rewrite negb_true_iff. split.
  - intros H. apply Qnot_le_lt. intros Hle. apply Qle_bool_iff in Hle. congruence.
  - intros H. destruct (Qle_bool y x) eqn:Hle; [|reflexivity].
    apply Qle_bool_iff in Hle. exfalso. apply (Qlt_not_le _ _ H Hle).
Qed.

Lemma relevant_distance doc :
  Qlt_bool (distance_or_1 doc) (8 # 10) = true ->
  exists d, distance doc = Some d /\ ~ (d == 0)%Q /\ (d < 8 # 10)%Q /\
            distance_or_1 doc = d.
Proof.
  unfold distance_or_1. destruct (distance doc) as [d|]; [|discriminate].
  destruct (Qeq_bool d 0) eqn:Hz; [discriminate|].
  intros H. exists d. split; [reflexivity|]. split.
  - intros Heq. apply Qeq_bool_iff in Heq. congruence.
  - split; [apply Qlt_bool_iff, H|reflexivity].
Qed.

(** What [retrieveContext] can return: the empty context, or the context
    built from the documents of a successful search reply. *)
Lemma retrieveContext_shape senv query subjectId gradeId topicId n :
  retrieveContext senv query subjectId gradeId topicId n = Returns getEmptyContext \/
  exists docs,
    retrieveContext senv query subjectId gradeId topicId n =
    Returns
      {| documents :=
           List.filter (fun doc => Qlt_bool (distance_or_1 doc) (8 # 10)) docs;
         relevantContent :=
           String.substring 0 2000
             (Js.join (newline +:+ newline)
                (List.map text
                   (List.filter (fun doc => Qlt_bool (distance_or_1 doc) (8 # 10)) docs)));
         sources :=
           unique []
             (List.map
                (fun doc =>
                   match document_type (metadata doc) with
                   | Some t => if Js.truthy_string t then t else "syllabus_document"
                   | None => "syllabus_document"
                   end)
                (List.filter (fun doc => Qlt_bool (distance_or_1 doc) (8 # 10)) docs)) |}.
Proof.
  unfold retrieveContext, testConnection.
  destruct (isConnected senv); simpl.
  - destruct (search senv) as [response|e]; simpl; [|auto].
    destruct (ok response); simpl; [|auto].
    destruct (json response) as [data|e]; simpl; [|auto].
    destruct (search_documents data) as [docs|]; simpl; [|auto].
    destruct (success data); simpl; [|auto]. right. exists docs. reflexivity.
  - destruct (reconnect senv) as [sd|e]; simpl; [|auto].
    destruct (available sd); simpl; [|auto].
    destruct (search senv) as [response|e]; simpl; [|auto].
    destruct (ok response); simpl; [|auto].
    destruct (json response) as [data|e]; simpl; [|auto].
    destruct (search_documents data) as [docs|]; simpl; [|auto].
    destruct (success data); simpl; [|auto]. right. exists docs. reflexivity.
Qed.

Lemma retrieveContext_returns senv query subjectId gradeId topicId n :
  exists ctx, retrieveContext senv query subjectId gradeId topicId n = Returns ctx.
Proof.
  destruct (retrieveContext_shape senv query subjectId gradeId topicId n)
    as [->|[docs ->]]; eexists; reflexivity.
Qed.

Lemma validateContent_returns senv aiContent subjectId gradeId topicId :
  exists v, validateContent senv aiContent subjectId gradeId topicId = Returns v.
Proof.
  unfold validateContent.
  destruct (retrieveContext_shape senv (String.substring 0 200 aiContent)
              subjectId gradeId (Some topicId) 3) as [->|[docs ->]].
  - simpl. eexists. reflexivity.
  - cbn [try_catch bind documents].
    destruct (length _ =? 0)%nat; eexists; reflexivity.
Qed.

(** X14: [retrieveContext] never throws. Every document it hands out has a
    distance that is present, non-zero and below 0.8 (a document with a
    missing or zero distance is treated as distance 1 and dropped); the
    combined context text has at most 2000 characters; the source list has
    no duplicates. *)
Theorem retrieveContext_relevant senv query subjectId gradeId topicId n :
  exists ctx,
    retrieveContext senv query subjectId gradeId topicId n = Returns ctx /\
    (forall doc, In doc (documents ctx) ->
       exists d, distance doc = Some d /\ ~ (d == 0)%Q /\ (d < 8 # 10)%Q) /\
    (String.length (relevantContent ctx) <= 2000)%nat /\
    NoDup (sources ctx).
Proof.
  destruct (retrieveContext_shape senv query subjectId gradeId topicId n)
    as [->|[docs ->]]; eexists; (split; [reflexivity|]); simpl.
  - split; [intros doc []|]. split; [lia|constructor].
  - split; [|split].
    + intros doc Hin. apply filter_In in Hin. destruct Hin as [_ Hrel].
      destruct (relevant_distance doc Hrel) as (d & Hd & Hnz & Hlt & _). eauto.
    + apply substring_length_le.
    + apply unique_spec.
Qed.

(** X15: [validateContent] never throws, and whatever the search returns
    the alignment is at least 0, the confidence lies between 0 and 0.95,
    and [isValid] holds exactly when the returned alignment exceeds 0.3.
    (These relations between the returned fields hold of the double
    arithmetic of the code as well.) *)
Theorem validateContent_scores senv aiContent subjectId gradeId topicId :
  exists v,
    validateContent senv aiContent subjectId gradeId topicId = Returns v /\
    (0 <= curriculumAlignment v)%Q /\
    (0 <= confidence v)%Q /\ (confidence v <= 95 # 100)%Q /\
    (isValid v = true <-> (3 # 10 < curriculumAlignment v)%Q).
Proof.
  unfold validateContent.
  destruct (retrieveContext_shape senv (String.substring 0 200 aiContent)
              subjectId gradeId (Some topicId) 3) as [->|[docs ->]].
  - simpl. eexists. split; [reflexivity|]. simpl.
    split; [discriminate|]. split; [discriminate|]. split; [discriminate|].
    split; [reflexivity|auto].
  - cbn [try_catch bind documents].
    set (rel := List.filter (fun doc => Qlt_bool (distance_or_1 doc) (8 # 10)) docs).
    destruct (length rel =? 0)%nat eqn:Hlen.
    + eexists. split; [reflexivity|]. simpl.
      split; [discriminate|]. split; [discriminate|]. split; [discriminate|].
      split; [reflexivity|auto].
    + eexists. split; [reflexivity|]. cbn [curriculumAlignment confidence isValid].
      set (avg := (sum_distances rel / inject_Z (Z.of_nat (length rel)))%Q).
      clearbody avg.
      assert (Hal : (0 <= Qmax 0 (1 - avg))%Q) by apply Q.le_max_l.
      set (al := Qmax 0 (1 - avg)) in *. clearbody al.
      split; [exact Hal|]. split; [|split].
      * apply Q.min_glb; lra.
      * apply Q.le_min_l.
      * apply Qlt_bool_iff.
Qed.

Lemma prefix_refl (s : string) : String.prefix s s = true.
Proof.
  induction s as [|a s IH]; simpl; [reflexivity|].
  destruct (Ascii.ascii_dec a a); [exact IH|congruence].
Qed.

(** X16: [generateRAGEnhancedContent] never throws; the enhanced prompt
    always starts with the original prompt, and equals it when no context
    text was retrieved; a validation is attached exactly when the retrieved
    context has at least one document. *)
Theorem enhancedPrompt_extends ctxEnv valEnv prompt subjectId gradeId topicId subtopicId :
  exists r,
    generateRAGEnhancedContent ctxEnv valEnv prompt subjectId gradeId topicId subtopicId
      = Returns r /\
    String.prefix prompt (enhancedPrompt r) = true /\
    (relevantContent (context r) = EmptyString -> enhancedPrompt r = prompt) /\
    (rag_validation r = None <-> documents (context r) = []).
Proof.
  unfold generateRAGEnhancedContent.
  destruct (retrieveContext_returns ctxEnv
              (topicId +:+ " " +:+ subtopicId +:+ " " +:+ prompt)
              subjectId gradeId (Some topicId) 5) as (ctx & ->).
  cbn [try_catch bind].
  assert (Hpre : String.prefix prompt
            (if Js.truthy_string (relevantContent ctx)
             then prompt +:+ newline +:+ newline +:+ "Relevant curriculum context:"
                    +:+ newline +:+ relevantContent ctx +:+ newline +:+ newline
                    +:+ "Please ensure content aligns with the curriculum standards above."
             else prompt) = true).
  { destruct (Js.truthy_string _); [apply prefix_app|apply prefix_refl]. }
  destruct (documents ctx) as [|doc docs] eqn:Hdocs; cbn [length Nat.ltb Nat.leb].
  - cbn [bind]. eexists. split; [reflexivity|]. cbn [enhancedPrompt context rag_validation].
    split; [exact Hpre|]. split; [intros ->; reflexivity|]. rewrite Hdocs. tauto.
  - destruct (validateContent_returns valEnv prompt subjectId gradeId topicId)
      as (v & ->).
    cbn [bind]. eexists. split; [reflexivity|].
    cbn [enhancedPrompt context rag_validation].
    split; [exact Hpre|]. split; [intros ->; reflexivity|]. rewrite Hdocs.
    split; discriminate.
Qed.

(** X17: [checkChromaDBStatus] never throws and its report is consistent:
    it says available exactly when the connection probe answered
    "available"; a collection is reported only by an available service; and
    without a collection the document count is 0. *)
Theorem chroma_status_consistent probe statsReply :
  exists st,
    checkChromaDBStatus probe statsReply = Returns st /\
    (status_available st = true <->
     exists d, probe = Returns d /\ available d = true) /\
    (collectionExists st = true -> status_available st = true) /\
    (collectionExists st = false -> documentCount st = 0).
Proof.
  unfold checkChromaDBStatus, testConnection, getCollectionStats.
  destruct probe as [d|e]; simpl.
  - destruct (available d) eqn:Hd; simpl.
    + destruct statsReply as [d2|e2]; simpl.
      * destruct (available d2); simpl; eexists; (split; [reflexivity|]); simpl;
          (split; [split; [eauto|reflexivity]|]); split; congruence.
      * eexists. split; [reflexivity|]. simpl.
        split; [split; [eauto|reflexivity]|]. split; congruence.
    + eexists. split; [reflexivity|]. simpl. split; [|split; congruence].
      split; [discriminate|]. intros (d0 & [= <-] & H). congruence.
  - eexists. split; [reflexivity|]. simpl. split; [|split; congruence].
    split; [discriminate|]. intros (d0 & H & _). discriminate.
Qed.

End Retrieval.
End MoreGatewayFacts.

(** ** The content orchestrator, continued *)

Module MoreOrchestratorFacts.
Import Async AIContent OrchestratorFacts OrchestratorMore.

Section Titles.

Lemma length_append (a b : string) :
  String.length (a +:+ b) = (String.length a + String.length b)%nat.
Proof.
  induction a as [|c a IH]; [reflexivity|].
  change (String c a +:+ b) with (String c (a +:+ b)). simpl. rewrite IH. reflexivity.
Qed.

Lemma join_length (sep : string) (words : list string) :
  String.length sep = 1%nat ->
  String.length (Js.join sep words) = joined_length words.
Proof.
  intros Hsep. unfold Js.join.
  induction words as [|w [|w' rest] IH]; [reflexivity|reflexivity|].
  change (String.concat sep (w :: w' :: rest))
    with (w +:+ sep +:+ String.concat sep (w' :: rest)).
  rewrite !length_append, IH, Hsep. simpl joined_length. lia.
Qed.

Lemma split_nonempty (sep : ascii) (s : string) : Js.split sep s <> [].
Proof.
  destruct s as [|c s]; cbn [Js.split]; [discriminate|].
  destruct (Ascii.eqb c sep); [discriminate|].
  destruct (Js.split sep s); discriminate.
Qed.

Lemma split_length (sep : ascii) (s : string) :
  joined_length (Js.split sep s) = String.length s.
Proof.
  induction s as [|c s IH]; [reflexivity|].
  pose proof (split_nonempty sep s) as Hne.
  cbn [Js.split]. destruct (Ascii.eqb c sep).
  - destruct (Js.split sep s) as [|w ws] eqn:Hs; [congruence|]. simpl in *. lia.
  - destruct (Js.split sep s) as [|w [|w' ws]] eqn:Hs; [congruence| |]; simpl in *; lia.
Qed.

Lemma capitalize_length (w : string) :
  String.length (capitalize w) = String.length w.
Proof. destruct w; reflexivity. Qed.

Lemma joined_length_capitalize (words : list string) :
  joined_length (List.map capitalize words) = joined_length words.
Proof.
  induction words as [|w [|w' rest] IH]; [reflexivity| |].
  - simpl. apply capitalize_length.
  - change (joined_length (capitalize w :: List.map capitalize (w' :: rest))
            = joined_length (w :: w' :: rest)).
    cbn [joined_length List.map] in *. rewrite capitalize_length. rewrite IH. reflexivity.
Qed.

(** X18: [formatTitle] keeps the length of an id made of ASCII
    characters: every dash becomes one space and every word keeps its
    characters but for the case of the first.  (Outside ASCII
    [toUpperCase] can lengthen a word.) *)
Theorem formatTitle_length (id : string) :
  ascii_only id = true ->
  String.length (formatTitle id) = String.length id.
Proof.
  intros _. unfold formatTitle. rewrite join_length by reflexivity.
  rewrite joined_length_capitalize. apply split_length.
Qed.

End Titles.

Section Caching.

(** A request that misses the cache ends by caching what it returns. *)
Lemma request_miss_caches env subtopicId topicId subjectId gradeId numCards (c : Store) :
  cache_miss env subtopicId topicId subjectId gradeId numCards c ->
  exists cards c1,
    getAIContentForSubtopic env subtopicId topicId subjectId gradeId numCards c =
    (Returns cards,
     ContentCache.cacheContent topicId subtopicId subjectId gradeId cards numCards
       (now_write env) c1).
Proof.
  intros Hmiss. unfold cache_miss in Hmiss.
  unfold getAIContentForSubtopic, try_catchM, bindM, getCachedContent,
    cacheContent, lift, ret.
  rewrite Hmiss.
  destruct (checkAiServiceStatus_returns (health env)) as [st ->].
  destruct (negb (ApiClient.available st) || negb (ApiClient.modelLoaded st)); [eauto|].
  destruct (checkChromaDBStatus_returns (chroma_probe env) (chroma_stats env)) as [cs ->].
  destruct (ChromaDB.status_available cs && ChromaDB.collectionExists cs).
  - destruct (generateRAGEnhancedContentCards_spec env subtopicId topicId
                subjectId gradeId numCards) as (cards & -> & _). eauto.
  - destruct (generateContentForSubtopic_returns (generate env)
                topicId subtopicId subjectId gradeId numCards) as [ai ->].
    cbn [bind]. eauto.
Qed.

(** X19: what a request that missed the cache returned (generated or
    fallback bundle alike) is what every request for the same bundle
    returns for the next 30 minutes, whatever the gateways report then:
    no request within that time reaches a gateway again. *)
Theorem content_request_is_cached env1 env2
    subtopicId topicId subjectId gradeId numCards (c : Store) :
  cache_miss env1 subtopicId topicId subjectId gradeId numCards c ->
  now_read env2 <= now_write env1 + ContentCache.DEFAULT_TTL ->
  fst (getAIContentForSubtopic env2 subtopicId topicId subjectId gradeId numCards
         (snd (getAIContentForSubtopic env1 subtopicId topicId subjectId gradeId
                 numCards c)))
  = fst (getAIContentForSubtopic env1 subtopicId topicId subjectId gradeId numCards c).
Proof.
  intros Hmiss Hlive.
  destruct (request_miss_caches env1 subtopicId topicId subjectId gradeId numCards c
              Hmiss) as (cards & c1 & ->).
  cbn [fst snd].
  unfold getAIContentForSubtopic, try_catchM, bindM, getCachedContent, ret.
  unfold ContentCache.getCachedContent, ContentCache.cacheContent.
  rewrite CacheFacts.get_after_set by exact Hlive. reflexivity.
Qed.

End Caching.
End MoreOrchestratorFacts.

(** ** Quizzes *)

Module MoreQuizFacts.
Import Async Stateful AIQuiz.

Section Quiz.

(** X20: the fallback quiz is never empty and always well formed: two
    questions, four for the type "exam"; every multiple-choice question
    offers four options with the correct answer among them, and the other
    questions offer none. *)
Theorem getFallbackQuiz_well_formed (topicId subtopicId subjectId quizType : string) :
  getFallbackQuiz topicId subtopicId subjectId quizType <> [] /\
  Forall well_formed (getFallbackQuiz topicId subtopicId subjectId quizType) /\
  length (getFallbackQuiz topicId subtopicId subjectId quizType)
    = (if String.eqb quizType "exam" then 4 else 2)%nat.
Proof.
  unfold getFallbackQuiz.
  destruct (String.eqb quizType "main") eqn:Hmain.
  { apply String.eqb_eq in Hmain. subst quizType. cbn [orb firstn].
    split; [discriminate|]. split; [|reflexivity].
    repeat constructor; eexists; (split; [reflexivity|]); simpl; auto with arith. }
  destruct (String.eqb quizType "mid") eqn:Hmid.
  { apply String.eqb_eq in Hmid. subst quizType. cbn [orb firstn].
    split; [discriminate|]. split; [|reflexivity].
    repeat constructor; eexists; (split; [reflexivity|]); simpl; auto with arith. }
  cbn [orb]. destruct (String.eqb quizType "exam").
  - cbn [app]. split; [discriminate|]. split; [|reflexivity].
    repeat constructor; try reflexivity;
      eexists; (split; [reflexivity|]); simpl; auto with arith.
  - split; [discriminate|]. split; [|reflexivity].
    repeat constructor; eexists; (split; [reflexivity|]); simpl; auto with arith.
Qed.

Lemma generateQuizForTopic_returns r topicId subtopicId subjectId gradeId quizType :
  exists qs,
    generateQuizForTopic r topicId subtopicId subjectId gradeId quizType = Returns qs /\
    ((exists e, r = Throws e) -> length qs = 1%nat).
Proof.
  unfold generateQuizForTopic. destruct r as [resp|e]; simpl.
  - eexists. split; [reflexivity|]. intros [e He]. discriminate.
  - eexists. split; [reflexivity|]. reflexivity.
Qed.

(** A request that misses the cache ends by caching what it returns. *)
Lemma quiz_request_miss_caches env topicId subtopicId subjectId gradeId quizType
    (c : QuizStore) :
  quiz_cache_miss env topicId subtopicId subjectId gradeId quizType c ->
  exists quiz c1,
    getAIQuizForTopic env topicId subtopicId subjectId gradeId quizType c =
    (Returns quiz,
     ContentCache.cacheQuiz topicId subtopicId subjectId gradeId
       (apiQuizType quizType) quiz (now_write env) c1).
Proof.
  intros Hmiss. unfold quiz_cache_miss in Hmiss.
  unfold getAIQuizForTopic, try_catchM, bindM, getCachedQuiz, cacheQuiz, lift, ret.
  rewrite Hmiss.
  destruct (OrchestratorFacts.checkAiServiceStatus_returns (health env)) as [st ->].
  destruct (negb (ApiClient.available st) || negb (ApiClient.modelLoaded st)); [eauto|].
  destruct (generateQuizForTopic_returns (generate env) topicId subtopicId subjectId
              gradeId (apiQuizType quizType)) as (qs & -> & _).
  eauto.
Qed.

(** X21: [getAIQuizForTopic] never throws. When the cache lookup misses and
    the generation gateway reports unavailable or not ready, it returns the
    fallback quiz of the requested type; when the lookup misses and the
    gateway is healthy, it returns exactly what [generateQuizForTopic]
    returned. *)
Theorem getAIQuizForTopic_tiers env topicId subtopicId subjectId gradeId quizType
    (c : QuizStore) :
  returns (fst (getAIQuizForTopic env topicId subtopicId subjectId gradeId quizType c)) /\
  (quiz_cache_miss env topicId subtopicId subjectId gradeId quizType c ->
   quiz_generation_unavailable env ->
   fst (getAIQuizForTopic env topicId subtopicId subjectId gradeId quizType c)
   = Returns (getFallbackQuiz topicId subtopicId subjectId (QuizKind_str quizType))) /\
  (quiz_cache_miss env topicId subtopicId subjectId gradeId quizType c ->
   quiz_generation_healthy env ->
   exists qs,
     generateQuizForTopic (generate env) topicId subtopicId subjectId gradeId
       (apiQuizType quizType) = Returns qs /\
     fst (getAIQuizForTopic env topicId subtopicId subjectId gradeId quizType c)
     = Returns (List.map as_ai qs)).
Proof.
  split; [|split].
  - unfold returns.
    destruct (fst (ContentCache.getCachedQuiz topicId subtopicId subjectId gradeId
                     (apiQuizType quizType) (now_read env) c)) as [cached|] eqn:Hget.
    + unfold getAIQuizForTopic, try_catchM, bindM, getCachedQuiz, ret.
      rewrite Hget. eauto.
    + destruct (quiz_request_miss_caches env topicId subtopicId subjectId gradeId
                  quizType c Hget) as (quiz & c1 & ->). eauto.
  - intros Hmiss (st & Hst & Hdown). unfold quiz_cache_miss in Hmiss.
    unfold getAIQuizForTopic, try_catchM, bindM, getCachedQuiz, cacheQuiz, lift, ret.
    rewrite Hmiss, Hst.
    replace (negb (ApiClient.available st) || negb (ApiClient.modelLoaded st))
      with true; [reflexivity|].
    destruct Hdown as [-> | ->]; [reflexivity|]. symmetry. apply orb_true_r.
  - intros Hmiss (st & Hst & Hav & Hml). unfold quiz_cache_miss in Hmiss.
    destruct (generateQuizForTopic_returns (generate env) topicId subtopicId subjectId
                gradeId (apiQuizType quizType)) as (qs & Hqs & _).
    exists qs. split; [exact Hqs|].
    unfold getAIQuizForTopic, try_catchM, bindM, getCachedQuiz, cacheQuiz, lift, ret.
    rewrite Hmiss, Hst, Hav, Hml. cbn [negb orb]. rewrite Hqs. reflexivity.
Qed.

(** X22: a quiz obtained by a request that missed the cache is what every
    request mapped to the same cache key returns for the next 30 minutes,
    whatever the gateway reports then; "main" and "mid" map to the same
    key, so either is answered with the quiz cached for the other. *)
Theorem quiz_request_is_cached env1 env2 topicId subtopicId subjectId gradeId
    (kind1 kind2 : QuizKind) (c : QuizStore) :
  apiQuizType kind1 = apiQuizType kind2 ->
  quiz_cache_miss env1 topicId subtopicId subjectId gradeId kind1 c ->
  now_read env2 <= now_write env1 + ContentCache.DEFAULT_TTL ->
  fst (getAIQuizForTopic env2 topicId subtopicId subjectId gradeId kind2
         (snd (getAIQuizForTopic env1 topicId subtopicId subjectId gradeId kind1 c)))
  = fst (getAIQuizForTopic env1 topicId subtopicId subjectId gradeId kind1 c).
Proof.
  intros Hkey Hmiss Hlive.
  destruct (quiz_request_miss_caches env1 topicId subtopicId subjectId gradeId kind1 c
              Hmiss) as (quiz & c1 & ->).
  cbn [fst snd].
  unfold getAIQuizForTopic, try_catchM, bindM, getCachedQuiz, ret.
  unfold ContentCache.getCachedQuiz, ContentCache.cacheQuiz. rewrite <- Hkey.
  rewrite CacheFacts.get_after_set by exact Hlive. reflexivity.
Qed.

End Quiz.
End MoreQuizFacts.

(** ** The topics page *)

Module MoreTopicsFacts.
Import TopicsPage.

Section Grouping.
Context {A : Type} (level : A -> option Z).
Implicit Types (topics : list A) (acc : gmap Z (list A)).

Lemma group_loop_lookup topics : forall (k : nat) acc (l : Z),
  group_loop level topics k acc !! l =
  match members level topics k l with
  | [] => acc !! l
  | ms => Some (default [] (acc !! l) ++ ms)%list
  end.
Proof.
  induction topics as [|t topics IH]; intros k acc l; [reflexivity|].
  cbn [group_loop members]. rewrite IH.
  set (lv := level_of level t k).
  set (acc1 := match acc !! lv with Some _ => acc | None => <[lv := []]> acc end).
  assert (Hsame : (alter (fun group => (group ++ [t])%list) lv acc1) !! lv
                  = Some (default [] (acc !! lv) ++ [t])%list).
  { rewrite lookup_alter_eq. subst acc1.
    destruct (acc !! lv) as [g|] eqn:Hg; [rewrite Hg; reflexivity|].
    rewrite lookup_insert_eq. reflexivity. }
  assert (Hother : forall l', l' <> lv ->
            (alter (fun group => (group ++ [t])%list) lv acc1) !! l' = acc !! l').
  { intros l' Hne. rewrite lookup_alter_ne by congruence. subst acc1.
    destruct (acc !! lv); [reflexivity|]. apply lookup_insert_ne. congruence. }
  destruct (decide (lv = l)) as [<-|Hne].
  - rewrite Hsame. destruct (members level topics (S k) lv) as [|m ms]; [reflexivity|].
    simpl. rewrite <- app_assoc. reflexivity.
  - rewrite Hother by congruence. reflexivity.
Qed.

(** X23: each group of [topicsByLevel] lists, in the order of the page's
    topic list, exactly the topics whose level ([level], or the 1-based
    position when it is absent or 0) is the group's key; there is no empty
    group. *)
Theorem topicsByLevel_groups topics (l : Z) :
  topicsByLevel level topics !! l =
  match members level topics 0 l with
  | [] => None
  | ms => Some ms
  end.
Proof.
  unfold topicsByLevel. rewrite group_loop_lookup, lookup_empty.
  destruct (members level topics 0 l); reflexivity.
Qed.

Lemma members_of_topic topics : forall (k j : nat) t,
  topics !! j = Some t ->
  In t (members level topics k (level_of level t (k + j))).
Proof.
  induction topics as [|t0 topics IH]; intros k j t Hj; [discriminate|].
  cbn [members]. destruct j as [|j].
  - injection Hj as ->. rewrite Nat.add_0_r. rewrite decide_True by reflexivity. left.
    reflexivity.
  - simpl in Hj. specialize (IH (S k) j t Hj).
    replace (S k + j)%nat with (k + S j)%nat in IH by lia.
    destruct (decide _); [right|]; exact IH.
Qed.

Lemma members_head topics : forall (k : nat) (l : Z) t ms,
  members level topics k l = t :: ms ->
  exists i, topics !! i = Some t /\ level_of level t (k + i) = l /\
    forall j t', (j < i)%nat -> topics !! j = Some t' ->
                 level_of level t' (k + j) <> l.
Proof.
  induction topics as [|t0 topics IH]; intros k l t ms Hm; [discriminate|].
  cbn [members] in Hm. destruct (decide (level_of level t0 k = l)) as [Hl|Hl].
  - injection Hm as -> _. exists 0%nat. split; [reflexivity|].
    split; [rewrite Nat.add_0_r; exact Hl|]. intros j t' Hj. lia.
  - destruct (IH (S k) l t ms Hm) as (i & Hi & Hli & Hbefore).
    exists (S i). split; [exact Hi|]. split.
    + replace (k + S i)%nat with (S k + i)%nat by lia. exact Hli.
    + intros j t' Hj Hlook. destruct j as [|j].
      * injection Hlook as <-. rewrite Nat.add_0_r. exact Hl.
      * replace (k + S j)%nat with (S k + j)%nat by lia.
        apply Hbefore; [lia|exact Hlook].
Qed.

Lemma elem_of_levels topics (l : Z) :
  l ∈ levels level topics <-> members level topics 0 l <> [].
Proof.
  unfold levels. rewrite merge_sort_Permutation.
  rewrite list_elem_of_In, in_map_iff. split.
  - intros ([l' g] & Hl & Hin). simpl in Hl. subst l'.
    apply list_elem_of_In, elem_of_map_to_list in Hin.
    unfold topicsByLevel in Hin. rewrite group_loop_lookup, lookup_empty in Hin.
    destruct (members level topics 0 l); [discriminate|discriminate].
  - intros Hne. exists (l, members level topics 0 l). split; [reflexivity|].
    apply list_elem_of_In, elem_of_map_to_list.
    unfold topicsByLevel. rewrite group_loop_lookup, lookup_empty.
    destruct (members level topics 0 l); [congruence|reflexivity].
Qed.

Lemma levels_strictly_sorted topics : StronglySorted Z.lt (levels level topics).
Proof.
  assert (Hs : StronglySorted Z.le (levels level topics)).
  { unfold levels. apply StronglySorted_merge_sort; apply _. }
  assert (Hnd : NoDup (levels level topics)).
  { unfold levels. rewrite merge_sort_Permutation. apply NoDup_fst_map_to_list. }
  induction Hs as [|x l Hs IH Hall]; [constructor|].
  apply NoDup_cons in Hnd. destruct Hnd as [Hx Hnd].
  constructor; [apply IH, Hnd|].
  rewrite Forall_forall in Hall |- *. intros y Hy.
  specialize (Hall y Hy). assert (x <> y) by (intros ->; apply Hx, Hy). lia.
Qed.

(** X24: the level list of the page is strictly ascending and holds exactly
    the levels that some displayed topic has. *)
Theorem levels_sorted_and_complete topics :
  StronglySorted Z.lt (levels level topics) /\
  forall l, l ∈ levels level topics <->
            exists i t, topics !! i = Some t /\ level_of level t i = l.
Proof.
  split; [apply levels_strictly_sorted|].
  intros l. rewrite elem_of_levels. split.
  - intros Hne. destruct (members level topics 0 l) as [|t ms] eqn:Hm; [congruence|].
    destruct (members_head topics 0 l t ms Hm) as (i & Hi & Hl & _).
    exists i, t. auto.
  - intros (i & t & Hi & Hl) Hnil.
    pose proof (members_of_topic topics 0 i t Hi) as Hin.
    simpl in Hin. rewrite Hl, Hnil in Hin. destruct Hin.
Qed.

(** The guard of [handleGetStarted] fails exactly when no topic is
    displayed, and its [firstTopic] is the earliest topic with the lowest
    level. *)
Lemma firstTopic_spec topics :
  (firstTopic level topics = None <-> topics = []) /\
  forall t, firstTopic level topics = Some t ->
    exists i, lowest_first level topics i t.
Proof.
  pose proof (levels_strictly_sorted topics) as Hsorted.
  pose proof (elem_of_levels topics) as Hlevels.
  unfold firstTopic, lowest_first.
  destruct (levels level topics) as [|l0 ls] eqn:Hls.
  - assert (Hnil : topics = []).
    { destruct topics as [|t topics]; [reflexivity|]. exfalso.
      pose proof (members_of_topic (t :: topics) 0 0 t eq_refl) as Hin.
      assert (Hmem : level_of level t (0 + 0) ∈ @nil Z).
      { apply Hlevels. intros Hnil. rewrite Hnil in Hin. destruct Hin. }
      apply not_elem_of_nil in Hmem. exact Hmem. }
    split; [tauto|]. discriminate.
  - assert (Hl0 : members level topics 0 l0 <> []) by (apply Hlevels; left).
    unfold topicsByLevel. rewrite group_loop_lookup, lookup_empty.
    destruct (members level topics 0 l0) as [|t ms] eqn:Hm; [congruence|].
    split.
    { split; [discriminate|]. intros ->. discriminate Hm. }
    intros t' [= <-].
    destruct (members_head topics 0 l0 t ms Hm) as (i & Hi & Hli & Hbefore).
    simpl in Hli. exists i. split; [exact Hi|]. rewrite Hli. split.
    + intros j t' Hj.
      assert (Hin : level_of level t' j ∈ l0 :: ls).
      { apply Hlevels. intros Hnil.
        pose proof (members_of_topic topics 0 j t' Hj) as Hin.
        simpl in Hin. rewrite Hnil in Hin. destruct Hin. }
      apply elem_of_cons in Hin. destruct Hin as [->|Hin]; [lia|].
      apply StronglySorted_inv in Hsorted. destruct Hsorted as [_ Hall].
      rewrite Forall_forall in Hall. specialize (Hall _ Hin). lia.
    + intros j t' Hj Hlook. exact (Hbefore j t' Hj Hlook).
Qed.

End Grouping.

Section Handler.
Implicit Types (st : State).

Lemma static_mode st :
  useAI st = false \/ aiTopics st = [] ->
  useAI st && (0 <? Z.of_nat (length (aiTopics st))) = false.
Proof.
  intros [->| ->]; [reflexivity|]. apply andb_false_r.
Qed.

Lemma ai_mode st :
  useAI st = true -> aiTopics st <> [] ->
  useAI st && (0 <? Z.of_nat (length (aiTopics st))) = true.
Proof.
  intros -> Hne. destruct (aiTopics st); [congruence|reflexivity].
Qed.

(** X25: which lesson "Get started" opens.  While generated topics are
    shown, it opens the introduction of the earliest generated topic with
    the lowest level.  While the static catalogue is shown, it takes the
    earliest topic of the subject with the lowest level and opens that
    topic's first subtopic; it does not navigate when that topic has no
    subtopic, nor when the subject has no topic. *)
Theorem handleGetStarted_route st :
  (useAI st = true -> aiTopics st <> [] ->
   exists i topic,
     aiTopics st !! i = Some topic /\
     lowest_first displayed_level (displayTopics st) i (Generated topic) /\
     handleGetStarted st
     = Some (content_route st (AI.topic_id topic) "introduction")) /\
  (useAI st = false \/ aiTopics st = [] ->
   (displayTopics st = [] -> handleGetStarted st = None) /\
   (displayTopics st <> [] ->
    exists i topic,
      lowest_first displayed_level (displayTopics st) i (Listed topic) /\
      In topic (topics st) /\ Static.subjectId topic = subjectId st /\
      handleGetStarted st
      = match Static.subtopics topic with
        | Some (subtopic :: _) =>
            Some (content_route st (Static.id topic) (Static.subtopic_id subtopic))
        | _ => None
        end)).
Proof.
  destruct (firstTopic_spec displayed_level (displayTopics st)) as [Hnone Hsome].
  split.
  - intros Hai Hne. pose proof (ai_mode st Hai Hne) as Hmode.
    assert (Hshown : displayTopics st = List.map Generated (aiTopics st)).
    { unfold displayTopics. rewrite Hmode. reflexivity. }
    destruct (firstTopic displayed_level (displayTopics st)) as [t0|] eqn:Hfirst.
    + destruct (Hsome t0 eq_refl) as [i Hlow].
      pose proof (proj1 Hlow) as Hi. rewrite Hshown in Hi.
      change (List.map Generated (aiTopics st)) with (Generated <$> aiTopics st) in Hi.
      rewrite list_lookup_fmap in Hi.
      destruct (aiTopics st !! i) as [topic|] eqn:Htopic; [|discriminate].
      injection Hi as <-.
      exists i, topic. split; [exact Htopic|]. split; [exact Hlow|].
      unfold handleGetStarted. rewrite Hfirst, Hmode. reflexivity.
    + exfalso. apply proj1 in Hnone. specialize (Hnone eq_refl).
      rewrite Hshown in Hnone. destruct (aiTopics st); [congruence|discriminate].
  - intros Hstatic. pose proof (static_mode st Hstatic) as Hmode.
    assert (Hshown : displayTopics st
                     = List.map Listed
                         (List.filter (fun topic => String.eqb (Static.subjectId topic)
                                                      (subjectId st)) (topics st))).
    { unfold displayTopics. rewrite Hmode. reflexivity. }
    split.
    + intros Hnil. unfold handleGetStarted.
      rewrite (proj2 Hnone Hnil). reflexivity.
    + intros Hne.
      destruct (firstTopic displayed_level (displayTopics st)) as [t0|] eqn:Hfirst;
        [|exfalso; apply Hne, Hnone; reflexivity].
      destruct (Hsome t0 eq_refl) as [i Hlow].
      pose proof (proj1 Hlow) as Hi. rewrite Hshown in Hi.
      set (shown := List.filter _ (topics st)) in Hi.
      change (List.map Listed shown) with (Listed <$> shown) in Hi.
      rewrite list_lookup_fmap in Hi.
      destruct (shown !! i) as [topic|] eqn:Htopic; [|discriminate].
      injection Hi as <-.
      assert (Hin : In topic shown).
      { apply list_elem_of_In. eapply list_elem_of_lookup_2. exact Htopic. }
      apply filter_In in Hin. destruct Hin as [Hin Hsubject].
      exists i, topic. split; [exact Hlow|]. split; [exact Hin|].
      split; [apply String.eqb_eq, Hsubject|].
      unfold handleGetStarted. rewrite Hfirst, Hmode.
      destruct (Static.subtopics topic) as [[|subtopic rest]|]; reflexivity.
Qed.

End Handler.
End MoreTopicsFacts.

(** ** Preloading *)

Module MorePreloadFacts.
Import Async Preload.

Section FindIndex.
Context {A : Type} (p : A -> bool).

Lemma findIndex_none (arr : list A) (k : Z) :
  Forall (fun x => p x = false) arr -> findIndex p arr k = -1.
Proof.
  intros Hall. revert k. induction Hall as [|x arr Hx _ IH]; intros k; simpl;
    [reflexivity|]. rewrite Hx. apply IH.
Qed.

Lemma findIndex_found (before : list A) (x : A) (after : list A) (k : Z) :
  Forall (fun y => p y = false) before -> p x = true ->
  findIndex p (before ++ x :: after)%list k = k + Z.of_nat (length before).
Proof.
  intros Hall Hx. revert k. induction Hall as [|y before Hy _ IH]; intros k.
  - simpl. rewrite Hx. lia.
  - cbn [app findIndex length]. rewrite Hy, IH. lia.
Qed.

(** Either nothing satisfies [p], or the list splits at the first element
    that does. *)
Lemma findIndex_split (arr : list A) :
  Forall (fun x => p x = false) arr \/
  exists before x after,
    arr = (before ++ x :: after)%list /\
    Forall (fun y => p y = false) before /\ p x = true.
Proof.
  induction arr as [|x arr IH]; [left; constructor|].
  destruct (p x) eqn:Hx.
  - right. exists [], x, arr. split; [reflexivity|]. split; [constructor|exact Hx].
  - destruct IH as [Hall|(before & y & after & -> & Hall & Hy)].
    + left. constructor; assumption.
    + right. exists (x :: before), y, after. split; [reflexivity|].
      split; [constructor; assumption|exact Hy].
Qed.

Lemma at_index_middle (before : list A) (x : A) (after : list A) :
  at_index (before ++ x :: after)%list (Z.of_nat (length before)) = Some x.
Proof.
  unfold at_index. rewrite (proj2 (Z.ltb_ge _ _)) by lia.
  rewrite Nat2Z.id. apply list_lookup_middle. reflexivity.
Qed.

Lemma at_index_after (before : list A) (x y : A) (after : list A) :
  at_index (before ++ x :: y :: after)%list (Z.of_nat (length before) + 1) = Some y.
Proof.
  unfold at_index. rewrite (proj2 (Z.ltb_ge _ _)) by lia.
  replace (Z.to_nat (Z.of_nat (length before) + 1)) with (length (before ++ [x]))
    by (rewrite length_app; simpl; lia).
  replace (before ++ x :: y :: after)%list with ((before ++ [x]) ++ y :: after)%list
    by (rewrite <- app_assoc; reflexivity).
  apply list_lookup_middle. reflexivity.
Qed.

End FindIndex.

Section Targets.
Variables (currentTopicId currentSubtopicId subject grade : string).
Implicit Types (allTopics : list TopicRef) (t : Target).

Lemma findIndex_lower {A : Type} (p : A -> bool) (arr : list A) : forall k,
  0 <= k -> -1 <= findIndex p arr k.
Proof.
  induction arr as [|x arr IH]; intros k Hk; simpl; [lia|].
  destruct (p x); [lia|]. apply IH. lia.
Qed.

Lemma at_index_In {A : Type} (arr : list A) (i : Z) (x : A) :
  at_index arr i = Some x -> In x arr.
Proof.
  unfold at_index. destruct (i <? 0); [discriminate|].
  intros H. apply list_elem_of_In. eapply list_elem_of_lookup_2. exact H.
Qed.

(** The guarded read of [arr[i + 1]] as one lookup. *)
Lemma guarded_read {A B : Type} (arr : list A) (i : Z) (f : A -> B) (acc : list B) :
  -1 <= i ->
  (if i <? Z.of_nat (length arr) - 1
   then await st <- read (at_index arr (i + 1)) ;; Returns (acc ++ [f st])%list
   else Returns acc)
  = Returns (acc ++ match at_index arr (i + 1) with
                    | Some st => [f st]
                    | None => []
                    end)%list.
Proof.
  intros Hi. unfold at_index. rewrite (proj2 (Z.ltb_ge (i + 1) 0)) by lia.
  destruct (i <? Z.of_nat (length arr) - 1) eqn:Hlt.
  - apply Z.ltb_lt in Hlt.
    destruct (lookup_lt_is_Some_2 arr (Z.to_nat (i + 1))) as [x Hx]; [lia|].
    rewrite Hx. reflexivity.
  - apply Z.ltb_ge in Hlt. rewrite lookup_ge_None_2 by lia.
    rewrite app_nil_r. reflexivity.
Qed.

Lemma topicsToPreload_found (before : list TopicRef) (topic : TopicRef)
    (after : list TopicRef) :
  Forall (fun y => String.eqb (id y) currentTopicId = false) before ->
  String.eqb (id topic) currentTopicId = true ->
  topicsToPreload currentTopicId currentSubtopicId subject grade
    (before ++ topic :: after)%list
  = Returns (Some
      (match at_index (subtopics topic)
               (findIndex (fun st => String.eqb (st_id st) currentSubtopicId)
                  (subtopics topic) 0 + 1) with
       | Some st => [ {| topicId := currentTopicId; subtopicId := st_id st;
                         subjectId := subject; gradeId := grade |} ]
       | None => []
       end ++
       match after with
       | nextTopic :: _ =>
           match subtopics nextTopic with
           | st :: _ => [ {| topicId := id nextTopic; subtopicId := st_id st;
                             subjectId := subject; gradeId := grade |} ]
           | [] => []
           end
       | [] => []
       end)%list).
Proof.
  intros Hb Ht. unfold topicsToPreload.
  rewrite (findIndex_found _ before topic after 0 Hb Ht). rewrite Z.add_0_l.
  rewrite (proj2 (Z.eqb_neq _ _)) by lia.
  rewrite at_index_middle. cbn [read bind].
  rewrite (guarded_read (subtopics topic) _
             (fun st => {| topicId := currentTopicId; subtopicId := st_id st;
                           subjectId := subject; gradeId := grade |}) [])
    by (apply findIndex_lower; lia).
  cbn [bind app].
  destruct after as [|nextTopic after].
  - rewrite (proj2 (Z.ltb_ge _ _)) by (rewrite length_app; simpl; lia).
    cbn [bind]. rewrite app_nil_r. reflexivity.
  - rewrite (proj2 (Z.ltb_lt _ _)) by (rewrite length_app; simpl; lia).
    rewrite at_index_after. cbn [read bind].
    destruct (subtopics nextTopic) as [|st sts].
    + simpl. rewrite app_nil_r. reflexivity.
    + reflexivity.
Qed.

(** X26: the choice of what to preload never fails (every array read is in
    range). Nothing is preloaded when no topic has the current id;
    otherwise at most two bundles are chosen, each for the requested
    subject and grade and each naming a subtopic of a topic of the list. *)
Theorem topicsToPreload_listed allTopics :
  exists r,
    topicsToPreload currentTopicId currentSubtopicId subject grade allTopics
      = Returns r /\
    (r = None <-> forall topic, In topic allTopics -> id topic <> currentTopicId) /\
    forall ts, r = Some ts ->
      (length ts <= 2)%nat /\
      forall t, In t ts ->
        subjectId t = subject /\ gradeId t = grade /\
        listed allTopics t.
Proof.
  destruct (findIndex_split (fun y => String.eqb (id y) currentTopicId) allTopics)
    as [Hnone|(before & topic & after & -> & Hb & Ht)].
  - exists None. split.
    { unfold topicsToPreload. rewrite findIndex_none by exact Hnone. reflexivity. }
    split; [|discriminate]. split; [|reflexivity]. intros _ topic Hin.
    rewrite Forall_forall in Hnone. apply String.eqb_neq, Hnone, list_elem_of_In, Hin.
  - rewrite (topicsToPreload_found before topic after Hb Ht).
    eexists. split; [reflexivity|]. split.
    { split; [discriminate|]. intros Hall. exfalso.
      apply (Hall topic); [apply in_elt|apply String.eqb_eq, Ht]. }
    intros ts [= <-].
    set (i := findIndex _ (subtopics topic) 0 + 1).
    destruct (at_index (subtopics topic) i) as [st|] eqn:Hst.
    + apply at_index_In in Hst.
      assert (Hfirst : listed (before ++ topic :: after)
                {| topicId := currentTopicId; subtopicId := st_id st;
                   subjectId := subject; gradeId := grade |}).
      { exists topic, st. split; [apply in_elt|]. split; [exact Hst|].
        split; [apply String.eqb_eq, Ht|reflexivity]. }
      destruct after as [|nextTopic after]; [|destruct (subtopics nextTopic)
        as [|st' sts] eqn:Hnext]; cbn [app length]; (split; [lia|]).
      * intros t [<-|[]]. auto.
      * intros t [<-|[]]. auto.
      * intros t [<-|[<-|[]]]; [auto|]. split; [reflexivity|]. split; [reflexivity|].
        exists nextTopic, st'. split; [apply in_or_app; right; right; left; reflexivity|].
        split; [rewrite Hnext; left; reflexivity|]. split; reflexivity.
    + destruct after as [|nextTopic after]; [|destruct (subtopics nextTopic)
        as [|st' sts] eqn:Hnext]; cbn [app length]; (split; [lia|]).
      * intros t [].
      * intros t [].
      * intros t [<-|[]]. split; [reflexivity|]. split; [reflexivity|].
        exists nextTopic, st'. split; [apply in_or_app; right; right; left; reflexivity|].
        split; [rewrite Hnext; left; reflexivity|]. split; reflexivity.
Qed.

(** X27: which subtopic of the current topic is preloaded. It is the one
    after the first subtopic with the current id; the topic's first
    subtopic when no subtopic has the current id; and none when the current
    subtopic is the topic's last. *)
Theorem next_subtopic_is_preloaded (before : list TopicRef) (topic : TopicRef)
    (after : list TopicRef) :
  Forall (fun y => id y <> currentTopicId) before ->
  id topic = currentTopicId ->
  (forall sb s next sa,
     subtopics topic = (sb ++ s :: next :: sa)%list ->
     Forall (fun y => st_id y <> currentSubtopicId) sb ->
     st_id s = currentSubtopicId ->
     exists ts,
       topicsToPreload currentTopicId currentSubtopicId subject grade
         (before ++ topic :: after)%list
       = Returns (Some ({| topicId := currentTopicId; subtopicId := st_id next;
                           subjectId := subject; gradeId := grade |} :: ts))) /\
  (forall s0 rest,
     subtopics topic = s0 :: rest ->
     Forall (fun y => st_id y <> currentSubtopicId) (subtopics topic) ->
     exists ts,
       topicsToPreload currentTopicId currentSubtopicId subject grade
         (before ++ topic :: after)%list
       = Returns (Some ({| topicId := currentTopicId; subtopicId := st_id s0;
                           subjectId := subject; gradeId := grade |} :: ts))) /\
  (forall sb s,
     subtopics topic = (sb ++ [s])%list ->
     Forall (fun y => st_id y <> currentSubtopicId) sb ->
     st_id s = currentSubtopicId ->
     after = [] ->
     topicsToPreload currentTopicId currentSubtopicId subject grade
       (before ++ topic :: after)%list
     = Returns (Some [])).
Proof.
  intros Hb Ht.
  assert (Hb' : Forall (fun y => String.eqb (id y) currentTopicId = false) before).
  { eapply Forall_impl; [exact Hb|]. intros y Hy. apply String.eqb_neq, Hy. }
  apply String.eqb_eq in Ht.
  rewrite (topicsToPreload_found before topic after Hb' Ht).
  assert (Hneq : forall l, Forall (fun y => st_id y <> currentSubtopicId) l ->
            Forall (fun y => String.eqb (st_id y) currentSubtopicId = false) l).
  { intros l Hl. eapply Forall_impl; [exact Hl|]. intros y Hy.
    apply String.eqb_neq, Hy. }
  split; [|split].
  - intros sb s next sa -> Hsb Hs. apply String.eqb_eq in Hs.
    rewrite (findIndex_found _ sb s (next :: sa) 0 (Hneq _ Hsb) Hs).
    rewrite Z.add_0_l, at_index_after. eexists. reflexivity.
  - intros s0 rest Hsts Hall.
    rewrite (findIndex_none _ _ 0 (Hneq _ Hall)). rewrite Hsts.
    eexists. reflexivity.
  - intros sb s -> Hsb Hs ->. apply String.eqb_eq in Hs.
    rewrite (findIndex_found _ sb s [] 0 (Hneq _ Hsb) Hs).
    rewrite Z.add_0_l. unfold at_index.
    rewrite (proj2 (Z.ltb_ge _ _)) by lia.
    rewrite lookup_ge_None_2 by (rewrite length_app; simpl; lia). reflexivity.
Qed.

End Targets.
End MorePreloadFacts.

(** ** The further statements at concrete inputs *)

Module MoreExamples.
Import Async Samples MoreSamples.

Section CacheExamples.
Import ContentCache CacheFacts CacheMore MoreCacheFacts.

Lemma wf_unmirrored_fill (n : nat) : wf (unmirrored (fill n)).
Proof.
  change (wf (fill n)).
  induction n as [|n IH]; [apply wf_empty|apply wf_set_op, IH].
Qed.

Lemma cleanup_keeps_live_witness :
  JsMap.wf (cache one_entry) /\
  JsMap.get (generateKey energy_key) (cache (cleanup 1001 one_entry)) = None /\
  JsMap.get (generateKey energy_key) (cache (cleanup 1000 one_entry))
    = Some (fresh "cards" 1000 0).
Proof.
  assert (Hwf : JsMap.wf (cache one_entry)).
  { apply (wf_set_op energy_key "cards" 1000 0 empty_cache), wf_empty. }
  split; [exact Hwf|]. split.
  - rewrite (proj1 (cleanup_keeps_live 1001 one_entry Hwf)). reflexivity.
  - rewrite (proj1 (cleanup_keeps_live 1000 one_entry Hwf)). reflexivity.
Defined.

Lemma set_survives_reload_witness :
  localStorage empty_cache = Some ∅ /\ 1000 <= 0 + 1000 /\
  fst (get energy_key 1000 (reload (set energy_key "cards" 1000 0 empty_cache)))
    = Some "cards".
Proof.
  split; [reflexivity|]. split; [lia|].
  apply (set_survives_reload energy_key "cards" 1000 0 1000 empty_cache ∅);
    [reflexivity|lia].
Defined.

Lemma get_nowhere_witness :
  JsMap.get (generateKey energy_key) (cache reloaded) = None /\
  expiresAt mirrored_entry < 9001 /\
  fst (get energy_key 9001 reloaded) = None /\
  stats_misses (snd (get energy_key 9001 reloaded)) = 1.
Proof.
  split; [reflexivity|]. split; [simpl; lia|].
  destruct (get_nowhere energy_key 9001 reloaded) as (Hnone & _ & Hmiss & _).
  - reflexivity.
  - intros st e [= <-] He. rewrite lookup_singleton_eq in He.
    injection He as <-. simpl. lia.
  - split; [exact Hnone|exact Hmiss].
Defined.

Lemma mirror_load_grows_store_witness :
  JsMap.size (cache full_with_mirror) = MAX_ENTRIES /\
  JsMap.size (cache (snd (get energy_key 10 full_with_mirror))) = MAX_ENTRIES + 1.
Proof.
  assert (Hfull : JsMap.size (cache full_with_mirror) = MAX_ENTRIES)
    by (vm_compute; reflexivity).
  split; [exact Hfull|]. rewrite <- Hfull.
  apply (mirror_load_grows_store energy_key 10 full_with_mirror
           {[ storageKey (generateKey energy_key) := mirrored_entry ]}
           mirrored_entry).
  - vm_compute. reflexivity.
  - reflexivity.
  - apply lookup_singleton_eq.
  - simpl. lia.
Defined.

Lemma capacity_bound_without_mirror_witness :
  JsMap.size (cache (unmirrored full)) <= MAX_ENTRIES /\
  JsMap.size (cache (snd (run history_over_capacity (unmirrored full))))
    <= MAX_ENTRIES.
Proof.
  assert (Hle : JsMap.size (cache (unmirrored full)) <= MAX_ENTRIES)
    by (vm_compute; discriminate).
  split; [exact Hle|].
  apply (capacity_bound_without_mirror history_over_capacity (unmirrored full));
    [reflexivity|apply wf_unmirrored_fill|exact Hle].
Defined.

Lemma invalidateTopic_subtopic_witness :
  topicId energy_key = "energy" /\ subtopicId energy_key = "introduction" /\
  JsMap.get (generateKey energy_key)
    (cache (invalidateTopic "energy" (Some "introduction") two_topics)) = None.
Proof.
  split; [reflexivity|]. split; [reflexivity|].
  destruct (invalidateTopic_subtopic "energy" "introduction" two_topics)
    as (_ & Hgone & _).
  apply Hgone; reflexivity.
Defined.

Lemma invalidateTopic_misses_mirror_witness :
  JsMap.get (generateKey energy_key) (cache reloaded) = None /\
  10 <= expiresAt mirrored_entry /\
  fst (get energy_key 10 (invalidateTopic "energy" None reloaded)) = Some "cards".
Proof.
  split; [reflexivity|]. split; [simpl; lia|].
  apply (invalidateTopic_misses_mirror energy_key "energy" None 10 reloaded
           {[ storageKey (generateKey energy_key) := mirrored_entry ]}
           mirrored_entry).
  - reflexivity.
  - reflexivity.
  - apply lookup_singleton_eq.
  - simpl. lia.
Defined.

Lemma content_and_quiz_keys_differ_witness :
  type energy_key = content /\ type quiz_key = quiz /\
  generateKey energy_key <> generateKey quiz_key.
Proof.
  split; [reflexivity|]. split; [reflexivity|].
  apply (content_and_quiz_keys_differ energy_key quiz_key); reflexivity.
Defined.

Lemma getCachedContentOrFetch_caches_witness :
  fst (get energy_key 0 empty_cache) = None /\
  fst (getCachedContentOrFetch Js.truthy_string energy_key (Returns "cards")
         None 0 1 empty_cache) = Returns "cards" /\
  exists e,
    JsMap.get (generateKey energy_key)
      (cache (snd (getCachedContentOrFetch Js.truthy_string energy_key
                     (Returns "cards") None 0 1 empty_cache))) = Some e /\
    data e = "cards".
Proof.
  pose proof (getCachedContentOrFetch_caches Js.truthy_string energy_key
                (Returns "cards") None 0 1 empty_cache) as H.
  cbv zeta in H. destruct H as (Hstore & _ & Hfetch).
  pose proof (Hfetch "cards" eq_refl eq_refl) as Hr.
  split; [reflexivity|]. split; [exact Hr|]. exact (Hstore "cards" Hr).
Defined.

End CacheExamples.

Section LessonExamples.
Import Lesson LessonMore MoreLessonFacts.

Lemma later_answer_is_scored_witness :
  contentState main_quiz_last = MainQuiz /\
  mainQuiz loaded !! 3%nat = Some (q "Fish can fly." "False") /\
  quizResults (handleNextCard loaded
                 (handleAnswerSelect 3 "False"
                    (handleAnswerSelect 3 "True" main_quiz_last))) !! 3%nat
    = Some true.
Proof.
  split; [reflexivity|]. split; [reflexivity|].
  destruct (later_answer_is_scored loaded main_quiz_last 3 "True" "False"
              (q "Fish can fly." "False")) as (_ & Hscored).
  - reflexivity.
  - reflexivity.
  - vm_compute. discriminate.
  - rewrite Hscored. reflexivity.
Defined.

Lemma reaches_completion_witness :
  advances_to_completion loaded = 15%nat /\
  contentState (advance loaded 15 initial) = Completion /\
  contentState (advance loaded 14 initial) <> Completion.
Proof.
  assert (Hn : advances_to_completion loaded = 15%nat) by reflexivity.
  split; [exact Hn|]. split.
  - apply (proj2 (reaches_completion loaded 15)). rewrite Hn. lia.
  - intros H. apply (proj1 (reaches_completion loaded 14)) in H.
    rewrite Hn in H. lia.
Defined.

End LessonExamples.

Section GatewayExamples.
Import ChromaDB MoreGatewayFacts.

Lemma retrieveContext_relevant_witness :
  exists ctx,
    retrieveContext search_ok "energy" "science" "grade-4" None 5 = Returns ctx /\
    In (doc "d1" (2 # 10)) (documents ctx) /\
    exists d, distance (doc "d1" (2 # 10)) = Some d /\ (d < 8 # 10)%Q.
Proof.
  destruct (retrieveContext_relevant search_ok "energy" "science" "grade-4" None 5)
    as (ctx & Hrun & Hdocs & _).
  exists ctx. split; [exact Hrun|].
  assert (Hin : In (doc "d1" (2 # 10)) (documents ctx)).
  { vm_compute in Hrun. injection Hrun as <-. left. reflexivity. }
  split; [exact Hin|].
  destruct (Hdocs _ Hin) as (d & Hd & _ & Hlt). exists d. split; assumption.
Defined.

Lemma validateContent_scores_witness :
  exists v,
    validateContent search_ok "Energy makes things happen." "science" "grade-4"
      "energy" = Returns v /\
    (3 # 10 < curriculumAlignment v)%Q /\ isValid v = true.
Proof.
  destruct (validateContent_scores search_ok "Energy makes things happen."
              "science" "grade-4" "energy") as (v & Hrun & _ & _ & _ & Hvalid).
  exists v. split; [exact Hrun|].
  assert (Hal : (3 # 10 < curriculumAlignment v)%Q).
  { vm_compute in Hrun. injection Hrun as <-. vm_compute. reflexivity. }
  split; [exact Hal|]. apply Hvalid, Hal.
Defined.

Lemma enhancedPrompt_extends_witness :
  exists r,
    generateRAGEnhancedContent search_down search_down "Explain energy."
      "science" "grade-4" "energy" "introduction" = Returns r /\
    relevantContent (context r) = EmptyString /\
    enhancedPrompt r = "Explain energy.".
Proof.
  destruct (enhancedPrompt_extends search_down search_down "Explain energy."
              "science" "grade-4" "energy" "introduction")
    as (r & Hrun & _ & Hsame & _).
  exists r. split; [exact Hrun|].
  assert (Hempty : relevantContent (context r) = EmptyString).
  { vm_compute in Hrun. injection Hrun as <-. reflexivity. }
  split; [exact Hempty|]. exact (Hsame Hempty).
Defined.

Lemma chroma_status_consistent_witness :
  exists st,
    checkChromaDBStatus status_ready status_ready = Returns st /\
    status_available st = true.
Proof.
  destruct (chroma_status_consistent status_ready status_ready)
    as (st & Hrun & Hav & _).
  exists st. split; [exact Hrun|].
  apply Hav. eexists. split; reflexivity.
Defined.

End GatewayExamples.

Section OrchestratorExamples.
Import AIContent OrchestratorMore MoreOrchestratorFacts.

Lemma formatTitle_length_witness :
  ascii_only "living-things" = true /\
  formatTitle "living-things" = "Living Things" /\
  String.length (formatTitle "living-things") = 13%nat.
Proof.
  split; [reflexivity|]. split; [reflexivity|].
  apply (formatTitle_length "living-things"). reflexivity.
Defined.

Lemma content_request_is_cached_witness :
  cache_miss (env_down 0) "introduction" "energy" "science" "grade-4" 5 no_cards /\
  now_read (env_up 5) <= now_write (env_down 0) + ContentCache.DEFAULT_TTL /\
  fst (request (env_up 5) (snd (request (env_down 0) no_cards)))
    = fst (request (env_down 0) no_cards).
Proof.
  assert (Hmiss : cache_miss (env_down 0) "introduction" "energy" "science"
                    "grade-4" 5 no_cards) by reflexivity.
  assert (Hle : now_read (env_up 5)
                <= now_write (env_down 0) + ContentCache.DEFAULT_TTL)
    by (vm_compute; discriminate).
  split; [exact Hmiss|]. split; [exact Hle|].
  exact (content_request_is_cached (env_down 0) (env_up 5) "introduction"
           "energy" "science" "grade-4" 5 no_cards Hmiss Hle).
Defined.

End OrchestratorExamples.

Section QuizExamples.
Import AIQuiz MoreQuizFacts.

Lemma quiz_env_down_unavailable t : quiz_generation_unavailable (quiz_env_down t).
Proof. eexists. split; [reflexivity|]. left. reflexivity. Qed.

Lemma getAIQuizForTopic_tiers_witness :
  quiz_cache_miss (quiz_env_down 0) "energy" "introduction" "science" "grade-4"
    kind_exam no_quizzes /\
  quiz_generation_unavailable (quiz_env_down 0) /\
  fst (quiz_request (quiz_env_down 0) kind_exam no_quizzes)
    = Returns (getFallbackQuiz "energy" "introduction" "science" "exam").
Proof.
  assert (Hmiss : quiz_cache_miss (quiz_env_down 0) "energy" "introduction"
                    "science" "grade-4" kind_exam no_quizzes) by reflexivity.
  split; [exact Hmiss|]. split; [apply quiz_env_down_unavailable|].
  destruct (getAIQuizForTopic_tiers (quiz_env_down 0) "energy" "introduction"
              "science" "grade-4" kind_exam no_quizzes) as (_ & Hdown & _).
  exact (Hdown Hmiss (quiz_env_down_unavailable 0)).
Defined.

Lemma quiz_request_is_cached_witness :
  apiQuizType kind_main = apiQuizType kind_mid /\
  quiz_cache_miss (quiz_env_up 0) "energy" "introduction" "science" "grade-4"
    kind_main no_quizzes /\
  now_read (quiz_env_down 5) <= now_write (quiz_env_up 0) + ContentCache.DEFAULT_TTL /\
  fst (quiz_request (quiz_env_down 5) kind_mid
         (snd (quiz_request (quiz_env_up 0) kind_main no_quizzes)))
    = fst (quiz_request (quiz_env_up 0) kind_main no_quizzes).
Proof.
  assert (Hmiss : quiz_cache_miss (quiz_env_up 0) "energy" "introduction"
                    "science" "grade-4" kind_main no_quizzes) by reflexivity.
  assert (Hle : now_read (quiz_env_down 5)
                <= now_write (quiz_env_up 0) + ContentCache.DEFAULT_TTL)
    by (vm_compute; discriminate).
  split; [reflexivity|]. split; [exact Hmiss|]. split; [exact Hle|].
  exact (quiz_request_is_cached (quiz_env_up 0) (quiz_env_down 5) "energy"
           "introduction" "science" "grade-4" kind_main kind_mid no_quizzes
           eq_refl Hmiss Hle).
Defined.

End QuizExamples.

Section TopicsExamples.
Import TopicsPage MoreTopicsFacts.

Lemma levels_sorted_and_complete_witness :
  four_topics !! 2%nat = Some {| topic_id := "forces"; level := Some 0 |} /\
  level_of level {| topic_id := "forces"; level := Some 0 |} 2 = 3 /\
  3 ∈ levels level four_topics.
Proof.
  split; [reflexivity|]. split; [reflexivity|].
  apply (proj2 (levels_sorted_and_complete level four_topics)).
  exists 2%nat, {| topic_id := "forces"; level := Some 0 |}.
  split; reflexivity.
Defined.

Lemma handleGetStarted_route_witness :
  useAI page_generated = true /\ aiTopics page_generated <> [] /\
  (exists i topic,
     aiTopics page_generated !! i = Some topic /\
     handleGetStarted page_generated
     = Some (content_route page_generated (AI.topic_id topic) "introduction")) /\
  (useAI page_static = false \/ aiTopics page_static = []) /\
  displayTopics page_static <> [] /\
  (exists topic,
     In topic (topics page_static) /\
     handleGetStarted page_static
     = match Static.subtopics topic with
       | Some (subtopic :: _) =>
           Some (content_route page_static (Static.id topic)
                   (Static.subtopic_id subtopic))
       | _ => None
       end).
Proof.
  destruct (handleGetStarted_route page_generated) as [Hai _].
  destruct (handleGetStarted_route page_static) as [_ Hstatic].
  assert (Hne : aiTopics page_generated <> []) by discriminate.
  assert (Hshown : displayTopics page_static <> []) by discriminate.
  split; [reflexivity|]. split; [exact Hne|]. split.
  - destruct (Hai eq_refl Hne) as (i & topic & Hi & _ & Hroute).
    exists i, topic. split; [exact Hi|exact Hroute].
  - split; [left; reflexivity|]. split; [exact Hshown|].
    destruct (proj2 (Hstatic (or_introl eq_refl)) Hshown)
      as (i & topic & _ & Hin & _ & Hroute).
    exists topic. split; [exact Hin|exact Hroute].
Defined.

(** With generated topics the introduction of the lowest-level topic is
    opened; with the static catalogue nothing is opened when the
    lowest-level topic of the subject has no subtopic. *)
Lemma handleGetStarted_samples :
  handleGetStarted page_generated
    = Some "/content/grade-4/science/energy/introduction" /\
  handleGetStarted page_static = None.
Proof. vm_compute. split; reflexivity. Qed.

(** The groups of the sample page: the topic without a level and the topic
    with level 0 are filed under their positions. *)
Lemma four_topics_grouped :
  levels level four_topics = [1; 2; 3] /\
  topicsByLevel level four_topics !! 3
    = Some [ {| topic_id := "materials"; level := Some 3 |};
             {| topic_id := "forces"; level := Some 0 |} ] /\
  topicsByLevel level four_topics !! 2
    = Some [ {| topic_id := "human-body"; level := None |} ].
Proof. vm_compute. repeat split. Qed.

End TopicsExamples.

Section PreloadExamples.
Import Preload MorePreloadFacts.

Lemma topicsToPreload_listed_witness :
  exists ts,
    topicsToPreload "living-things" "plants" "science" "grade-4" science_topics
      = Returns (Some ts) /\
    length ts = 2%nat /\
    forall t, In t ts -> listed science_topics t.
Proof.
  destruct (topicsToPreload_listed "living-things" "plants" "science" "grade-4"
              science_topics) as (r & Hrun & _ & Hts).
  vm_compute in Hrun. injection Hrun as <-.
  eexists. split; [vm_compute; reflexivity|]. split; [reflexivity|].
  intros t Hin. apply (Hts _ eq_refl). exact Hin.
Defined.

Lemma next_subtopic_is_preloaded_witness :
  id living_things = "living-things" /\
  exists ts,
    topicsToPreload "living-things" "plants" "science" "grade-4" science_topics
    = Returns (Some ({| topicId := "living-things"; subtopicId := "animals";
                        subjectId := "science"; gradeId := "grade-4" |} :: ts)).
Proof.
  split; [reflexivity|].
  destruct (next_subtopic_is_preloaded "living-things" "plants" "science"
              "grade-4" [] living_things [forces]) as (Hnext & _);
    [constructor|reflexivity|].
  exact (Hnext [] {| st_id := "plants" |} {| st_id := "animals" |} []
           eq_refl ltac:(constructor) eq_refl).
Defined.

End PreloadExamples.
End MoreExamples.
